(** * vmware-nsx: NSX-V QoS rule resolution and backend network reconciliation

    A shallow embedding of

      - [vmware_nsx/services/qos/nsx_v/utils.py]  (class [NsxVQosRule]), and
      - [vmware_nsx/shell/admin/plugins/nsxv/resources/networks.py]
        (the admin commands over backend networks),

    followed by the properties established about them.  Python values are
    modelled as the code uses them: [None] as an [option], integers as [Z],
    floats as IEEE-754 binary64 values ([spec_float]), dictionaries as
    [gmap]s, raised exceptions as the [Raise] outcome of a result type. *)

From Stdlib Require Import ZArith String List Bool Ascii Lia.
From Stdlib Require Import Floats.SpecFloat.
From stdpp Require Import gmap strings list fin_maps.

Local Open Scope string_scope.
Local Open Scope Z_scope.
Local Open Scope list_scope.

(** ** The Python runtime, as far as the two modules use it *)

Module Py.

(** Exceptions that the modelled code can raise or let through. *)
Inductive exn :=
  | AttributeError        (* [None.text], [None.startswith] *)
  | KeyError (key : string)
  | UnboundLocalError (name : string)
  | OverflowError
  | ValueError
  | ParseError            (* xml.etree.ElementTree.ParseError *)
  | ResourceNotFound      (* vshield.common.exceptions.ResourceNotFound *)
  | VcnsApiException (response : string)
  | InvalidInput (msg : string)
  | Exception (msg : string).

(** Outcome of evaluating Python code: a value, or a raised exception. *)
Inductive result (A : Type) :=
  | Ok (a : A)
  | Raise (e : exn).
Arguments Ok {A} a.
Arguments Raise {A} e.

Definition bind {A B} (m : result A) (k : A -> result B) : result B :=
  match m with
  | Ok a => k a
  | Raise e => Raise e
  end.

Definition is_ok {A} (m : result A) : bool :=
  match m with Ok _ => true | Raise _ => false end.

(** [s.startswith(p)] *)
Definition startswith (s p : string) : bool := String.prefix p s.

(** Truth value of a string-or-None: [None] and [''] are false. *)
Definition truthy (o : option string) : bool :=
  match o with
  | None => false
  | Some s => negb (String.eqb s "")
  end.

(** [sep.join(l)] *)
Definition join (sep : string) (l : list string) : string := String.concat sep l.

(** [x in l] for a list of strings, where [x] may be [None]. *)
Definition in_list (x : option string) (l : list string) : bool :=
  match x with
  | None => false
  | Some s => existsb (String.eqb s) l
  end.

End Py.

Import Py.

Notation "'let*' x := m 'in' k" := (Py.bind m (fun x => k))
  (at level 10, x pattern, m at level 100, k at level 200).

(** ** Python floats

    A Python [float] is an IEEE-754 binary64 value.  The operations below
    are the ones [int(round(n * f))] goes through. *)

Module PyFloat.

Definition prec : Z := 53.
Definition emax : Z := 1024.

(** The interpreter running the code: [round] breaks ties away from zero
    and returns a float on Python 2, and rounds ties to even and returns an
    int on Python 3. *)
Variant python := Py2 | Py3.

(** The float nearest to [m * 2^e] (ties to even). *)
Definition of_dyadic (m e : Z) : spec_float := binary_normalize prec emax m e false.

(** Conversion of an int operand ([PyLong_AsDouble]): correctly rounded,
    [OverflowError] when the int is too large for a float. *)
Definition of_int (n : Z) : result spec_float :=
  match of_dyadic n 0 with
  | S754_infinity _ => Raise OverflowError
  | f => Ok f
  end.

(** [n * f] for an int [n] and a float [f]. *)
Definition int_mul (n : Z) (f : spec_float) : result spec_float :=
  let* x := of_int n in Ok (SFmul prec emax x f).

(** Nearest integer to [m / 2^k] for [m >= 0], the tie decided by [py]. *)
Definition round_shift (py : python) (m : Z) (k : Z) : Z :=
  let d := 2 ^ k in
  let q := m / d in
  let r := m mod d in
  match 2 * r ?= d with
  | Lt => q
  | Gt => q + 1
  | Eq => match py with
          | Py2 => q + 1
          | Py3 => if Z.even q then q else q + 1
          end
  end.

(** [int(round(f))]: NaN raises [ValueError] and an infinity raises
    [OverflowError] on both interpreters (from [round] on Python 3, from
    [int] on Python 2). *)
Definition int_round (py : python) (f : spec_float) : result Z :=
  match f with
  | S754_zero _ => Ok 0
  | S754_nan => Raise ValueError
  | S754_infinity _ => Raise OverflowError
  | S754_finite s m e =>
      let n := if 0 <=? e then Z.pos m * 2 ^ e else round_shift py (Z.pos m) (- e) in
      Ok (if s then - n else n)
  end.

End PyFloat.

(** ** services/qos/nsx_v/utils.py *)

Module Qos.

(** [neutron.services.qos.qos_consts]: the two rule-type tags the module
    compares against.  Their values are not part of the sources. *)
Record qos_consts := {
  RULE_TYPE_BANDWIDTH_LIMIT : string;
  RULE_TYPE_DSCP_MARKING : string
}.

(** A rule dictionary of a policy, with the keys the resolver reads. *)
Record rule_obj := {
  type : string;
  max_kbps : Z;
  max_burst_kbps : Z;
  dscp_mark : Z
}.

(** A policy dictionary; [rules] is [None] when the key is absent. *)
Record policy_obj := {
  rules : option (list rule_obj)
}.

(** The QoS service plugin: [get_policy(context, policy_id)]. *)
Record qos_plugin (context : Type) := {
  get_policy : context -> string -> result policy_obj
}.
Arguments get_policy {context} _ _ _.

(** What the resolver reads from its environment: the interpreter, the
    constants, and [cfg.CONF.NSX.qos_peak_bw_multiplier]. *)
Record env := {
  interpreter : PyFloat.python;
  consts : qos_consts;
  qos_peak_bw_multiplier : spec_float
}.

(** The attributes of an [NsxVQosRule] instance. *)
Record NsxVQosRule := {
  bandwidthEnabled : bool;
  averageBandwidth : Z;
  peakBandwidth : Z;
  burstSize : Z;
  dscpMarkEnabled : bool;
  dscpMarkValue : Z
}.

(** The attribute values assigned at the top of [__init__]. *)
Definition default_rule : NsxVQosRule :=
  {| bandwidthEnabled := false;
     averageBandwidth := 0;
     peakBandwidth := 0;
     burstSize := 0;
     dscpMarkEnabled := false;
     dscpMarkValue := 0 |}.

(** [int(round(averageBandwidth * cfg.CONF.NSX.qos_peak_bw_multiplier))] *)
Definition peak_of (E : env) (average : Z) : result Z :=
  let* x := PyFloat.int_mul average (qos_peak_bw_multiplier E) in
  PyFloat.int_round (interpreter E) x.

(** The first [if] of the loop body: a bandwidth-limit rule. *)
Definition apply_bandwidth (E : env) (self : NsxVQosRule) (rule : rule_obj)
  : result NsxVQosRule :=
  if String.eqb (type rule) (RULE_TYPE_BANDWIDTH_LIMIT (consts E)) then
    let average := max_kbps rule * 1024 in
    let* peak := peak_of E average in
    Ok {| bandwidthEnabled := true;
          averageBandwidth := average;
          peakBandwidth := peak;
          burstSize := max_burst_kbps rule * 128;
          dscpMarkEnabled := dscpMarkEnabled self;
          dscpMarkValue := dscpMarkValue self |}
  else Ok self.

(** The second [if] of the loop body: a DSCP-marking rule. *)
Definition apply_dscp (E : env) (self : NsxVQosRule) (rule : rule_obj)
  : NsxVQosRule :=
  if String.eqb (type rule) (RULE_TYPE_DSCP_MARKING (consts E)) then
    {| bandwidthEnabled := bandwidthEnabled self;
       averageBandwidth := averageBandwidth self;
       peakBandwidth := peakBandwidth self;
       burstSize := burstSize self;
       dscpMarkEnabled := true;
       dscpMarkValue := dscp_mark rule |}
  else self.

(** One iteration of [for rule_obj in policy_obj['rules']]. *)
Definition apply_rule (E : env) (self : NsxVQosRule) (rule : rule_obj)
  : result NsxVQosRule :=
  let* self := apply_bandwidth E self rule in
  Ok (apply_dscp E self rule).

(** The whole [for] loop. *)
Fixpoint apply_rules (E : env) (self : NsxVQosRule) (l : list rule_obj)
  : result NsxVQosRule :=
  match l with
  | [] => Ok self
  | rule :: l => let* self := apply_rule E self rule in apply_rules E self l
  end.

(** [NsxVQosRule._init_from_policy_id] *)
Definition _init_from_policy_id {context} (E : env) (plugin : qos_plugin context)
    (self : NsxVQosRule) (ctx : context) (qos_policy_id : option string)
  : result NsxVQosRule :=
  let self := {| bandwidthEnabled := false;
                 averageBandwidth := averageBandwidth self;
                 peakBandwidth := peakBandwidth self;
                 burstSize := burstSize self;
                 dscpMarkEnabled := false;
                 dscpMarkValue := dscpMarkValue self |} in
  match qos_policy_id with
  | Some policy_id =>
      let* policy := get_policy plugin ctx policy_id in
      match rules policy with
      | Some (rule :: l) => apply_rules E self (rule :: l)
      | _ => Ok self
      end
  | None => Ok self
  end.

(** [NsxVQosRule.__init__] *)
Definition __init__ {context} (E : env) (plugin : qos_plugin context)
    (ctx : context) (qos_policy_id : option string) : result NsxVQosRule :=
  match qos_policy_id with
  | Some _ => _init_from_policy_id E plugin default_rule ctx qos_policy_id
  | None => Ok default_rule
  end.

End Qos.

(** ** xml.etree.ElementTree, as far as [networks.py] uses it *)

Module ElementTree.

(** An element: its tag, its text ([None] when it has none) and its
    sub-elements in document order. *)
#[warnings="-register-all"]
Inductive Element :=
  | Elem (tag : string) (text : option string) (children : list Element).

Definition tag (e : Element) : string := let 'Elem t _ _ := e in t.
Definition text (e : Element) : option string := let 'Elem _ x _ := e in x.
Definition children (e : Element) : list Element := let 'Elem _ _ c := e in c.

(** [e.iter(t)]: [e] and every element below it whose tag is [t], in
    document (depth-first) order. *)
Fixpoint iter (t : string) (e : Element) : list Element :=
  match e with
  | Elem tg _ ch =>
      (if String.eqb tg t then [e] else []) ++ List.concat (List.map (iter t) ch)
  end.

(** [e.find(t)]: the first direct child with tag [t], or [None]. *)
Definition find (e : Element) (t : string) : option Element :=
  List.find (fun c => String.eqb (tag c) t) (children e).

(** The text the backend answered with, represented by what
    [et.fromstring] makes of it: a text that is not well-formed XML (the
    empty text is one), or a document with its root element. *)
Variant document :=
  | NotXml (raw : string)
  | Xml (root : Element).

(** [et.fromstring(s)] *)
Definition fromstring (s : document) : result Element :=
  match s with
  | NotXml _ => Raise ParseError
  | Xml root => Ok root
  end.

(** [x.text] where [x] is the outcome of a [find]. *)
Definition text_of (x : option Element) : result (option string) :=
  match x with
  | None => Raise AttributeError
  | Some e => Ok (text e)
  end.

End ElementTree.

(** ** shell/admin/plugins/nsxv/resources/networks.py *)

Module Networks.

Import ElementTree.

(** *** Collaborators outside the module *)

(** A decoded JSON value, as the backend client and [jsonutils.loads]
    return them. *)
#[warnings="-register-all"]
Inductive json :=
  | JNull
  | JBool (b : bool)
  | JNum (n : Z)
  | JStr (s : string)
  | JList (l : list json)
  | JDict (d : list (string * json)).

(** The NSX-V client ([utils.get_nsxv_client()]) over a backend in state
    [B].  Queries read the state; the other calls may change it, also when
    they raise. *)
Record nsxv_client (B : Type) := {
  get_scoping_objects : B -> result document;
  get_vdn_switch : B -> string -> result (json * gmap string json);
  update_vdn_switch : B -> gmap string json -> result json * B;
  delete_port_group : B -> string -> string -> result unit * B;
  delete_virtual_wire : B -> string -> result unit * B
}.
Arguments get_scoping_objects {B} _ _.
Arguments get_vdn_switch {B} _ _ _.
Arguments update_vdn_switch {B} _ _ _.
Arguments delete_port_group {B} _ _ _ _.
Arguments delete_virtual_wire {B} _ _ _.

(** [admin_utils.parse_multi_keyval_opt], [jsonutils.loads] and the class
    [\d] of [re].  A string of the model holds the UTF-8 encoding of the
    text (the bytes of a Python 2 [str]); [decimals] lists the encodings of
    the characters other than [0] to [9] that [\d] matches.  On Python 2
    there are none: a pattern without the UNICODE flag matches [0-9] only.
    On Python 3 they are the characters of category Nd of the interpreter's
    Unicode database, each two to four bytes long, none beginning with one
    of [0] to [9] and none the beginning of another. *)
Record helpers := {
  parse_multi_keyval_opt : list string -> result (gmap string string);
  loads : string -> result json;
  decimals : list string
}.

(** A row of the neutron-to-NSX network mapping table. *)
Record mapping := {
  neutron_id : string;
  nsx_id : string;
  dvs_id : option string
}.

(** Modelled from the spec: the mapping store's [listAllMappings]
    ([nsx_db.get_nsx_networks_mapping], module [vmware_nsx.db.db] is not
    among the sources) returns the records of the store in its order. *)
Definition get_nsx_networks_mapping (session : list mapping) : list mapping :=
  session.

(** Modelled from the spec: the mapping store's [findMappingsByBackendId]
    ([nsx_db.get_nsx_network_mapping_for_nsx_id], same module) returns the
    records whose backend id is the given one; no record has the id [None]. *)
Definition get_nsx_network_mapping_for_nsx_id (session : list mapping)
    (moref : option string) : list mapping :=
  List.filter (fun entry => bool_decide (moref = Some (nsx_id entry))) session.

(** *** Logging and the world the commands act on *)

Variant level := INFO | ERROR.

(** A value handed to a logging call next to its format string. *)
Variant value :=
  | VStr (s : string)
  | VJson (j : json)
  | VSwitch (switch : gmap string json)
  | VExn (e : exn).

(** The arguments of a logging call: positional, or one dictionary. *)
Variant arguments :=
  | Positional (l : list value)
  | Mapping (kv : list (string * value)).

(** One logging call: [LOG.<level>(msg, *args)]. *)
Record record := {
  levelname : level;
  msg : string;
  args : arguments
}.

(** A call on the client that can change the backend. *)
Variant mutation :=
  | UpdateVdnSwitch (switch : gmap string json)
  | DeletePortGroup (dvs_id moref : string)
  | DeleteVirtualWire (moref : string).

(** The backend, the mutating calls issued so far and the log written so
    far, both oldest first. *)
Record world (B : Type) := {
  backend : B;
  calls : list mutation;
  log : list record
}.
Arguments backend {B} _.
Arguments calls {B} _.
Arguments log {B} _.
Arguments Build_world {B} _ _ _.

Definition LOG {B} (l : level) (m : string) (a : arguments) (w : world B) : world B :=
  {| backend := backend w; calls := calls w;
     log := log w ++ [{| levelname := l; msg := m; args := a |}] |}.

(** Issue a mutating call: the backend moves on and the call is noted. *)
Definition call {B A} (c : mutation) (f : B -> result A * B) (w : world B)
  : result A * world B :=
  let '(r, b) := f (backend w) in
  (r, {| backend := b; calls := calls w ++ [c]; log := log w |}).

(** *** Module constants *)

Definition network_types : list string :=
  ["Network"; "VirtualWire"; "DistributedVirtualPortgroup"].

Definition PORTGROUP_PREFIX : string := "dvportgroup".

(** *** Collecting the backend networks *)

(** [get_networks_from_backend] *)
Definition get_networks_from_backend {B} (nsxv : nsxv_client B) (b : B)
  : result Element :=
  let* so_list := get_scoping_objects nsxv b in
  fromstring so_list.

(** An entry of the list built by [get_networks]. *)
Record network := {
  type : option string;
  moref : option string;
  name : option string
}.

(** The loop of [get_networks] over [root.iter('object')]. *)
Fixpoint get_networks_loop (objs : list Element) (networks : list network)
  : result (list network) :=
  match objs with
  | [] => Ok networks
  | obj :: objs =>
      let* t := text_of (find obj "objectTypeName") in
      if in_list t network_types then
        let* ty := text_of (find obj "objectTypeName") in
        let* m := text_of (find obj "objectId") in
        let* n := text_of (find obj "name") in
        get_networks_loop objs (networks ++ [{| type := ty; moref := m; name := n |}])
      else get_networks_loop objs networks
  end.

(** [get_networks] *)
Definition get_networks {B} (nsxv : nsxv_client B) (b : B) : result (list network) :=
  let* root := get_networks_from_backend nsxv b in
  get_networks_loop (iter "object" root) [].

(** The loop of [get_networks_name_map]; the right-hand side of the
    assignment is evaluated before the subscript. *)
Fixpoint get_networks_name_map_loop (objs : list Element)
    (networks : gmap (option string) (option string))
  : result (gmap (option string) (option string)) :=
  match objs with
  | [] => Ok networks
  | obj :: objs =>
      let* t := text_of (find obj "objectTypeName") in
      if in_list t network_types then
        let* n := text_of (find obj "name") in
        let* m := text_of (find obj "objectId") in
        get_networks_name_map_loop objs (<[m := n]> networks)
      else get_networks_name_map_loop objs networks
  end.

(** [get_networks_name_map] *)
Definition get_networks_name_map {B} (nsxv : nsxv_client B) (b : B)
  : result (gmap (option string) (option string)) :=
  let* root := get_networks_from_backend nsxv b in
  get_networks_name_map_loop (iter "object" root) ∅.

(** *** The missing-networks scan *)

(** A row of the table printed by [list_missing_networks]. *)
Record missing_network := {
  missing_neutron_id : string;
  missing_moref : string;
  missing_dvs_id : option string
}.

(** The dictionary appended for [entry]. *)
Definition missing_of (entry : mapping) : missing_network :=
  {| missing_neutron_id := neutron_id entry;
     missing_moref := nsx_id entry;
     missing_dvs_id := dvs_id entry |}.

(** The loop of [list_missing_networks] over the mappings. *)
Fixpoint list_missing_networks_loop
    (backend_networks : gmap (option string) (option string))
    (mappings : list mapping) (missing_networks : list missing_network)
  : result (list missing_network) :=
  match mappings with
  | [] => Ok missing_networks
  | entry :: mappings =>
      match backend_networks !! Some (nsx_id entry) with
      | None =>
          list_missing_networks_loop backend_networks mappings
            (missing_networks ++ [missing_of entry])
      | Some netname =>
          match dvs_id entry with
          | Some d =>
              if truthy (Some d) then
                match netname with
                | None => Raise AttributeError
                | Some netname =>
                    if negb (startswith netname d) then
                      list_missing_networks_loop backend_networks mappings
                        (missing_networks ++ [missing_of entry])
                    else list_missing_networks_loop backend_networks mappings missing_networks
                end
              else list_missing_networks_loop backend_networks mappings missing_networks
          | None => list_missing_networks_loop backend_networks mappings missing_networks
          end
      end
  end.

(** [list_missing_networks]; the value is the list the command prints. *)
Definition list_missing_networks {B} (nsxv : nsxv_client B) (b : B)
    (session : list mapping) : result (list missing_network) :=
  let mappings := get_nsx_networks_mapping session in
  let* backend_networks := get_networks_name_map nsxv b in
  list_missing_networks_loop backend_networks mappings [].

(** *** The orphaned-networks scan *)

(** The inner loop [for entry in neutron_networks].  The local variable
    [found] is [None] while it is unbound; the loop can only bind it to
    [True]. *)
Fixpoint orphaned_entries_loop (backend_name : string)
    (neutron_networks : list mapping) (found : option bool) : option bool :=
  match neutron_networks with
  | [] => found
  | entry :: neutron_networks =>
      let hit :=
        negb (truthy (dvs_id entry)) ||
        match dvs_id entry with
        | Some d => startswith backend_name d
        | None => false
        end in
      orphaned_entries_loop backend_name neutron_networks
        (if hit then Some true else found)
  end.

(** The outer loop [for net in backend_networks]; [found] lives across
    its iterations, as a local variable of the function. *)
Fixpoint list_orphaned_networks_loop (session : list mapping)
    (backend_networks : list network) (found : option bool)
    (missing_networks : list network) : result (list network) :=
  match backend_networks with
  | [] => Ok missing_networks
  | net :: backend_networks =>
      match name net with
      | None => Raise AttributeError
      | Some backend_name =>
          if startswith backend_name "edge-"
             || bool_decide (type net = Some "Network") then
            list_orphaned_networks_loop session backend_networks found missing_networks
          else
            match get_nsx_network_mapping_for_nsx_id session (moref net) with
            | [] =>
                list_orphaned_networks_loop session backend_networks found
                  (missing_networks ++ [net])
            | neutron_networks =>
                match moref net with
                | None => Raise AttributeError
                | Some m =>
                    if startswith m PORTGROUP_PREFIX then
                      let found := orphaned_entries_loop backend_name neutron_networks found in
                      match found with
                      | None => Raise (UnboundLocalError "found")
                      | Some true =>
                          list_orphaned_networks_loop session backend_networks found
                            missing_networks
                      | Some false =>
                          list_orphaned_networks_loop session backend_networks found
                            (missing_networks ++ [net])
                      end
                    else
                      list_orphaned_networks_loop session backend_networks found
                        missing_networks
                end
            end
      end
  end.

(** [list_orphaned_networks]; the value is the list the command prints. *)
Definition list_orphaned_networks {B} (nsxv : nsxv_client B) (b : B)
    (session : list mapping) : result (list network) :=
  let* backend_networks := get_networks nsxv b in
  list_orphaned_networks_loop session backend_networks None [].

(** *** Commands that act on the backend *)

(** The keyword arguments of a command; [property] is [None] when no
    [--property] option was given. *)
Record kwargs := {
  property : option (list string)
}.

(** [not kwargs.get('property')] *)
Definition no_property (kw : kwargs) : bool :=
  match property kw with
  | None | Some [] => true
  | Some (_ :: _) => false
  end.

(** [kwargs['property']], read after [no_property] was found false. *)
Definition property_of (kw : kwargs) : list string := default [] (property kw).

Definition supported_policies : list string :=
  ["ETHER_CHANNEL"; "LOADBALANCE_LOADBASED";
   "LOADBALANCE_SRCID"; "LOADBALANCE_SRCMAC";
   "FAILOVER_ORDER"; "LACP_ACTIVE"; "LACP_PASSIVE";
   "LACP_V2"].

(** [switch['teamingPolicy'] == policy] *)
Definition json_eq_str (j : json) (s : string) : bool :=
  match j with
  | JStr x => String.eqb x s
  | _ => false
  end.

(** [desc.get('details')] followed by [details.startswith(p)]. *)
Definition details_of (desc : json) : result string :=
  match desc with
  | JDict d =>
      match List.find (fun kv => String.eqb (fst kv) "details") d with
      | Some (_, JStr s) => Ok s
      | _ => Raise AttributeError
      end
  | _ => Raise AttributeError
  end.

(** The [except exceptions.VcnsApiException as e] handler of
    [nsx_update_switch].  The exceptions module is not among the sources:
    [VcnsApiException] stands for the API errors that carry a response, and
    what the handler does with another exception of [update_vdn_switch] is
    not relied upon. *)
Definition update_failed {B} (H : helpers) (policy response : string) (w : world B)
  : result unit * world B :=
  match loads H response with
  | Raise e => (Raise e, w)
  | Ok desc =>
      match details_of desc with
      | Raise e => (Raise e, w)
      | Ok details =>
          if startswith details "No enum constant" then
            (Ok tt, LOG ERROR "Unknown teaming policy %s" (Positional [VStr policy]) w)
          else
            (Ok tt, LOG ERROR "Unexpected error occurred: %s" (Positional [VStr details]) w)
      end
  end.

(** [nsx_update_switch] *)
Definition nsx_update_switch {B} (nsxv : nsxv_client B) (H : helpers)
    (kw : kwargs) (w : world B) : result unit * world B :=
  if no_property kw then
    (Ok tt,
     LOG ERROR ("Need to specify dvs-id parameter and " +:+
                "attribute to update. Add --property dvs-id=<dvs-id> " +:+
                "--property teamingpolicy=<policy>") (Positional []) w)
  else
    match parse_multi_keyval_opt H (property_of kw) with
    | Raise e => (Raise e, w)
    | Ok properties =>
        let dvs_id := properties !! "dvs-id" in
        if negb (truthy dvs_id) then
          (Ok tt,
           LOG ERROR ("Need to specify dvs-id. " +:+
                      "Add --property dvs-id=<dvs-id>") (Positional []) w)
        else
          let dvs_id := default "" dvs_id in
          match get_vdn_switch nsxv (backend w) dvs_id with
          | Raise ResourceNotFound =>
              (Ok tt, LOG ERROR "DVS %s not found" (Positional [VStr dvs_id]) w)
          | Raise e => (Raise e, w)
          | Ok (h, switch) =>
              let policy := properties !! "teamingpolicy" in
              if in_list policy supported_policies then
                let policy := default "" policy in
                match switch !! "teamingPolicy" with
                | None => (Raise (KeyError "teamingPolicy"), w)
                | Some current =>
                    if json_eq_str current policy then
                      (Ok tt, LOG INFO "Policy already set!" (Positional []) w)
                    else
                      let w :=
                        LOG INFO ("Updating NSXv switch %(dvs)s teaming policy to " +:+
                                  "%(policy)s")
                          (Mapping [("dvs", VStr dvs_id); ("policy", VStr policy)]) w in
                      let switch := <["teamingPolicy" := JStr policy]> switch in
                      let '(r, w) :=
                        call (UpdateVdnSwitch switch)
                          (fun b => update_vdn_switch nsxv b switch) w in
                      match r with
                      | Raise (VcnsApiException response) =>
                          update_failed H policy response w
                      | Raise e => (Raise e, w)
                      | Ok switch =>
                          (Ok tt,
                           LOG INFO "Switch value after update: %s"
                             (Positional [VJson switch]) w)
                      end
                end
              else
                let w := LOG INFO "Current switch value is: %s"
                           (Positional [VSwitch switch]) w in
                let w := LOG ERROR ("Invalid teaming policy. " +:+
                                    "Add --property teamingpolicy=<policy>")
                           (Positional []) w in
                (Ok tt,
                 LOG ERROR "Possible values: %s"
                   (Positional [VStr (join ", " supported_policies)]) w)
          end
    end.

(** The remainder of [s] after the prefix [p], if [s] starts with [p]. *)
Fixpoint after_prefix (p s : string) : option string :=
  match p, s with
  | EmptyString, _ => Some s
  | String a p, String b s => if Ascii.eqb a b then after_prefix p s else None
  | String _ _, EmptyString => None
  end.

(** One of the characters [0] to [9]. *)
Definition is_digit (c : ascii) : bool :=
  (Nat.leb 48 (nat_of_ascii c) && Nat.leb (nat_of_ascii c) 57)%bool.

(** [\d] at the start of [s]: the character of the class that [s] begins
    with, if there is one.  The characters [0] to [9] are in the class on
    every interpreter; the others are those of [decimals]. *)
Definition decimal_at (decimals : list string) (s : string) : option string :=
  match s with
  | EmptyString => None
  | String c _ =>
      if is_digit c then Some (String c EmptyString)
      else List.find (fun d => String.prefix d s) decimals
  end.

(** What [\d*] matches at the start of [s]: the longest run of characters
    of the class.  [pending] counts the bytes still to be taken of the
    character being read. *)
Fixpoint digits_from (decimals : list string) (pending : nat) (s : string) : string :=
  match s with
  | EmptyString => EmptyString
  | String c s' =>
      match pending with
      | S n => String c (digits_from decimals n s')
      | O =>
          match decimal_at decimals s with
          | Some d =>
              match String.length d with
              | S n => String c (digits_from decimals n s')
              | O => EmptyString
              end
          | None => EmptyString
          end
      end
  end.

Definition digits (decimals : list string) (s : string) : string :=
  digits_from decimals 0 s.

(** [get_dvs_id_from_backend_name]: [re.search(r"^dvs-\d*", backend_name)]
    and, on a match, the matched text; [None] otherwise.  The pattern is
    anchored, so it matches exactly when the name begins with [dvs-]. *)
Definition get_dvs_id_from_backend_name (decimals : list string)
    (backend_name : string) : option string :=
  match after_prefix "dvs-" backend_name with
  | Some rest => Some ("dvs-" +:+ digits decimals rest)
  | None => None
  end.

(** The [try ... except Exception ... else ...] around a deletion call. *)
Definition report_deletion {B} (moref : string) (rw : result unit * world B)
  : result unit * world B :=
  let '(r, w) := rw in
  match r with
  | Raise e =>
      (Ok tt,
       LOG ERROR ("Failed to delete backend network %(moref)s : " +:+ "%(e)s")
         (Mapping [("moref", VStr moref); ("e", VExn e)]) w)
  | Ok _ =>
      (Ok tt,
       LOG INFO "Backend network %(moref)s was deleted"
         (Mapping [("moref", VStr moref)]) w)
  end.

(** [delete_backend_network] *)
Definition delete_backend_network {B} (nsxv : nsxv_client B) (H : helpers)
    (kw : kwargs) (w : world B) : result unit * world B :=
  let errmsg := "Need to specify moref property. Add --property moref=<moref>" in
  if no_property kw then (Ok tt, LOG ERROR "%s" (Positional [VStr errmsg]) w)
  else
    match parse_multi_keyval_opt H (property_of kw) with
    | Raise e => (Raise e, w)
    | Ok properties =>
        let moref := properties !! "moref" in
        if negb (truthy moref) then (Ok tt, LOG ERROR "%s" (Positional [VStr errmsg]) w)
        else
          let moref := default "" moref in
          match get_networks_name_map nsxv (backend w) with
          | Raise e => (Raise e, w)
          | Ok name_map =>
              let backend_name := mjoin (name_map !! Some moref) in
              if negb (truthy backend_name) then
                (Ok tt,
                 LOG ERROR "Failed to find the backend network %(moref)s"
                   (Mapping [("moref", VStr moref)]) w)
              else
                let backend_name := default "" backend_name in
                if startswith moref PORTGROUP_PREFIX then
                  let dvs_id :=
                    get_dvs_id_from_backend_name (decimals H) backend_name in
                  if negb (truthy dvs_id) then
                    (Ok tt,
                     LOG ERROR ("Failed to find the DVS id of backend network " +:+
                                "%(moref)s")
                       (Mapping [("moref", VStr moref)]) w)
                  else
                    let dvs_id := default "" dvs_id in
                    report_deletion moref
                      (call (DeletePortGroup dvs_id moref)
                         (fun b => delete_port_group nsxv b dvs_id moref) w)
                else
                  report_deletion moref
                    (call (DeleteVirtualWire moref)
                       (fun b => delete_virtual_wire nsxv b moref) w)
          end
    end.

End Networks.

(** ** Reference definitions used in the statements *)

Module Reference.

Import Qos.

(** The last rule of [l], in input order, whose type is [kind]. *)
Definition last_rule (kind : string) (l : list rule_obj) : option rule_obj :=
  last (List.filter (fun r => String.eqb (type r) kind) l).

(** The nearest integer to the exact (real-number) product of the integer
    [n] and the float [f]; [None] when [f] is not a number. *)
Definition exact_round_product (py : PyFloat.python) (n : Z) (f : spec_float)
  : option Z :=
  match f with
  | S754_zero _ => Some 0
  | S754_finite s m e =>
      let a := Z.abs n * Z.pos m in
      let r := if 0 <=? e then a * 2 ^ e else PyFloat.round_shift py a (- e) in
      Some (if xorb s (n <? 0) then - r else r)
  | _ => None
  end.

(** What a resolved object shows of the bandwidth rule [r]. *)
Definition carries_bandwidth (E : env) (cfg : NsxVQosRule) (r : rule_obj) : Prop :=
  bandwidthEnabled cfg = true /\
  averageBandwidth cfg = max_kbps r * 1024 /\
  peak_of E (max_kbps r * 1024) = Ok (peakBandwidth cfg) /\
  burstSize cfg = max_burst_kbps r * 128.

(** What a resolved object shows of the DSCP rule [r]. *)
Definition carries_dscp (cfg : NsxVQosRule) (r : rule_obj) : Prop :=
  dscpMarkEnabled cfg = true /\ dscpMarkValue cfg = dscp_mark r.

Definition same_bandwidth (a b : NsxVQosRule) : Prop :=
  bandwidthEnabled a = bandwidthEnabled b /\
  averageBandwidth a = averageBandwidth b /\
  peakBandwidth a = peakBandwidth b /\
  burstSize a = burstSize b.

Definition same_dscp (a b : NsxVQosRule) : Prop :=
  dscpMarkEnabled a = dscpMarkEnabled b /\ dscpMarkValue a = dscpMarkValue b.

(** The peak of every bandwidth rule of [l] can be computed. *)
Definition computable (E : env) (l : list rule_obj) : Prop :=
  forall r, In r l -> type r = RULE_TYPE_BANDWIDTH_LIMIT (consts E) -> exists p, peak_of E (max_kbps r * 1024) = Ok p.


Import Networks.

(** The rule [r] is of one of the two kinds the resolver acts on. *)
Definition supported_kind (E : Qos.env) (r : Qos.rule_obj) : bool :=
  String.eqb (Qos.type r) (Qos.RULE_TYPE_BANDWIDTH_LIMIT (Qos.consts E)) ||
  String.eqb (Qos.type r) (Qos.RULE_TYPE_DSCP_MARKING (Qos.consts E)).

(** The check of the missing-networks scan on one mapping record: its
    backend id is not in the inventory, or its adapter id is non-empty and
    the display name of the object does not begin with it. *)
Definition missing_check (backend_networks : gmap (option string) (option string))
    (entry : mapping) : bool :=
  match backend_networks !! Some (nsx_id entry) with
  | None => true
  | Some netname =>
      truthy (dvs_id entry) &&
      negb (startswith (default "" netname) (default "" (dvs_id entry)))
  end.

(** The adapter check of the orphaned-networks scan on the records of one
    object: some record has an empty adapter id, or one that is a prefix of
    the display name. *)
Definition cleared (backend_name : string) (records : list mapping) : bool :=
  existsb (fun entry =>
             negb (truthy (dvs_id entry)) ||
             startswith backend_name (default "" (dvs_id entry))) records.

(** No object of the listing is of a recognised network type, and each
    has its type field. *)
Definition unrecognised (objs : list ElementTree.Element) : Prop :=
  forall obj, In obj objs ->
    exists t, ElementTree.find obj "objectTypeName" = Some t /\
              in_list (ElementTree.text t) network_types = false.

(** The object [net] is neither an edge network nor a standard network,
    and the store has no record for it. *)
Definition unrecorded (session : list mapping) (net : network) : Prop :=
  exists backend_name,
    name net = Some backend_name /\
    startswith backend_name "edge-" = false /\
    type net <> Some "Network" /\
    get_nsx_network_mapping_for_nsx_id session (moref net) = [].

(** The text of the first child of [obj] tagged [t], if it has both. *)
Definition field (obj : ElementTree.Element) (t : string) : option string :=
  match ElementTree.find obj t with
  | Some child => ElementTree.text child
  | None => None
  end.

(** The object is of one of the three network types. *)
Definition recognised (obj : ElementTree.Element) : bool :=
  in_list (field obj "objectTypeName") network_types.

(** The object has the children the collectors read: its type field, and,
    when it is of a network type, its id and name fields. *)
Definition complete (obj : ElementTree.Element) : bool :=
  match ElementTree.find obj "objectTypeName" with
  | None => false
  | Some _ =>
      if recognised obj then
        match ElementTree.find obj "objectId", ElementTree.find obj "name" with
        | Some _, Some _ => true
        | _, _ => false
        end
      else true
  end.

(** The entry of the list of networks that stands for [obj]. *)
Definition entry_of (obj : ElementTree.Element) : network :=
  {| type := field obj "objectTypeName";
     moref := field obj "objectId";
     name := field obj "name" |}.

(** The name index of a list of networks: later entries overwrite earlier
    ones with the same backend id. *)
Definition name_map_of (nets : list network) : gmap (option string) (option string) :=
  fold_left (fun m net => <[moref net := name net]> m) nets ∅.

(** The orphaned-networks scan passes over [net]: its name begins with
    [edge-] or it is a standard network. *)
Definition skipped (net : network) : bool :=
  match name net with
  | Some backend_name =>
      startswith backend_name "edge-" || bool_decide (type net = Some "Network")
  | None => false
  end.

(** [net] is not passed over and the store has no record for it. *)
Definition unrecordedb (session : list mapping) (net : network) : bool :=
  negb (skipped net) &&
  match get_nsx_network_mapping_for_nsx_id session (moref net) with
  | [] => true
  | _ :: _ => false
  end.

(** [net] reaches the adapter check of the orphaned-networks scan: it is
    not passed over, the store has records for it, and its backend id
    begins with the port-group prefix. *)
Definition checked (session : list mapping) (net : network) : bool :=
  negb (skipped net) &&
  match get_nsx_network_mapping_for_nsx_id session (moref net) with
  | [] => false
  | _ :: _ =>
      match moref net with
      | Some m => startswith m PORTGROUP_PREFIX
      | None => false
      end
  end.

(** The record makes the missing-networks scan read the display name of
    an object that has none. *)
Definition nameless_hit (backend_networks : gmap (option string) (option string))
    (entry : mapping) : bool :=
  truthy (dvs_id entry) &&
  bool_decide (backend_networks !! Some (nsx_id entry) = Some None).

(** [p] occurs somewhere in [s]. *)
Fixpoint occurs_in (p s : string) : bool :=
  String.prefix p s ||
  match s with
  | EmptyString => false
  | String _ s => occurs_in p s
  end.

(** The text of a logged value, when it is a string. *)
Definition value_text (v : value) : string :=
  match v with
  | VStr s => s
  | _ => EmptyString
  end.

(** The logging call [r] shows [p], in its message or in one of its
    string arguments. *)
Definition mentions (p : string) (r : record) : bool :=
  occurs_in p (msg r) ||
  match args r with
  | Positional l => existsb (fun v => occurs_in p (value_text v)) l
  | Mapping kv => existsb (fun x => occurs_in p (value_text (snd x))) kv
  end.

(** The errors logged in [l] show every supported teaming policy. *)
Definition lists_supported_policies (l : list record) : bool :=
  forallb
    (fun p => existsb (fun r => match levelname r with
                                | ERROR => mentions p r
                                | INFO => false
                                end) l)
    supported_policies.

(** [s] begins with one of the characters [0] to [9]. *)
Definition starts_with_digit (s : string) : bool :=
  match s with
  | String c _ => is_digit c
  | EmptyString => false
  end.

(** [s] begins with a character of the class [\d]. *)
Definition starts_with_decimal (decimals : list string) (s : string) : bool :=
  starts_with_digit s ||
  existsb (fun d => negb (String.eqb d "") && String.prefix d s) decimals.


(** [d] is one character of the class [\d]. *)
Definition decimal (decimals : list string) (d : string) : Prop :=
  (exists c, is_digit c = true /\ d = String c EmptyString) \/
  (In d decimals /\ d <> "").

(** [ds] is a run of characters of the class [\d], possibly empty. *)
Inductive decimal_run (decimals : list string) : string -> Prop :=
  | run_nil : decimal_run decimals ""
  | run_cons d ds :
      decimal decimals d -> decimal_run decimals ds ->
      decimal_run decimals (d +:+ ds).

(** [decimals] can be the encodings of characters: none is empty, none
    begins with one of [0] to [9], and none is the beginning of another. *)
Definition unambiguous (decimals : list string) : bool :=
  forallb
    (fun d =>
       negb (String.eqb d "") && negb (starts_with_digit d) &&
       forallb (fun d' => implb (String.prefix d d') (String.eqb d d')) decimals)
    decimals.

(** The log record written after a deletion call, by its outcome. *)
Definition deletion_record (moref : string) (r : result unit) : record :=
  match r with
  | Ok _ =>
      {| levelname := INFO; msg := "Backend network %(moref)s was deleted";
         args := Mapping [("moref", VStr moref)] |}
  | Raise e =>
      {| levelname := ERROR;
         msg := "Failed to delete backend network %(moref)s : %(e)s";
         args := Mapping [("moref", VStr moref); ("e", VExn e)] |}
  end.

(** The listed networks whose backend id is [moref]. *)
Definition listed_as (moref : string) (nets : list network) : list network :=
  List.filter (fun net => bool_decide (Networks.moref net = Some moref)) nets.

End Reference.

(** ** Concrete environments, to run the code on *)

Module Examples.

Import Qos.

(** The rule-type tags of neutron. *)
Definition neutron_consts : qos_consts :=
  {| RULE_TYPE_BANDWIDTH_LIMIT := "bandwidth_limit";
     RULE_TYPE_DSCP_MARKING := "dscp_marking" |}.

Definition bandwidth_limit (kbps burst : Z) : rule_obj :=
  {| type := "bandwidth_limit"; max_kbps := kbps; max_burst_kbps := burst;
     dscp_mark := 0 |}.

Definition dscp_marking (mark : Z) : rule_obj :=
  {| type := "dscp_marking"; max_kbps := 0; max_burst_kbps := 0;
     dscp_mark := mark |}.

(** A QoS plugin holding the policies of an association list. *)
Definition plugin_of (policies : list (string * policy_obj)) : qos_plugin unit :=
  {| get_policy := fun _ policy_id =>
       match List.find (fun kv => String.eqb (fst kv) policy_id) policies with
       | Some (_, policy) => Ok policy
       | None => Raise (Exception "QosPolicyNotFound")
       end |}.

(** The float 1.5. *)
Definition one_and_a_half : spec_float := PyFloat.of_dyadic 3 (-1).

(** The float 1.3338216145833333, that is [6006998526416213 * 2^-52]. *)
Definition awkward_multiplier : spec_float :=
  S754_finite false 6006998526416213 (-52).

Definition env_of (py : PyFloat.python) (multiplier : spec_float) : env :=
  {| interpreter := py; consts := neutron_consts;
     qos_peak_bw_multiplier := multiplier |}.


Import ElementTree Networks.

(** An [<object>] element of the scoping-objects listing. *)
Definition object (ty id nm : string) : Element :=
  Elem "object" None
    [Elem "objectTypeName" (Some ty) [];
     Elem "objectId" (Some id) [];
     Elem "name" (Some nm) []].

(** The listing holding the given elements. *)
Definition scoping_objects (l : list Element) : document :=
  Xml (Elem "scopingObjects" None l).

(** A simulated backend: the listing it answers with, its switches by
    id, and the ids of what was deleted from it. *)
Record sim := {
  inventory : document;
  switches : gmap string (gmap string json);
  deleted : list string
}.

(** A client of the simulated backend. *)
Definition sim_client : nsxv_client sim :=
  {| get_scoping_objects b := Ok (inventory b);
     get_vdn_switch b dvs :=
       match switches b !! dvs with
       | Some switch => Ok (JNull, switch)
       | None => Raise ResourceNotFound
       end;
     update_vdn_switch b switch :=
       match switch !! "objectId" with
       | Some (JStr dvs) =>
           (Ok (JDict (map_to_list switch)),
            {| inventory := inventory b;
               switches := <[dvs := switch]> (switches b);
               deleted := deleted b |})
       | _ => (Raise (VcnsApiException "{}"), b)
       end;
     delete_port_group b dvs moref :=
       (Ok tt, {| inventory := inventory b; switches := switches b;
                  deleted := deleted b ++ [moref] |});
     delete_virtual_wire b moref :=
       (Ok tt, {| inventory := inventory b; switches := switches b;
                  deleted := deleted b ++ [moref] |}) |}.

(** [s.split(c)] *)
Fixpoint split_on (c : ascii) (s : string) : list string :=
  match s with
  | EmptyString => [EmptyString]
  | String a s =>
      if Ascii.eqb a c then EmptyString :: split_on c s
      else match split_on c s with
           | x :: l => String a x :: l
           | [] => [String a EmptyString]
           end
  end.

(** An option parser in the [key=value] style. *)
Definition keyval_parser (opts : list string) : result (gmap string string) :=
  fold_left
    (fun acc opt =>
       let* m := acc in
       match split_on "=" opt with
       | [k; v] => Ok (<[k := v]> m)
       | _ => Raise (InvalidInput opt)
       end)
    opts (Ok ∅).

(** The Arabic-Indic digits, U+0660 to U+0669, in UTF-8. *)
Definition arabic_indic : list string :=
  List.map (fun c => String "217" (String c EmptyString))
    ["160"; "161"; "162"; "163"; "164"; "165"; "166"; "167"; "168"; "169"]%char.

(** Helpers with [\d] as on Python 3, for texts whose digits are [0] to
    [9] or Arabic-Indic. *)
Definition sim_helpers : helpers :=
  {| parse_multi_keyval_opt := keyval_parser;
     loads := fun _ => Ok (JDict []);
     decimals := arabic_indic |}.

(** A backend that answers with the listing [doc] and has one switch,
    [dvs-1], whose teaming policy is [policy]. *)
Definition sim_backend (doc : document) (policy : string) : sim :=
  {| inventory := doc;
     switches := {[ "dvs-1" := {[ "objectId" := JStr "dvs-1";
                                  "teamingPolicy" := JStr policy ]} ]};
     deleted := [] |}.

Definition sim_world (doc : document) (policy : string) : world sim :=
  {| backend := sim_backend doc policy; calls := []; log := [] |}.

(** A client of the simulated backend that refuses every changing call:
    an update with the given response text, a deletion because the network
    is in use. *)
Definition refusing_client (response : string) : nsxv_client sim :=
  {| get_scoping_objects := get_scoping_objects sim_client;
     get_vdn_switch := get_vdn_switch sim_client;
     update_vdn_switch b switch := (Raise (VcnsApiException response), b);
     delete_port_group b dvs moref := (Raise (Exception "in use"), b);
     delete_virtual_wire b moref := (Raise (Exception "in use"), b) |}.

(** Helpers whose decoder reads every response as the description of an
    error that has the response text as its details. *)
Definition describing_helpers : helpers :=
  {| parse_multi_keyval_opt := keyval_parser;
     loads := fun s => Ok (JDict [("errorCode", JNum 100); ("details", JStr s)]);
     decimals := arabic_indic |}.

End Examples.

(** * Properties *)

(** ** The QoS rule resolver *)

Module QosFacts.

Import Qos Reference.

Section Resolver.

Variable E : env.

Local Abbreviation BW := (RULE_TYPE_BANDWIDTH_LIMIT (consts E)).
Local Abbreviation DSCP := (RULE_TYPE_DSCP_MARKING (consts E)).

Lemma last_rule_snoc kind l r :
  last_rule kind (l ++ [r]) =
  if String.eqb (type r) kind then Some r else last_rule kind l.
Proof.
  unfold last_rule. rewrite List.filter_app. simpl.
  destruct (String.eqb (type r) kind).
  - apply last_snoc.
  - now rewrite app_nil_r.
Qed.

Lemma apply_rules_snoc self l r :
  apply_rules E self (l ++ [r]) =
  let* s := apply_rules E self l in apply_rule E s r.
Proof.
  revert self. induction l as [|x l IH]; intros self; simpl.
  - now destruct (apply_rule E self r).
  - destruct (apply_rule E self x); simpl; [apply IH | reflexivity].
Qed.

(** One iteration: the rule's kind decides which half of the object is
    rewritten, the other half is kept. *)
Lemma apply_rule_effect self r cfg :
  apply_rule E self r = Ok cfg ->
  (if String.eqb (type r) BW then carries_bandwidth E cfg r else same_bandwidth cfg self) /\
  (if String.eqb (type r) DSCP then carries_dscp cfg r else same_dscp cfg self).
Proof.
  unfold apply_rule, apply_bandwidth, apply_dscp, carries_bandwidth, carries_dscp,
    same_bandwidth, same_dscp.
  destruct (String.eqb (type r) BW).
  - destruct (peak_of E (max_kbps r * 1024)) as [p|e] eqn:Hp; simpl; [|discriminate].
    destruct (String.eqb (type r) DSCP); intros [= <-]; simpl; auto 10.
  - simpl. destruct (String.eqb (type r) DSCP); intros [= <-]; simpl; auto 10.
Qed.

(** The loop leaves in each half of the object what the last rule of that
    kind put there, or what was there before when there is no such rule. *)
Lemma apply_rules_last l : forall self cfg,
  apply_rules E self l = Ok cfg ->
  match last_rule BW l with
  | Some r => carries_bandwidth E cfg r
  | None => same_bandwidth cfg self
  end /\
  match last_rule DSCP l with
  | Some r => carries_dscp cfg r
  | None => same_dscp cfg self
  end.
Proof.
  induction l as [|r l IH] using rev_ind; intros self cfg.
  - simpl. intros [= <-]. unfold same_bandwidth, same_dscp. auto 10.
  - rewrite apply_rules_snoc, !last_rule_snoc.
    destruct (apply_rules E self l) as [s|e] eqn:Hl; simpl; [|discriminate].
    intros Hr. destruct (IH _ _ Hl) as [Hb Hd].
    destruct (apply_rule_effect _ _ _ Hr) as [Hb' Hd'].
    split.
    + destruct (String.eqb (type r) BW); [exact Hb'|].
      destruct (last_rule BW l).
      * unfold carries_bandwidth, same_bandwidth in *. intuition congruence.
      * unfold same_bandwidth in *. intuition congruence.
    + destruct (String.eqb (type r) DSCP); [exact Hd'|].
      destruct (last_rule DSCP l).
      * unfold carries_dscp, same_dscp in *. intuition congruence.
      * unfold same_dscp in *. intuition congruence.
Qed.

(** The loop runs to its end exactly when every peak can be computed. *)
Lemma apply_rules_total l : forall self,
  computable E l -> exists cfg, apply_rules E self l = Ok cfg.
Proof.
  induction l as [|r l IH]; intros self Hc; simpl.
  - eauto.
  - assert (exists s, apply_rule E self r = Ok s) as [s Hs].
    { unfold apply_rule, apply_bandwidth.
      destruct (String.eqb (type r) BW) eqn:Ht.
      - apply String.eqb_eq in Ht.
        destruct (Hc r (or_introl eq_refl) Ht) as [p Hp]. rewrite Hp. simpl. eauto.
      - simpl. eauto. }
    rewrite Hs. simpl. apply IH. intros x Hx. apply Hc. now right.
Qed.

End Resolver.

(** [__init__] on a policy that is found and has rules [l]. *)
Lemma init_rules {context} E (plugin : qos_plugin context) ctx policy_id l :
  get_policy plugin ctx policy_id = Ok {| rules := Some l |} ->
  __init__ E plugin ctx (Some policy_id) = apply_rules E default_rule l.
Proof.
  intros Hp. unfold __init__, _init_from_policy_id. rewrite Hp. simpl.
  now destruct l.
Qed.

Lemma last_rule_found kind pre r post :
  type r = kind ->
  (forall x, In x post -> type x <> kind) ->
  last_rule kind (pre ++ r :: post) = Some r.
Proof.
  intros Hr Hpost. unfold last_rule.
  rewrite List.filter_app. simpl.
  apply String.eqb_eq in Hr. rewrite Hr.
  replace (List.filter (fun r0 => String.eqb (type r0) kind) post) with (@nil rule_obj).
  - apply last_snoc.
  - symmetry. induction post as [|x post IH]; simpl; [reflexivity|].
    destruct (String.eqb (type x) kind) eqn:Hx.
    + apply String.eqb_eq in Hx. exfalso. eapply Hpost; [now left|exact Hx].
    + apply IH. intros y Hy. apply Hpost. now right.
Qed.

Import Examples.

(** C4 (as amended).  For a policy that is found, whose last
    bandwidth-limit rule is [r], and whose bandwidth rules all have a
    computable peak, the resolver returns an object with
    [averageBandwidth = max_kbps * 1024] and [burstSize = max_burst_kbps * 128]
    as integers, and with [peakBandwidth] the integer nearest to the
    binary64 product of [averageBandwidth] and the configured multiplier. *)
Theorem bandwidth_rule_conversions {context} E (plugin : qos_plugin context)
    ctx policy_id (pre : list rule_obj) (r : rule_obj) (post : list rule_obj) :
  get_policy plugin ctx policy_id = Ok {| rules := Some (pre ++ r :: post) |} ->
  type r = RULE_TYPE_BANDWIDTH_LIMIT (consts E) ->
  (forall x, In x post -> type x <> RULE_TYPE_BANDWIDTH_LIMIT (consts E)) ->
  computable E (pre ++ r :: post) ->
  exists cfg product,
    __init__ E plugin ctx (Some policy_id) = Ok cfg /\
    bandwidthEnabled cfg = true /\
    averageBandwidth cfg = max_kbps r * 1024 /\
    burstSize cfg = max_burst_kbps r * 128 /\
    PyFloat.int_mul (averageBandwidth cfg) (qos_peak_bw_multiplier E) = Ok product /\
    PyFloat.int_round (interpreter E) product = Ok (peakBandwidth cfg).
Proof.
  intros Hp Hr Hpost Hc.
  rewrite (init_rules _ _ _ _ _ Hp).
  destruct (apply_rules_total E _ default_rule Hc) as [cfg Hcfg].
  destruct (apply_rules_last E _ _ _ Hcfg) as [Hb _].
  rewrite (last_rule_found _ pre r post Hr Hpost) in Hb.
  destruct Hb as (Hen & Havg & Hpeak & Hburst).
  unfold peak_of in Hpeak. rewrite <- Havg in Hpeak.
  destruct (PyFloat.int_mul (averageBandwidth cfg) (qos_peak_bw_multiplier E))
    as [product|e] eqn:Hmul; simpl in Hpeak; [|discriminate].
  exists cfg, product. auto 10.
Qed.

(** The policy [{max_kbps: 100, max_burst_kbps: 10}] under the multiplier
    1.5 resolves to 102400, 1280 and 153600. *)
Lemma bandwidth_rule_conversions_example :
  exists cfg,
    __init__ (env_of PyFloat.Py3 one_and_a_half)
      (plugin_of [("p", {| rules := Some [bandwidth_limit 100 10] |})])
      tt (Some "p") = Ok cfg /\
    averageBandwidth cfg = 102400 /\
    burstSize cfg = 1280 /\
    peakBandwidth cfg = 153600.
Proof.
  destruct (bandwidth_rule_conversions (env_of PyFloat.Py3 one_and_a_half)
              (plugin_of [("p", {| rules := Some [bandwidth_limit 100 10] |})])
              tt "p" [] (bandwidth_limit 100 10) [])
    as (cfg & product & Hinit & _ & Havg & Hburst & Hmul & Hround).
  - reflexivity.
  - reflexivity.
  - intros x [].
  - intros x [<-|[]] _. eexists. vm_compute. reflexivity.
  - exists cfg. simpl in Havg, Hburst.
    rewrite Havg in Hmul. vm_compute in Hmul.
    injection Hmul as <-. vm_compute in Hround. injection Hround as Hpeak.
    repeat split; try assumption. symmetry. exact Hpeak.
Defined.

(** C4 (the claim as stated fails).  With [max_kbps = 3] and the multiplier
    1.3338216145833333 the exact product is [4097.5 - 2^-42], whose nearest
    integer is 4097; its binary64 rounding is 4097.5, and the resolver
    stores 4098, on either interpreter. *)
Lemma peak_is_not_the_exact_rounding :
  let plugin := plugin_of [("p", {| rules := Some [bandwidth_limit 3 0] |})] in
  (exists cfg,
     __init__ (env_of PyFloat.Py3 awkward_multiplier) plugin tt (Some "p") = Ok cfg /\
     averageBandwidth cfg = 3 * 1024 /\
     peakBandwidth cfg = 4098 /\
     exact_round_product PyFloat.Py3 (averageBandwidth cfg) awkward_multiplier
     = Some 4097) /\
  (exists cfg,
     __init__ (env_of PyFloat.Py2 awkward_multiplier) plugin tt (Some "p") = Ok cfg /\
     averageBandwidth cfg = 3 * 1024 /\
     peakBandwidth cfg = 4098 /\
     exact_round_product PyFloat.Py2 (averageBandwidth cfg) awkward_multiplier
     = Some 4097) /\
  (2 * 4097 - 1) * 2 ^ 52 < 2 * (3 * 1024 * 6006998526416213) < (2 * 4097 + 1) * 2 ^ 52.
Proof.
  cbv zeta. split; [|split].
  - eexists. split; [vm_compute; reflexivity|]. repeat split.
  - eexists. split; [vm_compute; reflexivity|]. repeat split.
  - split; vm_compute; reflexivity.
Qed.



(** C6.  Without a policy id, and for a policy that is found and has no
    rules (an empty list, or no list at all), the resolver returns, without
    raising, an object with both flags false and all four numbers zero. *)
Theorem no_policy_or_no_rules_resolves_to_defaults {context} E
    (plugin : qos_plugin context) ctx :
  let unset :=
    {| bandwidthEnabled := false; averageBandwidth := 0; peakBandwidth := 0;
       burstSize := 0; dscpMarkEnabled := false; dscpMarkValue := 0 |} in
  __init__ E plugin ctx None = Ok unset /\
  forall policy_id policy,
    get_policy plugin ctx policy_id = Ok policy ->
    rules policy = None \/ rules policy = Some [] ->
    __init__ E plugin ctx (Some policy_id) = Ok unset.
Proof.
  cbv zeta. split; [reflexivity|].
  intros policy_id policy Hp Hrules.
  unfold __init__, _init_from_policy_id. rewrite Hp. simpl.
  destruct Hrules as [-> | ->]; reflexivity.
Qed.

(** A policy with an empty rule list, and one without the key. *)
Lemma no_policy_or_no_rules_resolves_to_defaults_example :
  let plugin := plugin_of [("empty", {| rules := Some [] |});
                           ("bare", {| rules := None |})] in
  let E := env_of PyFloat.Py3 one_and_a_half in
  __init__ E plugin tt None = Ok default_rule /\
  __init__ E plugin tt (Some "empty") = Ok default_rule /\
  __init__ E plugin tt (Some "bare") = Ok default_rule.
Proof.
  cbv zeta.
  pose proof (no_policy_or_no_rules_resolves_to_defaults
                (env_of PyFloat.Py3 one_and_a_half)
                (plugin_of [("empty", {| rules := Some [] |});
                            ("bare", {| rules := None |})]) tt) as [Hnone Hsome].
  split; [exact Hnone|]. split.
  - apply (Hsome "empty" {| rules := Some [] |}); [reflexivity | right; reflexivity].
  - apply (Hsome "bare" {| rules := None |}); [reflexivity | left; reflexivity].
Defined.

End QosFacts.

(** ** Truth values *)

Lemma truthy_Some (s : string) : s <> "" -> truthy (Some s) = true.
Proof.
  intros Hs. simpl. destruct (String.eqb s "") eqn:He; [|reflexivity].
  apply String.eqb_eq in He. contradiction.
Qed.

(** ** The inventory collector and the two scans *)

Module ScanFacts.

Import ElementTree Networks Reference Examples.

Lemma truthy_true (o : option string) :
  truthy o = true <-> exists s, o = Some s /\ s <> "".
Proof.
  destruct o as [s|]; simpl.
  - destruct (String.eqb s "") eqn:He; simpl.
    + apply String.eqb_eq in He. split; [discriminate|].
      intros (s' & [= <-] & Hs). contradiction.
    + apply String.eqb_neq in He. split; eauto.
  - split; [discriminate|]. intros (s & Hs & _). discriminate.
Qed.

(** *** The collector *)

Lemma get_networks_loop_unrecognised objs : forall networks,
  unrecognised objs -> get_networks_loop objs networks = Ok networks.
Proof.
  induction objs as [|obj objs IH]; intros networks Hu; simpl; [reflexivity|].
  destruct (Hu obj (or_introl eq_refl)) as (t & -> & Ht). simpl.
  rewrite Ht. apply IH. intros o Ho. apply Hu. now right.
Qed.

Lemma get_networks_name_map_loop_unrecognised objs : forall networks,
  unrecognised objs -> get_networks_name_map_loop objs networks = Ok networks.
Proof.
  induction objs as [|obj objs IH]; intros networks Hu; simpl; [reflexivity|].
  destruct (Hu obj (or_introl eq_refl)) as (t & -> & Ht). simpl.
  rewrite Ht. apply IH. intros o Ho. apply Hu. now right.
Qed.

(** C2 (as amended).  When the backend answers with a document in which no
    object element is of a recognised network type (each object element
    having its [objectTypeName] field), both collectors return an empty
    collection without raising; when it answers with a text that does not
    parse, both raise the parser's error. *)
Theorem collectors_on_empty_and_unparsable_responses {B}
    (nsxv : nsxv_client B) (b : B) :
  (forall root,
     get_scoping_objects nsxv b = Ok (Xml root) ->
     unrecognised (iter "object" root) ->
     get_networks nsxv b = Ok [] /\ get_networks_name_map nsxv b = Ok ∅) /\
  (forall raw,
     get_scoping_objects nsxv b = Ok (NotXml raw) ->
     get_networks nsxv b = Raise ParseError /\
     get_networks_name_map nsxv b = Raise ParseError).
Proof.
  split.
  - intros root Hq Hu.
    unfold get_networks, get_networks_name_map, get_networks_from_backend.
    rewrite Hq. simpl.
    now rewrite get_networks_loop_unrecognised, get_networks_name_map_loop_unrecognised.
  - intros raw Hq.
    unfold get_networks, get_networks_name_map, get_networks_from_backend.
    rewrite Hq. split; reflexivity.
Qed.

(** A listing with nothing in it, one with a datacenter only, and the
    empty text. *)
Lemma collectors_on_empty_and_unparsable_responses_example :
  (get_networks sim_client (sim_backend (scoping_objects []) "LACP_V2") = Ok [] /\
   get_networks_name_map sim_client (sim_backend (scoping_objects []) "LACP_V2") = Ok ∅) /\
  (get_networks sim_client
     (sim_backend (scoping_objects [object "Datacenter" "datacenter-2" "DC"]) "LACP_V2")
   = Ok [] /\
   get_networks_name_map sim_client
     (sim_backend (scoping_objects [object "Datacenter" "datacenter-2" "DC"]) "LACP_V2")
   = Ok ∅) /\
  (get_networks sim_client (sim_backend (NotXml "") "LACP_V2") = Raise ParseError /\
   get_networks_name_map sim_client (sim_backend (NotXml "") "LACP_V2") = Raise ParseError).
Proof.
  split; [|split].
  - apply (proj1 (collectors_on_empty_and_unparsable_responses sim_client
                    (sim_backend (scoping_objects []) "LACP_V2"))
             (Elem "scopingObjects" None []) eq_refl).
    intros obj [].
  - apply (proj1 (collectors_on_empty_and_unparsable_responses sim_client
                    (sim_backend (scoping_objects [object "Datacenter" "datacenter-2" "DC"])
                       "LACP_V2"))
             (Elem "scopingObjects" None [object "Datacenter" "datacenter-2" "DC"]) eq_refl).
    intros obj [<-|[]]. eexists. split; reflexivity.
  - apply (proj2 (collectors_on_empty_and_unparsable_responses sim_client
                    (sim_backend (NotXml "") "LACP_V2")) "" eq_refl).
Defined.

(** C2 (the claim as stated fails).  The empty text, which is not XML,
    makes both collectors raise [ParseError]; the document
    [<scopingObjects><object/></scopingObjects>], whose object has no
    [objectTypeName], makes both raise [AttributeError]. *)
Lemma collectors_raise_on_malformed_responses :
  get_networks sim_client (sim_backend (NotXml "") "LACP_V2") = Raise ParseError /\
  get_networks_name_map sim_client (sim_backend (NotXml "") "LACP_V2") = Raise ParseError /\
  get_networks sim_client
    (sim_backend (scoping_objects [Elem "object" None []]) "LACP_V2")
  = Raise AttributeError /\
  get_networks_name_map sim_client
    (sim_backend (scoping_objects [Elem "object" None []]) "LACP_V2")
  = Raise AttributeError.
Proof. repeat split. Qed.

(** *** The missing-networks scan *)

Lemma missing_of_inj a b : missing_of a = missing_of b -> a = b.
Proof. destruct a, b. unfold missing_of. simpl. now intros [= -> -> ->]. Qed.

(** With a display name for every object, the loop appends the records
    that fail the check, in the order of the mappings. *)
Lemma list_missing_networks_loop_filter
    (backend_networks : gmap (option string) (option string)) :
  (forall k, backend_networks !! k <> Some None) ->
  forall mappings missing_networks,
    list_missing_networks_loop backend_networks mappings missing_networks =
    Ok (missing_networks ++
        List.map missing_of (List.filter (missing_check backend_networks) mappings)).
Proof.
  intros Hnames. induction mappings as [|entry mappings IH]; intros acc; simpl.
  - now rewrite app_nil_r.
  - unfold missing_check at 1.
    destruct (backend_networks !! Some (nsx_id entry)) as [netname|] eqn:Hk.
    + destruct netname as [netname|]; [|now apply Hnames in Hk].
      destruct (dvs_id entry) as [d|]; simpl.
      * destruct (String.eqb d ""); simpl; [apply IH|].
        destruct (startswith netname d); simpl; [apply IH|].
        rewrite IH. now rewrite <- app_assoc.
      * apply IH.
    + simpl. rewrite IH. now rewrite <- app_assoc.
Qed.

Lemma missing_check_true
    (backend_networks : gmap (option string) (option string)) R :
  (forall k, backend_networks !! k <> Some None) ->
  missing_check backend_networks R = true <->
  backend_networks !! Some (nsx_id R) = None \/
  exists d netname,
    dvs_id R = Some d /\ d <> "" /\
    backend_networks !! Some (nsx_id R) = Some (Some netname) /\
    startswith netname d = false.
Proof.
  intros Hnames. unfold missing_check.
  destruct (backend_networks !! Some (nsx_id R)) as [[netname|]|] eqn:Hk.
  - rewrite andb_true_iff, truthy_true, negb_true_iff. split.
    + intros [(d & Hd & Hne) Hs]. right. exists d, netname.
      rewrite Hd in Hs. simpl in Hs. auto.
    + intros [|(d & n & Hd & Hne & [= <-] & Hs)]; [discriminate|].
      rewrite Hd. simpl. eauto.
  - now apply Hnames in Hk.
  - tauto.
Qed.

(** C3.  When every inventoried object has a display name, the scan
    returns a list, and a mapping record is in it exactly when its backend
    id is absent from the inventory, or its adapter id is non-empty and the
    display name of the inventoried object does not begin with it. *)
Theorem missing_list_characterised {B} (nsxv : nsxv_client B) (b : B)
    (session : list mapping)
    (backend_networks : gmap (option string) (option string)) :
  get_networks_name_map nsxv b = Ok backend_networks ->
  (forall k, backend_networks !! k <> Some None) ->
  exists missing,
    list_missing_networks nsxv b session = Ok missing /\
    forall R, In R session ->
      (In (missing_of R) missing <->
       backend_networks !! Some (nsx_id R) = None \/
       exists d netname,
         dvs_id R = Some d /\ d <> "" /\
         backend_networks !! Some (nsx_id R) = Some (Some netname) /\
         startswith netname d = false).
Proof.
  intros Hmap Hnames. eexists. split.
  - unfold list_missing_networks. rewrite Hmap. simpl.
    apply (list_missing_networks_loop_filter _ Hnames).
  - intros R HR. simpl. unfold get_nsx_networks_mapping.
    rewrite <- (missing_check_true _ _ Hnames), in_map_iff. split.
    + intros (R' & Heq & Hin). apply missing_of_inj in Heq. subst R'.
      now apply filter_In in Hin.
    + intros Hc. exists R. split; [reflexivity|]. now apply filter_In.
Qed.

(** Two port groups on the backend; the record of the first names its
    adapter, the record of the second names another adapter, and a third
    record points at nothing: the last two are missing, the first is not. *)
Lemma missing_list_characterised_example :
  let b := sim_backend
             (scoping_objects
                [object "DistributedVirtualPortgroup" "dvportgroup-1" "dvs-1-a";
                 object "DistributedVirtualPortgroup" "dvportgroup-2" "dvs-2-b"])
             "LACP_V2" in
  let r1 := {| neutron_id := "n1"; nsx_id := "dvportgroup-1"; dvs_id := Some "dvs-1" |} in
  let r2 := {| neutron_id := "n2"; nsx_id := "dvportgroup-2"; dvs_id := Some "dvs-9" |} in
  let r3 := {| neutron_id := "n3"; nsx_id := "virtualwire-7"; dvs_id := None |} in
  exists missing,
    list_missing_networks sim_client b [r1; r2; r3] = Ok missing /\
    ~ In (missing_of r1) missing /\
    In (missing_of r2) missing /\
    In (missing_of r3) missing.
Proof.
  cbv zeta.
  destruct (missing_list_characterised sim_client
              (sim_backend
                 (scoping_objects
                    [object "DistributedVirtualPortgroup" "dvportgroup-1" "dvs-1-a";
                     object "DistributedVirtualPortgroup" "dvportgroup-2" "dvs-2-b"])
                 "LACP_V2")
              [{| neutron_id := "n1"; nsx_id := "dvportgroup-1"; dvs_id := Some "dvs-1" |};
               {| neutron_id := "n2"; nsx_id := "dvportgroup-2"; dvs_id := Some "dvs-9" |};
               {| neutron_id := "n3"; nsx_id := "virtualwire-7"; dvs_id := None |}]
              (<[Some "dvportgroup-2" := Some "dvs-2-b"]>
                 (<[Some "dvportgroup-1" := Some "dvs-1-a"]> ∅)))
    as (missing & Hrun & Hiff).
  - reflexivity.
  - intros k Hk.
    apply lookup_insert_Some in Hk as [[_ Hk]|[_ Hk]]; [discriminate|].
    apply lookup_insert_Some in Hk as [[_ Hk]|[_ Hk]]; [discriminate|].
    now rewrite lookup_empty in Hk.
  - exists missing. split; [exact Hrun|]. split; [|split].
    + intros Hin. apply Hiff in Hin; [|simpl; auto].
      destruct Hin as [Hin|(d & n & Hd & _ & Hn & Hs)].
      * vm_compute in Hin. discriminate.
      * simpl in Hd, Hn. injection Hd as <-.
        vm_compute in Hn. injection Hn as <-. vm_compute in Hs. discriminate.
    + apply Hiff; [simpl; auto|]. right. exists "dvs-9", "dvs-2-b".
      repeat split. discriminate.
    + apply Hiff; [simpl; auto|]. left. vm_compute. reflexivity.
Defined.

(** *** The orphaned-networks scan *)

(** The first port group the scan meets that has records none of which
    clears it stops the scan: [found] is read before it was ever bound. *)
Lemma first_uncleared_port_group_raises session net backend_networks
    missing_networks backend_name m :
  name net = Some backend_name ->
  startswith backend_name "edge-" = false ->
  type net <> Some "Network" ->
  moref net = Some m ->
  startswith m PORTGROUP_PREFIX = true ->
  get_nsx_network_mapping_for_nsx_id session (Some m) <> [] ->
  cleared backend_name (get_nsx_network_mapping_for_nsx_id session (Some m)) = false ->
  list_orphaned_networks_loop session (net :: backend_networks) None missing_networks
  = Raise (UnboundLocalError "found").
Proof.
  intros Hn He Ht Hm Hp Hrec Hc. simpl.
  rewrite Hn, He, Hm. simpl.
  rewrite bool_decide_eq_false_2 by exact Ht.
  destruct (get_nsx_network_mapping_for_nsx_id session (Some m)) as [|r l] eqn:Hl;
    [contradiction|].
  rewrite Hp.
  assert (forall rs, cleared backend_name rs = false ->
                     orphaned_entries_loop backend_name rs None = None) as Hloop.
  { induction rs as [|x rs IH]; simpl; [reflexivity|].
    intros Hx. apply orb_false_iff in Hx as [Hx Hrs].
    apply orb_false_iff in Hx as [Hx1 Hx2].
    rewrite Hx1. destruct (dvs_id x) as [d|]; simpl in *.
    - rewrite Hx2. now apply IH.
    - discriminate. }
  pose proof (Hloop _ Hc) as Hunbound. simpl in Hunbound. now rewrite Hunbound.
Qed.

(** The inner loop never binds [found] to [False]. *)
Lemma orphaned_entries_loop_not_false backend_name neutron_networks :
  forall found,
    found <> Some false ->
    orphaned_entries_loop backend_name neutron_networks found <> Some false.
Proof.
  induction neutron_networks as [|entry l IH]; intros found Hf; simpl; [exact Hf|].
  apply IH. now destruct (_ || _).
Qed.

(** What the scan reports, when it returns: only objects without any
    record.  A port group that has records is never reported, whether a
    record clears it or not. *)
Lemma list_orphaned_networks_loop_reports session backend_networks :
  forall found missing_networks result,
    found <> Some false ->
    list_orphaned_networks_loop session backend_networks found missing_networks
    = Ok result ->
    forall net, In net result ->
      In net missing_networks \/ (In net backend_networks /\ unrecorded session net).
Proof.
  induction backend_networks as [|x nets IH]; intros found acc result Hf; simpl.
  - intros [= <-] net Hin. now left.
  - destruct (name x) as [backend_name|] eqn:Hn; [|intros Hrun; discriminate Hrun].
    destruct (startswith backend_name "edge-") eqn:He; simpl.
    { intros Hrun net Hin. destruct (IH _ _ _ Hf Hrun net Hin) as [?|[? ?]]; auto. }
    destruct (bool_decide (type x = Some "Network")) eqn:Ht.
    { intros Hrun net Hin. destruct (IH _ _ _ Hf Hrun net Hin) as [?|[? ?]]; auto. }
    apply bool_decide_eq_false in Ht.
    destruct (get_nsx_network_mapping_for_nsx_id session (moref x)) as [|r l] eqn:Hl.
    { intros Hrun net Hin. destruct (IH _ _ _ Hf Hrun net Hin) as [Hacc|[? ?]]; auto.
      apply in_app_or in Hacc as [?|[<-|[]]]; auto.
      right. split; [now left|]. exists backend_name. auto. }
    destruct (moref x) as [m|]; [|intros Hrun; discriminate Hrun].
    destruct (startswith m PORTGROUP_PREFIX).
    + pose proof (orphaned_entries_loop_not_false backend_name (r :: l) found Hf) as Hnf.
      simpl in Hnf.
      destruct (orphaned_entries_loop backend_name l _) as [[|]|] eqn:Hloop;
        [|contradiction|intros Hrun; discriminate Hrun].
      intros Hrun net Hin.
      assert (Some true <> Some false) as Hbound by discriminate.
      destruct (IH _ _ _ Hbound Hrun net Hin) as [?|[? ?]]; auto.
    + intros Hrun net Hin. destruct (IH _ _ _ Hf Hrun net Hin) as [?|[? ?]]; auto.
Qed.

(** C9 (the code fails the claim).  One port group on the backend, with one
    mapping record that names another adapter: the scan raises
    [UnboundLocalError] instead of returning a list. *)
Theorem orphaned_scan_raises_on_first_uncleared_port_group :
  list_orphaned_networks sim_client
    (sim_backend
       (scoping_objects
          [object "DistributedVirtualPortgroup" "dvportgroup-2" "dvs-2-b"])
       "LACP_V2")
    [{| neutron_id := "n2"; nsx_id := "dvportgroup-2"; dvs_id := Some "dvs-9" |}]
  = Raise (UnboundLocalError "found").
Proof. vm_compute. reflexivity. Qed.

(** C1 (the code fails the claim).  Two port groups on the backend.  The
    record of the first names its adapter; the only record of the second
    names an adapter that is no prefix of its display name, so the second
    is to be classified orphaned.  The scan returns an empty list: [found],
    bound when the first was examined, is still [True] when the second is.
    With the second alone in the inventory, and the same store, the scan
    does not return at all. *)
Theorem orphaned_scan_keeps_found_across_objects :
  let first := object "DistributedVirtualPortgroup" "dvportgroup-1" "dvs-1-a" in
  let second := object "DistributedVirtualPortgroup" "dvportgroup-2" "dvs-2-b" in
  let store :=
    [{| neutron_id := "n1"; nsx_id := "dvportgroup-1"; dvs_id := Some "dvs-1" |};
     {| neutron_id := "n2"; nsx_id := "dvportgroup-2"; dvs_id := Some "dvs-9" |}] in
  get_nsx_network_mapping_for_nsx_id store (Some "dvportgroup-2")
  = [{| neutron_id := "n2"; nsx_id := "dvportgroup-2"; dvs_id := Some "dvs-9" |}] /\
  cleared "dvs-2-b" (get_nsx_network_mapping_for_nsx_id store (Some "dvportgroup-2"))
  = false /\
  list_orphaned_networks sim_client
    (sim_backend (scoping_objects [first; second]) "LACP_V2") store = Ok [] /\
  list_orphaned_networks sim_client
    (sim_backend (scoping_objects [second]) "LACP_V2") store
  = Raise (UnboundLocalError "found").
Proof. cbv zeta. repeat split; vm_compute; reflexivity. Qed.

End ScanFacts.

(** ** The commands that act on the backend *)

Module CommandFacts.

Import ElementTree Networks Reference Examples.

Lemma in_list_Some (s : string) (l : list string) :
  In s l -> in_list (Some s) l = true.
Proof.
  intros Hin. simpl. apply existsb_exists. exists s. split; [exact Hin|].
  apply String.eqb_refl.
Qed.

Lemma after_prefix_Some p : forall s r, after_prefix p s = Some r <-> s = p +:+ r.
Proof.
  induction p as [|a p IH]; intros s r; simpl.
  - split; [now intros [= ->] | now intros ->].
  - destruct s as [|b s]; [split; discriminate|].
    destruct (Ascii.eqb a b) eqn:Hab.
    + apply Ascii.eqb_eq in Hab. subst b. rewrite IH.
      split; [now intros -> | now intros [= ->]].
    + apply Ascii.eqb_neq in Hab. split; [discriminate|].
      intros [= <- _]. contradiction.
Qed.



(** Pass a guard [if not <option>] whose option is given and non-empty. *)
Ltac pass_guard Hopt Htruthy :=
  rewrite Hopt, Htruthy; simpl negb; cbv iota; simpl default.


(** C10.  When the options name an adapter that exists and a teaming
    policy of the supported set that the adapter already has, the command
    only logs that the policy is set: no mutating call is issued, and the
    backend and the adapter record it holds stay as they were. *)
Theorem same_teaming_policy_changes_nothing {B} (nsxv : nsxv_client B)
    (H : helpers) (kw : kwargs) (w : world B)
    (properties : gmap string string) (dvs_id policy : string)
    (h : json) (switch : gmap string json) :
  no_property kw = false ->
  parse_multi_keyval_opt H (property_of kw) = Ok properties ->
  properties !! "dvs-id" = Some dvs_id ->
  dvs_id <> "" ->
  get_vdn_switch nsxv (backend w) dvs_id = Ok (h, switch) ->
  properties !! "teamingpolicy" = Some policy ->
  In policy supported_policies ->
  switch !! "teamingPolicy" = Some (JStr policy) ->
  exists w',
    nsx_update_switch nsxv H kw w = (Ok tt, w') /\
    calls w' = calls w /\
    backend w' = backend w /\
    get_vdn_switch nsxv (backend w') dvs_id = Ok (h, switch) /\
    log w' = log w ++ [{| levelname := INFO; msg := "Policy already set!";
                          args := Positional [] |}].
Proof.
  intros Hnp Hparse Hdvs Hne Hget Hpol Hin Hcur.
  eexists. split.
  - unfold nsx_update_switch. rewrite Hnp, Hparse. cbv zeta.
    pass_guard Hdvs (truthy_Some _ Hne).
    rewrite Hget, Hpol, (in_list_Some _ _ Hin). simpl default.
    rewrite Hcur. simpl json_eq_str. rewrite String.eqb_refl. reflexivity.
  - simpl. auto.
Qed.

(** The switch [dvs-1] has policy [LACP_V2], and [LACP_V2] is asked for. *)
Lemma same_teaming_policy_changes_nothing_example :
  exists w',
    nsx_update_switch sim_client sim_helpers
      {| property := Some ["dvs-id=dvs-1"; "teamingpolicy=LACP_V2"] |}
      (sim_world (scoping_objects []) "LACP_V2") = (Ok tt, w') /\
    calls w' = [] /\
    backend w' = sim_backend (scoping_objects []) "LACP_V2".
Proof.
  destruct (same_teaming_policy_changes_nothing sim_client sim_helpers
              {| property := Some ["dvs-id=dvs-1"; "teamingpolicy=LACP_V2"] |}
              (sim_world (scoping_objects []) "LACP_V2")
              {[ "dvs-id" := "dvs-1"; "teamingpolicy" := "LACP_V2" ]}
              "dvs-1" "LACP_V2" JNull
              {[ "objectId" := JStr "dvs-1"; "teamingPolicy" := JStr "LACP_V2" ]})
    as (w' & Hrun & Hcalls & Hbackend & _).
  - reflexivity.
  - vm_compute. reflexivity.
  - vm_compute. reflexivity.
  - discriminate.
  - vm_compute. reflexivity.
  - vm_compute. reflexivity.
  - simpl. tauto.
  - vm_compute. reflexivity.
  - exists w'. auto.
Defined.

Lemma possible_values_mention_every_policy p :
  In p supported_policies ->
  mentions p {| levelname := ERROR; msg := "Possible values: %s";
                args := Positional [VStr (join ", " supported_policies)] |} = true.
Proof.
  intros Hin. repeat (destruct Hin as [<-|Hin]; [vm_compute; reflexivity|]).
  destruct Hin.
Qed.

(** C7 (as amended).  When the teaming policy given is not one of the
    supported set, the command issues no mutating call and leaves the
    backend as it was; when moreover an adapter id is given and the adapter
    exists, the command returns after logging the current switch and two
    errors, the second of which shows every supported policy. *)
Theorem unsupported_teaming_policy_is_rejected {B} (nsxv : nsxv_client B)
    (H : helpers) (kw : kwargs) (w : world B) :
  (forall properties,
     parse_multi_keyval_opt H (property_of kw) = Ok properties ->
     in_list (properties !! "teamingpolicy") supported_policies = false) ->
  (calls (snd (nsx_update_switch nsxv H kw w)) = calls w /\
   backend (snd (nsx_update_switch nsxv H kw w)) = backend w) /\
  (forall properties dvs_id h switch,
     no_property kw = false ->
     parse_multi_keyval_opt H (property_of kw) = Ok properties ->
     properties !! "dvs-id" = Some dvs_id ->
     dvs_id <> "" ->
     get_vdn_switch nsxv (backend w) dvs_id = Ok (h, switch) ->
     let possible :=
       {| levelname := ERROR; msg := "Possible values: %s";
          args := Positional [VStr (join ", " supported_policies)] |} in
     fst (nsx_update_switch nsxv H kw w) = Ok tt /\
     log (snd (nsx_update_switch nsxv H kw w)) =
       log w ++
       [{| levelname := INFO; msg := "Current switch value is: %s";
           args := Positional [VSwitch switch] |};
        {| levelname := ERROR;
           msg := "Invalid teaming policy. Add --property teamingpolicy=<policy>";
           args := Positional [] |};
        possible] /\
     forall p, In p supported_policies -> mentions p possible = true).
Proof.
  intros Hbad. split.
  - unfold nsx_update_switch.
    destruct (no_property kw); [simpl; auto|].
    destruct (parse_multi_keyval_opt H (property_of kw)) as [properties|e] eqn:Hp;
      [|auto].
    specialize (Hbad _ eq_refl). cbv zeta.
    destruct (negb (truthy (properties !! "dvs-id"))); [simpl; auto|].
    destruct (get_vdn_switch nsxv (backend w) (default "" (properties !! "dvs-id")))
      as [[h switch]|e].
    + rewrite Hbad. simpl. auto.
    + destruct e; simpl; auto.
  - intros properties dvs_id h switch Hnp Hparse Hdvs Hne Hget. cbv zeta.
    specialize (Hbad _ Hparse).
    unfold nsx_update_switch. rewrite Hnp, Hparse. cbv zeta.
    pass_guard Hdvs (truthy_Some _ Hne).
    rewrite Hget, Hbad. simpl.
    split; [reflexivity|]. split.
    + now rewrite <- !app_assoc.
    + apply possible_values_mention_every_policy.
Qed.

(** The policy [BOGUS] asked for the switch [dvs-1]. *)
Lemma unsupported_teaming_policy_is_rejected_example :
  let kw := {| property := Some ["dvs-id=dvs-1"; "teamingpolicy=BOGUS"] |} in
  let w := sim_world (scoping_objects []) "LACP_V2" in
  calls (snd (nsx_update_switch sim_client sim_helpers kw w)) = [] /\
  backend (snd (nsx_update_switch sim_client sim_helpers kw w)) = backend w /\
  lists_supported_policies (log (snd (nsx_update_switch sim_client sim_helpers kw w)))
  = true.
Proof.
  cbv zeta.
  destruct (unsupported_teaming_policy_is_rejected sim_client sim_helpers
              {| property := Some ["dvs-id=dvs-1"; "teamingpolicy=BOGUS"] |}
              (sim_world (scoping_objects []) "LACP_V2"))
    as [[Hcalls Hbackend] Hlog].
  - intros properties Hp. vm_compute in Hp. injection Hp as <-.
    vm_compute. reflexivity.
  - split; [exact Hcalls|]. split; [exact Hbackend|].
    destruct (Hlog {[ "dvs-id" := "dvs-1"; "teamingpolicy" := "BOGUS" ]}
                "dvs-1" JNull
                {[ "objectId" := JStr "dvs-1"; "teamingPolicy" := JStr "LACP_V2" ]})
      as (_ & -> & _).
    + reflexivity.
    + vm_compute. reflexivity.
    + vm_compute. reflexivity.
    + discriminate.
    + vm_compute. reflexivity.
    + vm_compute. reflexivity.
Defined.

(** C7 (the claim as stated fails).  The policy [BOGUS] is not supported.
    Given without an adapter id, the command logs one error, which asks for
    the adapter id; given for the adapter [dvs-404], which the backend does
    not have, the command logs one error, which says so.  Neither output
    shows the supported policies. *)
Lemma unsupported_teaming_policy_without_adapter :
  let w := sim_world (scoping_objects []) "LACP_V2" in
  in_list (Some "BOGUS") supported_policies = false /\
  nsx_update_switch sim_client sim_helpers
    {| property := Some ["teamingpolicy=BOGUS"] |} w
  = (Ok tt,
     LOG ERROR "Need to specify dvs-id. Add --property dvs-id=<dvs-id>"
       (Positional []) w) /\
  lists_supported_policies
    (log (snd (nsx_update_switch sim_client sim_helpers
                 {| property := Some ["teamingpolicy=BOGUS"] |} w))) = false /\
  nsx_update_switch sim_client sim_helpers
    {| property := Some ["dvs-id=dvs-404"; "teamingpolicy=BOGUS"] |} w
  = (Ok tt, LOG ERROR "DVS %s not found" (Positional [VStr "dvs-404"]) w) /\
  lists_supported_policies
    (log (snd (nsx_update_switch sim_client sim_helpers
                 {| property := Some ["dvs-id=dvs-404"; "teamingpolicy=BOGUS"] |} w)))
  = false.
Proof. cbv zeta. repeat split; vm_compute; reflexivity. Qed.




End CommandFacts.

(** ** More on the QoS rule resolver *)

Module ResolverFacts.

Import Qos Reference Examples.

Lemma apply_rule_ignored E self r :
  supported_kind E r = false -> apply_rule E self r = Ok self.
Proof.
  unfold supported_kind, apply_rule, apply_bandwidth, apply_dscp.
  intros [-> ->]%orb_false_iff. reflexivity.
Qed.

Lemma apply_rules_filter E l : forall self,
  apply_rules E self (List.filter (supported_kind E) l) = apply_rules E self l.
Proof.
  induction l as [|r l IH]; intros self; simpl; [reflexivity|].
  destruct (supported_kind E r) eqn:Hk; simpl.
  - destruct (apply_rule E self r); simpl; [apply IH|reflexivity].
  - rewrite (apply_rule_ignored _ _ _ Hk). simpl. apply IH.
Qed.

(** Rules of other types leave no trace: a policy and the policy obtained
    from it by dropping every rule that is neither a bandwidth-limit nor a
    DSCP-marking rule resolve alike, to the same object or the same error. *)
Theorem other_rule_types_are_ignored {context} E (plugin : qos_plugin context)
    ctx policy_id trimmed_id (l : list rule_obj) :
  get_policy plugin ctx policy_id = Ok {| rules := Some l |} ->
  get_policy plugin ctx trimmed_id
  = Ok {| rules := Some (List.filter (supported_kind E) l) |} ->
  __init__ E plugin ctx (Some policy_id) = __init__ E plugin ctx (Some trimmed_id).
Proof.
  intros Hp Ht.
  rewrite (QosFacts.init_rules _ _ _ _ _ Hp), (QosFacts.init_rules _ _ _ _ _ Ht).
  symmetry. apply apply_rules_filter.
Qed.

Lemma other_rule_types_are_ignored_example :
  let plugin :=
    plugin_of
      [("full", {| rules := Some [{| type := "minimum_bandwidth"; max_kbps := 7;
                                     max_burst_kbps := 7; dscp_mark := 7 |};
                                  bandwidth_limit 100 10;
                                  {| type := "packet_rate_limit"; max_kbps := 9;
                                     max_burst_kbps := 9; dscp_mark := 9 |};
                                  dscp_marking 16] |});
       ("trimmed", {| rules := Some [bandwidth_limit 100 10; dscp_marking 16] |})] in
  __init__ (env_of PyFloat.Py3 one_and_a_half) plugin tt (Some "full")
  = __init__ (env_of PyFloat.Py3 one_and_a_half) plugin tt (Some "trimmed").
Proof.
  cbv zeta.
  apply (other_rule_types_are_ignored (env_of PyFloat.Py3 one_and_a_half) _ tt
           "full" "trimmed"
           [{| type := "minimum_bandwidth"; max_kbps := 7;
               max_burst_kbps := 7; dscp_mark := 7 |};
            bandwidth_limit 100 10;
            {| type := "packet_rate_limit"; max_kbps := 9;
               max_burst_kbps := 9; dscp_mark := 9 |};
            dscp_marking 16]); reflexivity.
Defined.

(** The loop stops at the first bandwidth rule whose peak cannot be
    computed, with the error of that computation. *)
Lemma apply_rules_raise_iff E e (l : list rule_obj) : forall self,
  apply_rules E self l = Raise e <->
  exists pre r post,
    l = pre ++ r :: post /\
    computable E pre /\
    type r = RULE_TYPE_BANDWIDTH_LIMIT (consts E) /\
    peak_of E (max_kbps r * 1024) = Raise e.
Proof.
  induction l as [|x l IH]; intros self; simpl.
  - split; [discriminate|]. intros (pre & r & post & Hl & _). now destruct pre.
  - unfold apply_rule at 1, apply_bandwidth at 1.
    destruct (String.eqb (type x) (RULE_TYPE_BANDWIDTH_LIMIT (consts E))) eqn:Hx.
    + apply String.eqb_eq in Hx.
      destruct (peak_of E (max_kbps x * 1024)) as [p|e'] eqn:Hp; simpl.
      * rewrite IH. split.
        -- intros (pre & r & post & -> & Hc & Hr & He).
           exists (x :: pre), r, post. repeat split; auto.
           intros y [<-|Hy] Hty; [eauto|now apply Hc].
        -- intros (pre & r & post & Hl & Hc & Hr & He).
           destruct pre as [|y pre]; simpl in Hl; injection Hl as <- ->.
           ++ congruence.
           ++ exists pre, r, post. repeat split; auto.
              intros z Hz. apply Hc. now right.
      * split.
        -- intros [= ->]. exists [], x, l. repeat split; auto. intros y [].
        -- intros (pre & r & post & Hl & Hc & Hr & He).
           destruct pre as [|y pre]; simpl in Hl; injection Hl as <- ->.
           ++ congruence.
           ++ destruct (Hc x (or_introl eq_refl) Hx) as [p Hp']. congruence.
    + apply String.eqb_neq in Hx. simpl. rewrite IH. split.
      * intros (pre & r & post & -> & Hc & Hr & He).
        exists (x :: pre), r, post. repeat split; auto.
        intros y [<-|Hy] Hty; [contradiction|now apply Hc].
      * intros (pre & r & post & Hl & Hc & Hr & He).
        destruct pre as [|y pre]; simpl in Hl; injection Hl as <- ->.
        -- contradiction.
        -- exists pre, r, post. repeat split; auto.
           intros z Hz. apply Hc. now right.
Qed.

(** The resolver raises exactly in two cases: the plugin raises while
    looking the policy up, and that exception goes through; or the policy
    has a bandwidth rule whose peak cannot be computed, and the error of
    the first such rule goes through, whatever rules follow it. *)
Theorem resolver_raises_iff {context} E (plugin : qos_plugin context) ctx
    policy_id e :
  __init__ E plugin ctx (Some policy_id) = Raise e <->
  get_policy plugin ctx policy_id = Raise e \/
  exists (pre : list rule_obj) (r : rule_obj) (post : list rule_obj),
    get_policy plugin ctx policy_id = Ok {| rules := Some (pre ++ r :: post) |} /\
    computable E pre /\
    type r = RULE_TYPE_BANDWIDTH_LIMIT (consts E) /\
    peak_of E (max_kbps r * 1024) = Raise e.
Proof.
  destruct (get_policy plugin ctx policy_id) as [[[l|]]|e'] eqn:Hp.
  - rewrite (QosFacts.init_rules _ _ _ _ _ Hp), apply_rules_raise_iff. split.
    + intros (pre & r & post & -> & H). right. exists pre, r, post. tauto.
    + intros [Hr|(pre & r & post & [= ->] & H)]; [discriminate|].
      exists pre, r, post. tauto.
  - unfold __init__, _init_from_policy_id. rewrite Hp. simpl. split.
    + discriminate.
    + intros [Hr|(pre & r & post & Hr & _)]; discriminate.
  - unfold __init__, _init_from_policy_id. rewrite Hp. simpl. split.
    + intros [= ->]. now left.
    + intros [[= ->]|(pre & r & post & Hr & _)]; [reflexivity|discriminate].
Qed.

(** An unknown policy, and a policy whose second bandwidth rule is too
    large for a float. *)
Lemma resolver_raises_iff_example :
  let plugin :=
    plugin_of
      [("huge", {| rules := Some [bandwidth_limit 100 10;
                                  bandwidth_limit (2 ^ 1020) 10;
                                  bandwidth_limit 1 1] |})] in
  let E := env_of PyFloat.Py3 one_and_a_half in
  __init__ E plugin tt (Some "unknown") = Raise (Exception "QosPolicyNotFound") /\
  __init__ E plugin tt (Some "huge") = Raise OverflowError.
Proof.
  cbv zeta. split.
  - apply (proj2 (resolver_raises_iff (env_of PyFloat.Py3 one_and_a_half) _ tt
                    "unknown" (Exception "QosPolicyNotFound"))).
    left. reflexivity.
  - apply (proj2 (resolver_raises_iff (env_of PyFloat.Py3 one_and_a_half) _ tt
                    "huge" OverflowError)).
    right. exists [bandwidth_limit 100 10], (bandwidth_limit (2 ^ 1020) 10),
             [bandwidth_limit 1 1].
    split; [reflexivity|]. split; [|split; [reflexivity|vm_compute; reflexivity]].
    intros x [<-|[]] _. eexists. vm_compute. reflexivity.
Defined.

End ResolverFacts.

(** ** Floating-point products that are exact *)

Module FloatFacts.

Import Qos Reference Examples.

(** *** Sizes of mantissas *)

Lemma digits2_size p : digits2_pos p = Pos.size p.
Proof. induction p; simpl; congruence. Qed.

Lemma digits_bounds p :
  2 ^ (Z.pos (digits2_pos p) - 1) <= Z.pos p < 2 ^ Z.pos (digits2_pos p).
Proof.
  rewrite digits2_size. split.
  - pose proof (Pos.size_le p) as H.
    apply Pos2Z.pos_le_pos in H. rewrite Pos2Z.inj_pow in H.
    replace (Z.pos (Pos.size p)) with (Z.pos (Pos.size p) - 1 + 1) in H by lia.
    rewrite Z.pow_add_r in H by lia. change (2 ^ 1) with 2 in H. lia.
  - pose proof (Pos.size_gt p) as H.
    apply Pos2Z.pos_lt_pos in H. now rewrite Pos2Z.inj_pow in H.
Qed.

Lemma digits_unique p d :
  2 ^ (d - 1) <= Z.pos p < 2 ^ d -> Z.pos (digits2_pos p) = d.
Proof.
  intros [Hl Hu]. destruct (digits_bounds p) as [Hl' Hu'].
  assert (0 < d).
  { destruct (Z_lt_le_dec 0 d); [assumption|].
    assert (2 ^ d <= 2 ^ 0) by (apply Z.pow_le_mono_r; lia). simpl in *. lia. }
  assert (d - 1 < Z.pos (digits2_pos p)).
  { apply (Z.pow_lt_mono_r_iff 2); lia. }
  assert (Z.pos (digits2_pos p) - 1 < d).
  { apply (Z.pow_lt_mono_r_iff 2); lia. }
  lia.
Qed.

Lemma digits_shift p q k :
  0 <= k -> Z.pos q = Z.pos p * 2 ^ k ->
  Z.pos (digits2_pos q) = Z.pos (digits2_pos p) + k.
Proof.
  intros Hk Hq. apply digits_unique. rewrite Hq.
  destruct (digits_bounds p) as [Hl Hu].
  replace (Z.pos (digits2_pos p) + k - 1) with (Z.pos (digits2_pos p) - 1 + k) by lia.
  rewrite !Z.pow_add_r by lia.
  assert (0 < 2 ^ k) by (apply Z.pow_pos_nonneg; lia).
  split; nia.
Qed.

Lemma digits_mono p q :
  Z.pos p <= Z.pos q -> Z.pos (digits2_pos p) <= Z.pos (digits2_pos q).
Proof.
  intros Hpq. destruct (digits_bounds p) as [Hl _], (digits_bounds q) as [_ Hu].
  assert (Z.pos (digits2_pos p) - 1 < Z.pos (digits2_pos q)).
  { apply (Z.pow_lt_mono_r_iff 2); lia. }
  lia.
Qed.

Lemma digits_le p d : 0 <= d -> Z.pos p < 2 ^ d -> Z.pos (digits2_pos p) <= d.
Proof.
  intros Hd Hp. destruct (digits_bounds p) as [Hl _].
  assert (Z.pos (digits2_pos p) - 1 < d).
  { apply (Z.pow_lt_mono_r_iff 2); lia. }
  lia.
Qed.

Lemma iter_pos_iter {A} (f : A -> A) n : forall x, SpecFloat.iter_pos f n x = Pos.iter f x n.
Proof.
  induction n as [n IH|n IH|]; intros x; simpl.
  - rewrite !IH. now rewrite <- !Pos.iter_swap.
  - now rewrite !IH.
  - reflexivity.
Qed.

Lemma shr_1_double b :
  0 < b ->
  shr_1 {| shr_m := b * 2; shr_r := false; shr_s := false |}
  = {| shr_m := b; shr_r := false; shr_s := false |}.
Proof.
  intros Hb. destruct b as [|p|p]; try lia.
  replace (Z.pos p * 2) with (Z.pos p~0) by lia. reflexivity.
Qed.

Lemma iter_pos_shr_exact k : forall a,
  0 < a ->
  SpecFloat.iter_pos shr_1 k {| shr_m := a * 2 ^ Z.pos k; shr_r := false; shr_s := false |}
  = {| shr_m := a; shr_r := false; shr_s := false |}.
Proof.
  intros a Ha. rewrite iter_pos_iter. revert a Ha.
  induction k as [|k IH] using Pos.peano_ind; intros a Ha.
  - simpl Pos.iter. replace (a * 2 ^ 1) with (a * 2) by lia. now apply shr_1_double.
  - rewrite Pos.iter_succ_r, Pos2Z.inj_succ, Z.pow_succ_r by lia.
    replace (a * (2 * 2 ^ Z.pos k)) with (a * 2 ^ Z.pos k * 2) by lia.
    rewrite shr_1_double; [now apply IH|].
    assert (0 < 2 ^ Z.pos k) by (apply Z.pow_pos_nonneg; lia). nia.
Qed.

Lemma iter_xO p k : Z.pos (Pos.iter xO p k) = Z.pos p * 2 ^ Z.pos k.
Proof.
  induction k as [|k IH] using Pos.peano_ind.
  - simpl. lia.
  - rewrite Pos.iter_succ, Pos2Z.inj_xO, IH, Pos2Z.inj_succ, Z.pow_succ_r by lia. lia.
Qed.

(** A 53-bit mantissa followed by [c] zero bits is rounded to itself. *)
Lemma binary_round_aux_exact m1 e1 c mz :
  Z.pos (digits2_pos m1) = 53 ->
  -1074 <= e1 <= 971 ->
  0 <= c ->
  Z.pos mz = Z.pos m1 * 2 ^ c ->
  binary_round_aux 53 1024 false (Z.pos mz) (e1 - c) loc_Exact
  = S754_finite false m1 e1.
Proof.
  intros Hd He Hc Hmz.
  pose proof (digits_shift m1 mz c Hc Hmz) as Hdz.
  unfold binary_round_aux, shr_fexp. simpl Zdigits2. simpl shr_record_of_loc.
  rewrite Hdz, Hd.
  replace (fexp 53 1024 (53 + c + (e1 - c)) - (e1 - c)) with c
    by (unfold fexp, emin; lia).
  assert (forall m e, Z.pos (digits2_pos m) = 53 -> -1074 <= e <= 971 ->
            (let '(mrs, e') :=
               shr {| shr_m := Z.pos m; shr_r := false; shr_s := false |} e
                 (fexp 53 1024 (Zdigits2 (Z.pos m) + e) - e) in
             match shr_m mrs with
             | 0 => S754_zero false
             | Z.pos m' =>
                 if e' <=? 1024 - 53 then S754_finite false m' e'
                 else S754_infinity false
             | Z.neg _ => S754_nan
             end) = S754_finite false m e) as Hsecond.
  { intros m e Hm Hr. simpl Zdigits2. rewrite Hm.
    replace (fexp 53 1024 (53 + e) - e) with 0 by (unfold fexp, emin; lia).
    simpl. change (1024 - 53) with 971.
    destruct (Z.leb_spec e 971); [reflexivity|lia]. }
  destruct c as [|k|k]; try lia.
  - assert (mz = m1) as -> by lia. replace (e1 - 0) with e1 by lia.
    cbn [shr]. cbv beta iota zeta.
    cbn [shr_m loc_of_shr_record round_nearest_even].
    now apply Hsecond.
  - unfold shr at 1. rewrite Hmz, iter_pos_shr_exact by lia.
    replace (e1 - Z.pos k + Z.pos k) with e1 by lia.
    cbv beta iota zeta.
    cbn [shr_m loc_of_shr_record round_nearest_even].
    now apply Hsecond.
Qed.

Lemma binary_round_aux_fixed m e :
  Z.pos (digits2_pos m) = 53 ->
  -1074 <= e <= 971 ->
  binary_round_aux 53 1024 false (Z.pos m) e loc_Exact = S754_finite false m e.
Proof.
  intros Hd He. rewrite <- (Z.sub_0_r e) at 1.
  apply binary_round_aux_exact; lia.
Qed.

(** *** Rounding to an integer *)

Lemma round_shift_exact py x k :
  0 <= k -> PyFloat.round_shift py (x * 2 ^ k) k = x.
Proof.
  intros Hk. unfold PyFloat.round_shift.
  assert (0 < 2 ^ k) as Hd by (apply Z.pow_pos_nonneg; lia).
  rewrite Z.div_mul, Z.mod_mul by lia.
  destruct (Z.compare_spec (2 * 0) (2 ^ k)); [lia|reflexivity|lia].
Qed.

Lemma round_shift_scale py m k c :
  0 <= k -> 0 <= c ->
  PyFloat.round_shift py (m * 2 ^ c) (k + c) = PyFloat.round_shift py m k.
Proof.
  intros Hk Hc. unfold PyFloat.round_shift.
  assert (0 < 2 ^ k) as Hdk by (apply Z.pow_pos_nonneg; lia).
  assert (0 < 2 ^ c) as Hdc by (apply Z.pow_pos_nonneg; lia).
  rewrite Z.pow_add_r by lia.
  rewrite Z.div_mul_cancel_r, Z.mul_mod_distr_r by lia.
  replace (2 * (m mod 2 ^ k * 2 ^ c)) with (2 * (m mod 2 ^ k) * 2 ^ c) by lia.
  now rewrite <- Zmult_compare_compat_r by lia.
Qed.

(** *** The conversion of an int below [2^53] *)

Lemma of_int_exact p :
  Z.pos p < 2 ^ 53 ->
  exists mx,
    PyFloat.of_int (Z.pos p)
    = Ok (S754_finite false mx (Z.pos (digits2_pos p) - 53)) /\
    Z.pos mx = Z.pos p * 2 ^ (53 - Z.pos (digits2_pos p)) /\
    Z.pos (digits2_pos mx) = 53.
Proof.
  intros Hp. pose proof (digits_le p 53 ltac:(lia) Hp) as Hd.
  unfold PyFloat.of_int, PyFloat.of_dyadic, PyFloat.prec, PyFloat.emax,
    binary_normalize, binary_round.
  replace (fexp 53 1024 (Z.pos (digits2_pos p) + 0))
    with (Z.pos (digits2_pos p) - 53) by (unfold fexp, emin; lia).
  unfold shl_align.
  destruct (Z.pos (digits2_pos p) - 53 - 0) as [|k|k] eqn:Hk; try lia.
  - exists p. rewrite binary_round_aux_fixed by lia.
    replace (53 - Z.pos (digits2_pos p)) with 0 by lia.
    replace (Z.pos (digits2_pos p) - 53) with 0 by lia.
    repeat split; lia.
  - pose proof (iter_xO p k) as Hm.
    pose proof (digits_shift p (Pos.iter xO p k) (Z.pos k) ltac:(lia) Hm) as Hdm.
    exists (Pos.iter xO p k). rewrite binary_round_aux_fixed by lia.
    replace (53 - Z.pos (digits2_pos p)) with (Z.pos k) by lia.
    repeat split; [exact Hm|lia].
Qed.

(** *** The peak, when the product fits in 53 bits *)

Lemma round_shift_zero py k : 0 <= k -> PyFloat.round_shift py 0 k = 0.
Proof.
  intros Hk. replace 0 with (0 * 2 ^ k) at 1 by lia. now apply round_shift_exact.
Qed.

(** The product of an int below [2^53] and a float of 53-bit mantissa
    [my = M * 2^t] is the float of mantissa [m1] and exponent [e1], when
    [p * M] still fits in 53 bits. *)
Lemma int_mul_exact p my ey pm t :
  Z.pos (digits2_pos my) = 53 ->
  -52 <= ey <= 0 ->
  Z.pos my = Z.pos pm * 2 ^ t ->
  0 <= t ->
  Z.pos p * Z.pos pm < 2 ^ 53 ->
  exists m1 e1,
    PyFloat.int_mul (Z.pos p) (S754_finite false my ey) = Ok (S754_finite false m1 e1) /\
    ey <= e1 <= 52 /\
    Z.pos p * Z.pos my = Z.pos m1 * 2 ^ (e1 - ey).
Proof.
  intros Hdy Hey Hmy Ht Hfit.
  pose proof (digits_shift pm my t Ht Hmy) as HdM.
  assert (Z.pos p <= Z.pos (p * pm)) as Hle1 by nia.
  assert (Z.pos pm <= Z.pos (p * pm)) as Hle2 by nia.
  pose proof (digits_mono _ _ Hle1) as Hd1.
  pose proof (digits_mono _ _ Hle2) as Hd2.
  assert (Z.pos (p * pm) < 2 ^ 53) as Hfit' by (rewrite Pos2Z.inj_mul; exact Hfit).
  pose proof (digits_le _ 53 ltac:(lia) Hfit') as Hd3.
  assert (Z.pos p < 2 ^ 53) as Hp by lia.
  destruct (of_int_exact p Hp) as (mx & Hx & Hmx & Hdx).
  set (d := Z.pos (digits2_pos p)) in *.
  set (dpm := Z.pos (digits2_pos (p * pm))) in *.
  set (dM := Z.pos (digits2_pos pm)) in *.
  assert (0 < 2 ^ (53 - dpm)) as Hpow by (apply Z.pow_pos_nonneg; lia).
  set (m1 := Z.to_pos (Z.pos (p * pm) * 2 ^ (53 - dpm))).
  assert (Z.pos m1 = Z.pos (p * pm) * 2 ^ (53 - dpm)) as Hm1
    by (unfold m1; rewrite Z2Pos.id; [reflexivity|nia]).
  pose proof (digits_shift (p * pm) m1 (53 - dpm) ltac:(lia) Hm1) as Hdm1.
  fold dpm in Hdm1.
  exists m1, (ey + t + dpm - 53).
  split; [|split].
  - unfold PyFloat.int_mul. rewrite Hx. simpl bind.
    unfold SFmul, PyFloat.prec, PyFloat.emax. simpl xorb.
    replace (d - 53 + ey) with (ey + t + dpm - 53 - (t + dpm - d)) by lia.
    rewrite (binary_round_aux_exact m1 (ey + t + dpm - 53) (t + dpm - d)); try lia.
    + reflexivity.
    + rewrite Pos2Z.inj_mul, Hmx, Hmy, Hm1, Pos2Z.inj_mul.
      replace (Z.pos p * Z.pos pm * 2 ^ (53 - dpm) * 2 ^ (t + dpm - d))
        with (Z.pos p * Z.pos pm * (2 ^ (53 - dpm) * 2 ^ (t + dpm - d))) by lia.
      rewrite <- Z.pow_add_r by lia.
      replace (Z.pos p * 2 ^ (53 - d) * (Z.pos pm * 2 ^ t))
        with (Z.pos p * Z.pos pm * (2 ^ (53 - d) * 2 ^ t)) by lia.
      rewrite <- Z.pow_add_r by lia.
      f_equal. f_equal. lia.
  - lia.
  - rewrite Hmy, Hm1, Pos2Z.inj_mul.
    replace (Z.pos p * Z.pos pm * 2 ^ (53 - dpm) * 2 ^ (ey + t + dpm - 53 - ey))
      with (Z.pos p * Z.pos pm * (2 ^ (53 - dpm) * 2 ^ (ey + t + dpm - 53 - ey)))
      by lia.
    rewrite <- Z.pow_add_r by lia.
    replace (53 - dpm + (ey + t + dpm - 53 - ey)) with t by lia. lia.
Qed.

Lemma peak_of_exact E n my ey M t :
  qos_peak_bw_multiplier E = S754_finite false my ey ->
  Z.pos (digits2_pos my) = 53 ->
  -52 <= ey <= 0 ->
  Z.pos my = M * 2 ^ t ->
  0 <= t ->
  0 <= n ->
  n * M < 2 ^ 53 ->
  exists r,
    peak_of E n = Ok r /\
    exact_round_product (interpreter E) n (qos_peak_bw_multiplier E) = Some r.
Proof.
  intros Hf Hdy Hey Hmy Ht Hn Hfit.
  unfold peak_of. rewrite Hf. unfold exact_round_product.
  destruct n as [|p|p]; [| |lia].
  - exists 0. split; [reflexivity|].
    simpl Z.abs. simpl Z.mul. simpl xorb.
    destruct (0 <=? ey); [reflexivity|].
    now rewrite round_shift_zero by lia.
  - assert (0 < 2 ^ t) as Hpt by (apply Z.pow_pos_nonneg; lia).
    destruct M as [|pm|pm]; [lia| |nia].
    destruct (int_mul_exact p my ey pm t Hdy Hey Hmy Ht Hfit)
      as (m1 & e1 & Hmul & He1 & Hval).
    rewrite Hmul. simpl bind. unfold PyFloat.int_round.
    change (Z.abs (Z.pos p)) with (Z.pos p). change (Z.pos p <? 0) with false.
    simpl xorb. cbv iota. rewrite Hval.
    eexists. split; [reflexivity|]. f_equal.
    destruct (Z.leb_spec 0 ey) as [Hey0|Hey0].
    + assert (ey = 0) as -> by lia.
      destruct (Z.leb_spec 0 e1); [|lia].
      replace (e1 - 0) with e1 by lia. change (2 ^ 0) with 1. lia.
    + destruct (Z.leb_spec 0 e1) as [He0|He0].
      * replace (e1 - ey) with (e1 + - ey) by lia.
        rewrite Z.pow_add_r by lia.
        replace (Z.pos m1 * (2 ^ e1 * 2 ^ (- ey))) with (Z.pos m1 * 2 ^ e1 * 2 ^ (- ey))
          by lia.
        now rewrite round_shift_exact by lia.
      * replace (- ey) with (- e1 + (e1 - ey)) by lia.
        now rewrite round_shift_scale by lia.
Qed.

(** Whenever the product of the average bandwidth and the multiplier needs
    no more than 53 bits (the multiplier a float of at least 1 with
    mantissa [M * 2^t], the average [n >= 0], and [n * M < 2^53]), the peak
    is the integer nearest to their exact product. *)
Theorem peak_is_exact_when_product_fits E n my ey M t :
  qos_peak_bw_multiplier E = S754_finite false my ey ->
  Z.pos (digits2_pos my) = 53 ->
  -52 <= ey <= 0 ->
  Z.pos my = M * 2 ^ t ->
  0 <= t ->
  0 <= n ->
  n * M < 2 ^ 53 ->
  exists r,
    peak_of E n = Ok r /\
    exact_round_product (interpreter E) n (qos_peak_bw_multiplier E) = Some r.
Proof. apply peak_of_exact. Qed.

(** The multiplier 1.5 is [3 * 2^51 * 2^-52]; the average 102400. *)
Lemma peak_is_exact_when_product_fits_example :
  peak_of (env_of PyFloat.Py3 one_and_a_half) 102400 = Ok 153600 /\
  exact_round_product PyFloat.Py3 102400 one_and_a_half = Some 153600.
Proof.
  destruct (peak_is_exact_when_product_fits (env_of PyFloat.Py3 one_and_a_half)
              102400 6755399441055744 (-52) 3 51)
    as (r & Hpeak & Hexact).
  - reflexivity.
  - reflexivity.
  - lia.
  - reflexivity.
  - lia.
  - lia.
  - reflexivity.
  - vm_compute in Hexact. injection Hexact as <-. split; [exact Hpeak|reflexivity].
Defined.

(** A multiplier that is an integer [K] (as a float, [my * 2^ey] with
    [my = K * 2^-ey]) multiplies exactly: for a policy all of whose
    bandwidth rules have [0 <= max_kbps] and [max_kbps * 1024 * K < 2^53],
    the resolver returns an object whose peak is [K] times its average. *)
Theorem integer_multiplier_scales_average {context} E (plugin : qos_plugin context)
    ctx policy_id (l : list rule_obj) (r : rule_obj) my ey K :
  qos_peak_bw_multiplier E = S754_finite false my ey ->
  Z.pos (digits2_pos my) = 53 ->
  -52 <= ey <= 0 ->
  Z.pos my = K * 2 ^ (- ey) ->
  get_policy plugin ctx policy_id = Ok {| rules := Some l |} ->
  (forall x, In x l -> type x = RULE_TYPE_BANDWIDTH_LIMIT (consts E) ->
     0 <= max_kbps x /\ max_kbps x * 1024 * K < 2 ^ 53) ->
  last_rule (RULE_TYPE_BANDWIDTH_LIMIT (consts E)) l = Some r ->
  exists cfg,
    __init__ E plugin ctx (Some policy_id) = Ok cfg /\
    averageBandwidth cfg = max_kbps r * 1024 /\
    peakBandwidth cfg = averageBandwidth cfg * K.
Proof.
  intros Hf Hdy Hey Hmy Hp Hrange Hlast.
  assert (forall n, 0 <= n -> n * K < 2 ^ 53 -> peak_of E n = Ok (n * K)) as Hpeak.
  { intros n Hn Hfit.
    destruct (peak_of_exact E n my ey K (- ey) Hf Hdy Hey Hmy ltac:(lia) Hn Hfit)
      as (z & Hz & Hexact).
    rewrite Hz. f_equal.
    rewrite Hf in Hexact. unfold exact_round_product in Hexact.
    assert ((n <? 0) = false) as Hneg by (apply Z.ltb_ge; lia).
    rewrite Hneg, Z.abs_eq in Hexact by lia. simpl xorb in Hexact. cbv iota in Hexact.
    injection Hexact as <-.
    rewrite Hmy.
    destruct (Z.leb_spec 0 ey).
    - assert (ey = 0) as -> by lia. change (2 ^ (- 0)) with 1. change (2 ^ 0) with 1. lia.
    - replace (n * (K * 2 ^ (- ey))) with (n * K * 2 ^ (- ey)) by lia.
      now rewrite round_shift_exact by lia. }
  rewrite (QosFacts.init_rules _ _ _ _ _ Hp).
  assert (computable E l) as Hc.
  { intros x Hx Hty. destruct (Hrange x Hx Hty) as [H0 H1].
    exists (max_kbps x * 1024 * K). apply Hpeak; lia. }
  destruct (QosFacts.apply_rules_total E _ default_rule Hc) as [cfg Hcfg].
  destruct (QosFacts.apply_rules_last E _ _ _ Hcfg) as [Hb _].
  rewrite Hlast in Hb. destruct Hb as (_ & Havg & Hpk & _).
  exists cfg. split; [exact Hcfg|]. split; [exact Havg|].
  assert (In r l) as Hin.
  { unfold last_rule in Hlast. apply last_Some in Hlast as [l' Hl'].
    assert (In r (List.filter
                    (fun r0 => String.eqb (type r0) (RULE_TYPE_BANDWIDTH_LIMIT (consts E))) l))
      as Hf' by (rewrite Hl'; apply in_or_app; right; now left).
    now apply filter_In in Hf'. }
  assert (type r = RULE_TYPE_BANDWIDTH_LIMIT (consts E)) as Hty.
  { unfold last_rule in Hlast. apply last_Some in Hlast as [l' Hl'].
    assert (In r (List.filter
                    (fun r0 => String.eqb (type r0) (RULE_TYPE_BANDWIDTH_LIMIT (consts E))) l))
      as Hf' by (rewrite Hl'; apply in_or_app; right; now left).
    apply filter_In in Hf' as [_ Hf']. now apply String.eqb_eq. }
  destruct (Hrange r Hin Hty) as [H0 H1].
  rewrite Hpeak in Hpk by lia. injection Hpk as <-. now rewrite Havg.
Qed.

(** The multiplier 2.0 doubles: 100 kbps resolve to an average of 102400
    and a peak of 204800. *)
Lemma integer_multiplier_scales_average_example :
  exists cfg,
    __init__ (env_of PyFloat.Py2 (PyFloat.of_dyadic 2 0))
      (plugin_of [("p", {| rules := Some [bandwidth_limit 7 1; bandwidth_limit 100 10] |})])
      tt (Some "p") = Ok cfg /\
    averageBandwidth cfg = 102400 /\
    peakBandwidth cfg = 204800.
Proof.
  destruct (integer_multiplier_scales_average
              (env_of PyFloat.Py2 (PyFloat.of_dyadic 2 0))
              (plugin_of [("p", {| rules := Some [bandwidth_limit 7 1;
                                                  bandwidth_limit 100 10] |})])
              tt "p" [bandwidth_limit 7 1; bandwidth_limit 100 10]
              (bandwidth_limit 100 10) 4503599627370496 (-51) 2)
    as (cfg & Hinit & Havg & Hpeak).
  - reflexivity.
  - reflexivity.
  - lia.
  - reflexivity.
  - reflexivity.
  - intros x [<-|[<-|[]]] _; simpl; split; lia.
  - reflexivity.
  - exists cfg. split; [exact Hinit|]. simpl in Havg.
    split; [exact Havg|]. rewrite Hpeak, Havg. reflexivity.
Defined.

End FloatFacts.

(** ** More on the inventory collector *)

Module CollectorFacts.

Import ElementTree Networks Reference Examples.

Lemma field_found obj t child :
  find obj t = Some child -> field obj t = text child.
Proof. unfold field. now intros ->. Qed.

Lemma recognised_found obj ty :
  find obj "objectTypeName" = Some ty ->
  recognised obj = in_list (text ty) network_types.
Proof. intros Hty. unfold recognised. now rewrite (field_found _ _ _ Hty). Qed.

Lemma complete_found obj ty :
  find obj "objectTypeName" = Some ty ->
  complete obj =
  if in_list (text ty) network_types
  then match find obj "objectId", find obj "name" with
       | Some _, Some _ => true
       | _, _ => false
       end
  else true.
Proof.
  intros Hty. unfold complete. now rewrite Hty, (recognised_found _ _ Hty).
Qed.

Lemma entry_of_found obj ty id nm :
  find obj "objectTypeName" = Some ty ->
  find obj "objectId" = Some id ->
  find obj "name" = Some nm ->
  entry_of obj = {| type := text ty; moref := text id; name := text nm |}.
Proof.
  intros Hty Hid Hnm. unfold entry_of.
  now rewrite (field_found _ _ _ Hty), (field_found _ _ _ Hid), (field_found _ _ _ Hnm).
Qed.

Lemma complete_typeless obj :
  find obj "objectTypeName" = None -> complete obj = false.
Proof. intros Hty. unfold complete. now rewrite Hty. Qed.

(** The loop of [get_networks]: it raises at the first object that lacks a
    child it reads, and otherwise appends the recognised objects in order. *)
Lemma get_networks_loop_complete objs : forall networks,
  get_networks_loop objs networks =
  if forallb complete objs
  then Ok (networks ++ List.map entry_of (List.filter recognised objs))
  else Raise AttributeError.
Proof.
  induction objs as [|obj objs IH]; intros networks; simpl.
  - now rewrite app_nil_r.
  - destruct (find obj "objectTypeName") as [ty|] eqn:Hty.
    2: { now rewrite (complete_typeless _ Hty). }
    rewrite (complete_found _ _ Hty), (recognised_found _ _ Hty). simpl.
    destruct (in_list (text ty) network_types); [|apply IH].
    destruct (find obj "objectId") as [id|] eqn:Hid; [|reflexivity].
    destruct (find obj "name") as [nm|] eqn:Hnm; [|reflexivity].
    simpl. rewrite IH. destruct (forallb complete objs); [|reflexivity].
    rewrite (entry_of_found _ _ _ _ Hty Hid Hnm).
    now rewrite <- app_assoc.
Qed.

Lemma get_networks_name_map_loop_complete objs : forall networks,
  get_networks_name_map_loop objs networks =
  if forallb complete objs
  then Ok (fold_left (fun m net => <[moref net := name net]> m)
             (List.map entry_of (List.filter recognised objs)) networks)
  else Raise AttributeError.
Proof.
  induction objs as [|obj objs IH]; intros networks; simpl; [reflexivity|].
  destruct (find obj "objectTypeName") as [ty|] eqn:Hty.
  2: { now rewrite (complete_typeless _ Hty). }
  rewrite (complete_found _ _ Hty), (recognised_found _ _ Hty). simpl.
  destruct (in_list (text ty) network_types); [|apply IH].
  destruct (find obj "name") as [nm|] eqn:Hnm;
    [|now destruct (find obj "objectId")].
  destruct (find obj "objectId") as [id|] eqn:Hid; [|reflexivity].
  simpl. rewrite IH. destruct (forallb complete objs); [|reflexivity].
  now rewrite (field_found _ _ _ Hid), (field_found _ _ _ Hnm).
Qed.

(** On a listing that parses, [get_networks] returns one entry for each
    object element of a network type, in document order, with the texts of
    its type, id and name children; it raises [AttributeError] instead when
    some object element lacks a child that is read (the type child of any
    object, the id or name child of a network). *)
Theorem get_networks_characterised {B} (nsxv : nsxv_client B) (b : B) root :
  get_scoping_objects nsxv b = Ok (Xml root) ->
  get_networks nsxv b =
  if forallb complete (iter "object" root)
  then Ok (List.map entry_of (List.filter recognised (iter "object" root)))
  else Raise AttributeError.
Proof.
  intros Hq. unfold get_networks, get_networks_from_backend. rewrite Hq. simpl.
  apply get_networks_loop_complete.
Qed.

(** A listing with a datacenter, a virtual wire nested in a folder, and a
    port group; then the same with a nameless network added. *)
Lemma get_networks_characterised_example :
  let wire := object "VirtualWire" "virtualwire-3" "net-a" in
  let group := object "DistributedVirtualPortgroup" "dvportgroup-7" "dvs-1-net-b" in
  let bare := Elem "object" None [Elem "objectTypeName" (Some "Network") []] in
  get_networks sim_client
    (sim_backend
       (scoping_objects [object "Datacenter" "datacenter-2" "DC";
                         Elem "folder" None [wire]; group]) "LACP_V2")
  = Ok [{| type := Some "VirtualWire"; moref := Some "virtualwire-3";
           name := Some "net-a" |};
        {| type := Some "DistributedVirtualPortgroup"; moref := Some "dvportgroup-7";
           name := Some "dvs-1-net-b" |}] /\
  get_networks sim_client
    (sim_backend (scoping_objects [wire; bare; group]) "LACP_V2")
  = Raise AttributeError.
Proof.
  cbv zeta. split.
  - rewrite (get_networks_characterised sim_client
               (sim_backend
                  (scoping_objects
                     [object "Datacenter" "datacenter-2" "DC";
                      Elem "folder" None [object "VirtualWire" "virtualwire-3" "net-a"];
                      object "DistributedVirtualPortgroup" "dvportgroup-7" "dvs-1-net-b"])
                  "LACP_V2")
               (Elem "scopingObjects" None
                  [object "Datacenter" "datacenter-2" "DC";
                   Elem "folder" None [object "VirtualWire" "virtualwire-3" "net-a"];
                   object "DistributedVirtualPortgroup" "dvportgroup-7" "dvs-1-net-b"])
               eq_refl).
    reflexivity.
  - rewrite (get_networks_characterised sim_client
               (sim_backend
                  (scoping_objects
                     [object "VirtualWire" "virtualwire-3" "net-a";
                      Elem "object" None [Elem "objectTypeName" (Some "Network") []];
                      object "DistributedVirtualPortgroup" "dvportgroup-7" "dvs-1-net-b"])
                  "LACP_V2")
               (Elem "scopingObjects" None
                  [object "VirtualWire" "virtualwire-3" "net-a";
                   Elem "object" None [Elem "objectTypeName" (Some "Network") []];
                   object "DistributedVirtualPortgroup" "dvportgroup-7" "dvs-1-net-b"])
               eq_refl).
    reflexivity.
Defined.

(** The two collectors agree on every backend. *)
Lemma name_map_agrees {B} (nsxv : nsxv_client B) (b : B) :
  match get_networks nsxv b with
  | Ok nets => get_networks_name_map nsxv b = Ok (name_map_of nets)
  | Raise e => get_networks_name_map nsxv b = Raise e
  end.
Proof.
  unfold get_networks, get_networks_name_map.
  destruct (get_networks_from_backend nsxv b) as [root|e]; simpl; [|reflexivity].
  rewrite get_networks_loop_complete, get_networks_name_map_loop_complete.
  now destruct (forallb complete (iter "object" root)).
Qed.

(** The name index is the list of networks folded into a dictionary:
    whenever [get_networks] returns a list, [get_networks_name_map] returns
    the dictionary built from that list by assigning each entry's name to
    its backend id, in order; whenever one raises, the other raises the
    same exception. *)
Theorem collectors_agree {B} (nsxv : nsxv_client B) (b : B) :
  (forall nets, get_networks nsxv b = Ok nets ->
                get_networks_name_map nsxv b = Ok (name_map_of nets)) /\
  (forall e, get_networks nsxv b = Raise e <->
             get_networks_name_map nsxv b = Raise e).
Proof.
  pose proof (name_map_agrees nsxv b) as H.
  destruct (get_networks nsxv b) as [nets|e'].
  - split.
    + now intros ? [= <-].
    + intros e. rewrite H. split; discriminate.
  - split.
    + discriminate.
    + intros e. rewrite H. split; intros [= ->]; reflexivity.
Qed.

Lemma collectors_agree_example :
  let b := sim_backend
             (scoping_objects [object "VirtualWire" "virtualwire-3" "net-a";
                               object "VirtualWire" "virtualwire-3" "net-b"])
             "LACP_V2" in
  get_networks_name_map sim_client b = Ok {[ Some "virtualwire-3" := Some "net-b" ]}.
Proof.
  cbv zeta.
  rewrite (proj1 (collectors_agree sim_client
                    (sim_backend
                       (scoping_objects [object "VirtualWire" "virtualwire-3" "net-a";
                                         object "VirtualWire" "virtualwire-3" "net-b"])
                       "LACP_V2"))
             [{| type := Some "VirtualWire"; moref := Some "virtualwire-3";
                 name := Some "net-a" |};
              {| type := Some "VirtualWire"; moref := Some "virtualwire-3";
                 name := Some "net-b" |}] eq_refl).
  reflexivity.
Defined.

Lemma name_map_of_lookup (nets : list network) (k : option string) :
  forall m : gmap (option string) (option string),
  fold_left (fun m net => <[moref net := name net]> m) nets m !! k =
  match last (List.filter (fun net => bool_decide (moref net = k)) nets) with
  | Some net => Some (name net)
  | None => m !! k
  end.
Proof.
  induction nets as [|x nets IH] using rev_ind; intros m; [reflexivity|].
  rewrite fold_left_app, List.filter_app. simpl.
  destruct (bool_decide (moref x = k)) eqn:Hk.
  - apply bool_decide_eq_true in Hk. subst k.
    rewrite last_snoc. apply lookup_insert_eq.
  - apply bool_decide_eq_false in Hk.
    rewrite app_nil_r, lookup_insert_ne by exact Hk. apply IH.
Qed.

(** Looking a backend id up in the name index gives the name of the last
    listed network with that id, and nothing when no listed network has it:
    of two objects with one id, the later one is the one indexed. *)
Theorem name_index_takes_the_last {B} (nsxv : nsxv_client B) (b : B) nets nm k :
  get_networks nsxv b = Ok nets ->
  get_networks_name_map nsxv b = Ok nm ->
  nm !! k = name <$> last (List.filter (fun net => bool_decide (moref net = k)) nets).
Proof.
  intros Hn Hm. pose proof (name_map_agrees nsxv b) as H.
  rewrite Hn, Hm in H. injection H as ->.
  unfold name_map_of. rewrite name_map_of_lookup, lookup_empty.
  now destruct (last _).
Qed.

Lemma name_index_takes_the_last_example :
  let b := sim_backend
             (scoping_objects [object "VirtualWire" "virtualwire-3" "net-a";
                               object "VirtualWire" "virtualwire-4" "net-c";
                               object "VirtualWire" "virtualwire-3" "net-b"])
             "LACP_V2" in
  exists nm,
    get_networks_name_map sim_client b = Ok nm /\
    nm !! Some "virtualwire-3" = Some (Some "net-b") /\
    nm !! Some "virtualwire-9" = None.
Proof.
  cbv zeta.
  set (b := sim_backend
              (scoping_objects [object "VirtualWire" "virtualwire-3" "net-a";
                                object "VirtualWire" "virtualwire-4" "net-c";
                                object "VirtualWire" "virtualwire-3" "net-b"])
              "LACP_V2").
  set (wire := fun id nm => {| type := Some "VirtualWire"; moref := Some id;
                               name := Some nm |}).
  set (nets := [wire "virtualwire-3" "net-a"; wire "virtualwire-4" "net-c";
                wire "virtualwire-3" "net-b"]).
  exists (name_map_of nets). split; [reflexivity|]. split.
  - rewrite (name_index_takes_the_last sim_client b nets (name_map_of nets)
               (Some "virtualwire-3") eq_refl eq_refl).
    reflexivity.
  - rewrite (name_index_takes_the_last sim_client b nets (name_map_of nets)
               (Some "virtualwire-9") eq_refl eq_refl).
    reflexivity.
Defined.

End CollectorFacts.

(** ** More on the two scans *)

Module ScanMore.

Import ElementTree Networks Reference Examples.

(** *** The missing-networks scan *)

Lemma list_missing_networks_loop_characterised
    (backend_networks : gmap (option string) (option string)) mappings :
  forall missing_networks,
    list_missing_networks_loop backend_networks mappings missing_networks =
    if existsb (nameless_hit backend_networks) mappings
    then Raise AttributeError
    else Ok (missing_networks ++
             List.map missing_of (List.filter (missing_check backend_networks) mappings)).
Proof.
  induction mappings as [|entry mappings IH]; intros acc; simpl.
  - now rewrite app_nil_r.
  - unfold nameless_hit at 1, missing_check at 1.
    destruct (backend_networks !! Some (nsx_id entry)) as [netname|] eqn:Hk.
    + destruct (dvs_id entry) as [d|]; simpl.
      * destruct (String.eqb d ""); simpl; [apply IH|].
        destruct netname as [netname|]; simpl; [|reflexivity].
        destruct (startswith netname d); simpl; rewrite IH;
          destruct (existsb _ mappings); try reflexivity.
        now rewrite <- app_assoc.
      * apply IH.
    + simpl. rewrite andb_false_r. simpl. rewrite IH.
      destruct (existsb _ mappings); [reflexivity|]. now rewrite <- app_assoc.
Qed.

(** The missing-networks scan, whatever the inventory and the store: it
    raises [AttributeError] when some record with a non-empty adapter id
    points at an inventoried object without a display name; otherwise it
    returns, in the order of the store, one row for each record whose
    backend id is not inventoried or whose non-empty adapter id is no
    prefix of the display name. *)
Theorem missing_scan_characterised {B} (nsxv : nsxv_client B) (b : B)
    (session : list mapping)
    (backend_networks : gmap (option string) (option string)) :
  get_networks_name_map nsxv b = Ok backend_networks ->
  list_missing_networks nsxv b session =
  if existsb (nameless_hit backend_networks) session
  then Raise AttributeError
  else Ok (List.map missing_of (List.filter (missing_check backend_networks) session)).
Proof.
  intros Hmap. unfold list_missing_networks, get_nsx_networks_mapping.
  rewrite Hmap. simpl. apply list_missing_networks_loop_characterised.
Qed.

(** A store of four records over an inventory of two objects, the second
    of which has an empty name element. *)
Lemma missing_scan_characterised_example :
  let wire := object "VirtualWire" "virtualwire-3" "net-a" in
  let nameless :=
    Elem "object" None
      [Elem "objectTypeName" (Some "DistributedVirtualPortgroup") [];
       Elem "objectId" (Some "dvportgroup-7") [];
       Elem "name" None []] in
  let b := sim_backend (scoping_objects [wire; nameless]) "LACP_V2" in
  let gone := {| neutron_id := "n1"; nsx_id := "virtualwire-9"; dvs_id := None |} in
  let fine := {| neutron_id := "n2"; nsx_id := "virtualwire-3"; dvs_id := Some "" |} in
  let moved := {| neutron_id := "n3"; nsx_id := "virtualwire-3"; dvs_id := Some "dvs-1" |} in
  let blind := {| neutron_id := "n4"; nsx_id := "dvportgroup-7"; dvs_id := Some "dvs-1" |} in
  list_missing_networks sim_client b [moved; fine; gone; moved]
  = Ok [missing_of moved; missing_of gone; missing_of moved] /\
  list_missing_networks sim_client b [gone; blind; moved] = Raise AttributeError.
Proof.
  cbv zeta.
  set (b := sim_backend
              (scoping_objects
                 [object "VirtualWire" "virtualwire-3" "net-a";
                  Elem "object" None
                    [Elem "objectTypeName" (Some "DistributedVirtualPortgroup") [];
                     Elem "objectId" (Some "dvportgroup-7") [];
                     Elem "name" None []]]) "LACP_V2").
  set (nm := <[Some "dvportgroup-7" := None]>
               (<[Some "virtualwire-3" := Some "net-a"]>
                  (∅ : gmap (option string) (option string)))).
  split.
  - rewrite (missing_scan_characterised sim_client b _ nm eq_refl).
    vm_compute. reflexivity.
  - rewrite (missing_scan_characterised sim_client b _ nm eq_refl).
    vm_compute. reflexivity.
Defined.

(** *** The orphaned-networks scan *)

Lemma no_record_without_moref session :
  get_nsx_network_mapping_for_nsx_id session None = [].
Proof.
  unfold get_nsx_network_mapping_for_nsx_id.
  induction session as [|x l IH]; simpl; [reflexivity|exact IH].
Qed.

(** The inner loop binds [found] to [True] exactly when some record clears
    the object; otherwise it leaves [found] as it was. *)
Lemma orphaned_entries_loop_cleared backend_name neutron_networks : forall found,
  orphaned_entries_loop backend_name neutron_networks found =
  if cleared backend_name neutron_networks then Some true else found.
Proof.
  induction neutron_networks as [|entry l IH]; intros found; simpl; [reflexivity|].
  rewrite IH.
  assert ((negb (truthy (dvs_id entry)) ||
           match dvs_id entry with
           | Some d => startswith backend_name d
           | None => false
           end) =
          (negb (truthy (dvs_id entry)) ||
           startswith backend_name (default "" (dvs_id entry)))) as ->
    by now destruct (dvs_id entry).
  destruct (negb (truthy (dvs_id entry)) || _); simpl; [|reflexivity].
  now destruct (cleared backend_name l).
Qed.

(** Once [found] is [True], the loop runs to its end and reports the
    objects without a record. *)
Lemma list_orphaned_networks_loop_bound session backend_networks :
  (forall net, In net backend_networks -> name net <> None) ->
  forall missing_networks,
    list_orphaned_networks_loop session backend_networks (Some true) missing_networks
    = Ok (missing_networks ++ List.filter (unrecordedb session) backend_networks).
Proof.
  induction backend_networks as [|x nets IH]; intros Hnames acc; simpl.
  - now rewrite app_nil_r.
  - assert (forall net, In net nets -> name net <> None) as Hnames'
      by (intros net Hin; apply Hnames; now right).
    specialize (IH Hnames').
    unfold unrecordedb at 1, skipped.
    destruct (name x) as [backend_name|] eqn:Hn;
      [|now destruct (Hnames x (or_introl eq_refl))].
    destruct (startswith backend_name "edge-" || bool_decide (type x = Some "Network"));
      simpl; [apply IH|].
    destruct (get_nsx_network_mapping_for_nsx_id session (moref x)) as [|r l] eqn:Hl.
    + rewrite IH. now rewrite <- app_assoc.
    + destruct (moref x) as [m|];
        [|now rewrite no_record_without_moref in Hl].
      destruct (startswith m PORTGROUP_PREFIX); [|apply IH].
      change (orphaned_entries_loop backend_name l _)
        with (orphaned_entries_loop backend_name (r :: l) (Some true)).
      rewrite orphaned_entries_loop_cleared.
      destruct (cleared backend_name (r :: l)); apply IH.
Qed.

Lemma list_orphaned_networks_loop_unbound session backend_networks :
  (forall net, In net backend_networks -> name net <> None) ->
  forall missing_networks,
    list_orphaned_networks_loop session backend_networks None missing_networks
    = match List.find (checked session) backend_networks with
      | None =>
          Ok (missing_networks ++ List.filter (unrecordedb session) backend_networks)
      | Some net =>
          if cleared (default "" (name net))
               (get_nsx_network_mapping_for_nsx_id session (moref net))
          then Ok (missing_networks ++
                   List.filter (unrecordedb session) backend_networks)
          else Raise (UnboundLocalError "found")
      end.
Proof.
  induction backend_networks as [|x nets IH]; intros Hnames acc.
  - simpl. now rewrite app_nil_r.
  - assert (forall net, In net nets -> name net <> None) as Hnames'
      by (intros net Hin; apply Hnames; now right).
    specialize (IH Hnames').
    destruct (name x) as [backend_name|] eqn:Hn;
      [|now destruct (Hnames x (or_introl eq_refl))].
    assert (skipped x = (startswith backend_name "edge-"
                         || bool_decide (type x = Some "Network"))) as Hsk
      by (unfold skipped; now rewrite Hn).
    cbn [list_orphaned_networks_loop List.find List.filter]. rewrite Hn.
    destruct (startswith backend_name "edge-" || bool_decide (type x = Some "Network")).
    { assert (unrecordedb session x = false) as -> by (unfold unrecordedb; now rewrite Hsk).
      assert (checked session x = false) as -> by (unfold checked; now rewrite Hsk).
      apply IH. }
    destruct (moref x) as [m|] eqn:Hm.
    2: { rewrite no_record_without_moref.
         assert (unrecordedb session x = true) as ->
           by (unfold unrecordedb; now rewrite Hsk, Hm, no_record_without_moref).
         assert (checked session x = false) as ->
           by (unfold checked; now rewrite Hsk, Hm, no_record_without_moref).
         rewrite IH. destruct (List.find (checked session) nets) as [net|].
         - destruct (cleared _ _); [|reflexivity]. now rewrite <- app_assoc.
         - now rewrite <- app_assoc. }
    destruct (get_nsx_network_mapping_for_nsx_id session (Some m)) as [|r l] eqn:Hl.
    + assert (unrecordedb session x = true) as ->
        by (unfold unrecordedb; now rewrite Hsk, Hm, Hl).
      assert (checked session x = false) as ->
        by (unfold checked; now rewrite Hsk, Hm, Hl).
      rewrite IH. destruct (List.find (checked session) nets) as [net|].
      * destruct (cleared _ _); [|reflexivity]. now rewrite <- app_assoc.
      * now rewrite <- app_assoc.
    + assert (unrecordedb session x = false) as ->
        by (unfold unrecordedb; now rewrite Hsk, Hm, Hl).
      assert (checked session x = startswith m PORTGROUP_PREFIX) as ->
        by (unfold checked; now rewrite Hsk, Hm, Hl).
      destruct (startswith m PORTGROUP_PREFIX); [|apply IH].
      rewrite orphaned_entries_loop_cleared, Hn, Hm, Hl. simpl default.
      destruct (cleared backend_name (r :: l)); [|reflexivity].
      now apply list_orphaned_networks_loop_bound.
Qed.

(** Whatever the scan reports, when it returns, is an object of the
    inventory that is neither an edge network nor a standard network and
    for which the store has no record at all.  In particular no port group
    that has a record is ever reported. *)
Theorem orphaned_scan_reports_only_unrecorded {B} (nsxv : nsxv_client B) (b : B)
    (session : list mapping) nets result :
  get_networks nsxv b = Ok nets ->
  list_orphaned_networks nsxv b session = Ok result ->
  forall net, In net result -> In net nets /\ unrecorded session net.
Proof.
  intros Hnets Hrun net Hin.
  unfold list_orphaned_networks in Hrun. rewrite Hnets in Hrun. simpl in Hrun.
  destruct (ScanFacts.list_orphaned_networks_loop_reports session nets None [] result
              ltac:(discriminate) Hrun net Hin) as [[]|H].
  exact H.
Qed.

(** An inventory of an edge network, a virtual wire nobody recorded and a
    port group that is recorded under a matching adapter. *)
Lemma orphaned_scan_reports_only_unrecorded_example :
  let b := sim_backend
             (scoping_objects
                [object "VirtualWire" "virtualwire-1" "edge-12-internal";
                 object "VirtualWire" "virtualwire-3" "net-a";
                 object "DistributedVirtualPortgroup" "dvportgroup-7" "dvs-1-net-b"])
             "LACP_V2" in
  let store := [{| neutron_id := "n1"; nsx_id := "dvportgroup-7";
                   dvs_id := Some "dvs-1" |}] in
  let wire := {| type := Some "VirtualWire"; moref := Some "virtualwire-3";
                 name := Some "net-a" |} in
  list_orphaned_networks sim_client b store = Ok [wire] /\
  unrecorded store wire.
Proof.
  cbv zeta. split; [reflexivity|].
  eapply (orphaned_scan_reports_only_unrecorded sim_client
            (sim_backend
               (scoping_objects
                  [object "VirtualWire" "virtualwire-1" "edge-12-internal";
                   object "VirtualWire" "virtualwire-3" "net-a";
                   object "DistributedVirtualPortgroup" "dvportgroup-7" "dvs-1-net-b"])
               "LACP_V2")
            [{| neutron_id := "n1"; nsx_id := "dvportgroup-7"; dvs_id := Some "dvs-1" |}]).
  - reflexivity.
  - reflexivity.
  - now left.
Defined.

(** The orphaned-networks scan on an inventory in which every network has
    a display name.  Let the first object that reaches the adapter check be
    the first one that is not passed over, has records, and has a backend
    id with the port-group prefix.  When there is none, or when one of its
    records clears it, the scan returns the objects that are not passed
    over and have no record, in inventory order; otherwise it raises
    [UnboundLocalError].  The objects after the first one never matter. *)
Theorem orphaned_scan_characterised {B} (nsxv : nsxv_client B) (b : B)
    (session : list mapping) nets :
  get_networks nsxv b = Ok nets ->
  (forall net, In net nets -> name net <> None) ->
  list_orphaned_networks nsxv b session =
  match List.find (checked session) nets with
  | None => Ok (List.filter (unrecordedb session) nets)
  | Some net =>
      if cleared (default "" (name net))
           (get_nsx_network_mapping_for_nsx_id session (moref net))
      then Ok (List.filter (unrecordedb session) nets)
      else Raise (UnboundLocalError "found")
  end.
Proof.
  intros Hnets Hnames. unfold list_orphaned_networks. rewrite Hnets. simpl.
  now rewrite list_orphaned_networks_loop_unbound.
Qed.

(** Three port groups, all recorded; the first under its own adapter, the
    others under a foreign one.  In this order the scan returns, with an
    empty list; with the first one last, it raises. *)
Lemma orphaned_scan_characterised_example :
  let own := object "DistributedVirtualPortgroup" "dvportgroup-1" "dvs-1-a" in
  let foreign := object "DistributedVirtualPortgroup" "dvportgroup-2" "dvs-2-b" in
  let other := object "DistributedVirtualPortgroup" "dvportgroup-3" "dvs-3-c" in
  let store :=
    [{| neutron_id := "n1"; nsx_id := "dvportgroup-1"; dvs_id := Some "dvs-1" |};
     {| neutron_id := "n2"; nsx_id := "dvportgroup-2"; dvs_id := Some "dvs-9" |};
     {| neutron_id := "n3"; nsx_id := "dvportgroup-3"; dvs_id := Some "dvs-9" |}] in
  list_orphaned_networks sim_client
    (sim_backend (scoping_objects [own; foreign; other]) "LACP_V2") store = Ok [] /\
  list_orphaned_networks sim_client
    (sim_backend (scoping_objects [foreign; other; own]) "LACP_V2") store
  = Raise (UnboundLocalError "found").
Proof.
  cbv zeta.
  set (own := object "DistributedVirtualPortgroup" "dvportgroup-1" "dvs-1-a").
  set (foreign := object "DistributedVirtualPortgroup" "dvportgroup-2" "dvs-2-b").
  set (other := object "DistributedVirtualPortgroup" "dvportgroup-3" "dvs-3-c").
  set (store := [{| neutron_id := "n1"; nsx_id := "dvportgroup-1"; dvs_id := Some "dvs-1" |};
                 {| neutron_id := "n2"; nsx_id := "dvportgroup-2"; dvs_id := Some "dvs-9" |};
                 {| neutron_id := "n3"; nsx_id := "dvportgroup-3"; dvs_id := Some "dvs-9" |}]).
  set (port := fun id nm => {| type := Some "DistributedVirtualPortgroup";
                               moref := Some id; name := Some nm |}).
  split.
  - rewrite (orphaned_scan_characterised sim_client
               (sim_backend (scoping_objects [own; foreign; other]) "LACP_V2") store
               [port "dvportgroup-1" "dvs-1-a"; port "dvportgroup-2" "dvs-2-b";
                port "dvportgroup-3" "dvs-3-c"] eq_refl).
    + reflexivity.
    + intros net [<-|[<-|[<-|[]]]]; discriminate.
  - rewrite (orphaned_scan_characterised sim_client
               (sim_backend (scoping_objects [foreign; other; own]) "LACP_V2") store
               [port "dvportgroup-2" "dvs-2-b"; port "dvportgroup-3" "dvs-3-c";
                port "dvportgroup-1" "dvs-1-a"] eq_refl).
    + reflexivity.
    + intros net [<-|[<-|[<-|[]]]]; discriminate.
Defined.

End ScanMore.

(** ** More on the commands that act on the backend *)

Module CommandMore.

Import ElementTree Networks Reference Examples.

(** *** Strings *)

Lemma append_empty_r s : s +:+ "" = s.
Proof.
  induction s as [|c s IH]; [reflexivity|].
  change (String c s +:+ "") with (String c (s +:+ "")). now rewrite IH.
Qed.

Lemma append_assoc a b c : (a +:+ b) +:+ c = a +:+ (b +:+ c).
Proof.
  induction a as [|x a IH]; [reflexivity|].
  change ((String x a +:+ b) +:+ c) with (String x ((a +:+ b) +:+ c)).
  now rewrite IH.
Qed.

Lemma length_append a b :
  String.length (a +:+ b) = (String.length a + String.length b)%nat.
Proof.
  induction a as [|x a IH]; [reflexivity|].
  change (String x a +:+ b) with (String x (a +:+ b)). simpl. now rewrite IH.
Qed.

Lemma prefix_empty s : String.prefix "" s = true.
Proof. now destruct s. Qed.

Lemma prefix_append a b : String.prefix a (a +:+ b) = true.
Proof.
  induction a as [|c a IH].
  - apply prefix_empty.
  - change (String c a +:+ b) with (String c (a +:+ b)). simpl.
    now destruct (ascii_dec c c).
Qed.

Lemma prefix_split a : forall s, String.prefix a s = true -> exists r, s = a +:+ r.
Proof.
  induction a as [|c a IH]; intros s Hp.
  - now exists s.
  - destruct s as [|b s]; [discriminate|]. simpl in Hp.
    destruct (ascii_dec c b) as [<-|]; [|discriminate].
    destruct (IH s Hp) as (r & ->). now exists r.
Qed.

Lemma prefix_weaken a t u : String.prefix a t = true -> String.prefix a (t +:+ u) = true.
Proof.
  intros Hp. destruct (prefix_split a t Hp) as (r & ->).
  rewrite append_assoc. apply prefix_append.
Qed.

Lemma prefix_comparable a : forall b s,
  String.prefix a s = true -> String.prefix b s = true ->
  String.prefix a b = true \/ String.prefix b a = true.
Proof.
  induction a as [|c a IH]; intros b s Ha Hb.
  - left. apply prefix_empty.
  - destruct b as [|e b]; [right; reflexivity|].
    destruct s as [|x s]; [discriminate|]. simpl in Ha, Hb.
    destruct (ascii_dec c x) as [<-|]; [|discriminate].
    destruct (ascii_dec e c) as [->|]; [|discriminate].
    simpl. destruct (ascii_dec c c); [|contradiction]. exact (IH b s Ha Hb).
Qed.

(** *** The class of decimal digits *)

Lemma unambiguous_In decimals d :
  unambiguous decimals = true -> In d decimals ->
  d <> "" /\ starts_with_digit d = false /\
  forall d', In d' decimals -> String.prefix d d' = true -> d = d'.
Proof.
  unfold unambiguous. rewrite forallb_forall. intros Hwf Hin.
  specialize (Hwf d Hin). apply andb_true_iff in Hwf as [Hwf Hfree].
  apply andb_true_iff in Hwf as [Hne Hhead].
  apply negb_true_iff in Hne, Hhead. apply String.eqb_neq in Hne.
  split; [exact Hne|]. split; [exact Hhead|].
  intros d' Hin' Hp. rewrite forallb_forall in Hfree. specialize (Hfree d' Hin').
  rewrite Hp in Hfree. now apply String.eqb_eq in Hfree.
Qed.

Lemma decimal_at_Some decimals s d :
  decimal_at decimals s = Some d -> d <> "" ->
  decimal decimals d /\ exists r, s = d +:+ r.
Proof.
  destruct s as [|c s]; [discriminate|]. unfold decimal_at.
  destruct (is_digit c) eqn:Hc.
  - intros [= <-] _. split; [left; eauto|]. now exists s.
  - intros Hfind Hne. apply find_some in Hfind as [Hin Hp].
    split; [right; auto|]. now apply prefix_split.
Qed.

Lemma decimal_at_None decimals s :
  decimal_at decimals s = None -> starts_with_decimal decimals s = false.
Proof.
  unfold starts_with_decimal. destruct s as [|c s].
  - intros _. simpl. induction decimals as [|d l IH]; [reflexivity|]. simpl.
    rewrite IH. destruct d; reflexivity.
  - unfold decimal_at, starts_with_digit.
    destruct (is_digit c); [discriminate|]. cbn [orb].
    intros Hfind. induction decimals as [|d l IH]; [reflexivity|].
    cbn [List.find existsb] in Hfind |- *.
    destruct (String.prefix d (String c s)); [discriminate|].
    rewrite andb_false_r. cbn [orb]. now apply IH.
Qed.

(** The bytes of a character that was begun are taken without looking at
    them. *)
Lemma digits_from_pending decimals d : forall r,
  digits_from decimals (String.length d) (d +:+ r) =
  d +:+ digits_from decimals 0 r.
Proof.
  induction d as [|c d IH]; intros r; [reflexivity|].
  change (String c d +:+ r) with (String c (d +:+ r)).
  change (String c d +:+ digits_from decimals 0 r)
    with (String c (d +:+ digits_from decimals 0 r)).
  simpl. now rewrite IH.
Qed.

Lemma digits_stop decimals s :
  match decimal_at decimals s with
  | None | Some EmptyString => True
  | Some _ => False
  end ->
  digits decimals s = "".
Proof.
  unfold digits. destruct s as [|c s]; [reflexivity|]. cbn [digits_from].
  destruct (decimal_at decimals (String c s)) as [[|x d]|]; [reflexivity| |reflexivity].
  contradiction.
Qed.

Lemma digits_step decimals d r :
  d <> "" -> decimal_at decimals (d +:+ r) = Some d ->
  digits decimals (d +:+ r) = d +:+ digits decimals r.
Proof.
  destruct d as [|c d]; [contradiction|]. intros _.
  change (String c d +:+ r) with (String c (d +:+ r)). intros Hat.
  unfold digits. cbn [digits_from]. rewrite Hat. cbn [String.length].
  now rewrite digits_from_pending.
Qed.

Lemma starts_with_decimal_stop decimals s :
  starts_with_decimal decimals s = false -> digits decimals s = "".
Proof.
  intros Hno. apply digits_stop.
  destruct (decimal_at decimals s) as [[|x d]|] eqn:Hat; [exact I| |exact I].
  destruct (decimal_at_Some decimals s (String x d) Hat ltac:(discriminate))
    as [Hd (r & ->)].
  unfold starts_with_decimal in Hno. apply orb_false_iff in Hno as [Hhead Hex].
  destruct Hd as [(c & Hc & [= -> ->])|[Hin _]].
  - simpl in Hhead. congruence.
  - assert (existsb
              (fun d0 => negb (String.eqb d0 "") && String.prefix d0 (String x d +:+ r))
              decimals = true) as Hyes; [|congruence].
    apply existsb_exists. exists (String x d). split; [exact Hin|].
    now rewrite prefix_append.
Qed.

(** What [\d*] takes is a beginning of the string. *)
Lemma digits_from_prefix decimals : forall s pending,
  exists rest, s = digits_from decimals pending s +:+ rest.
Proof.
  induction s as [|c s IH]; intros pending; [now exists ""|].
  assert (forall n, exists rest,
            String c s = String c (digits_from decimals n s) +:+ rest) as Htake.
  { intros n. destruct (IH n) as (rest & Hrest). exists rest.
    change (String c (digits_from decimals n s) +:+ rest)
      with (String c (digits_from decimals n s +:+ rest)).
    now rewrite <- Hrest. }
  cbn [digits_from]. destruct pending as [|n]; [|apply Htake].
  destruct (decimal_at decimals (String c s)) as [d|]; [|now exists (String c s)].
  destruct (String.length d); [now exists (String c s)|apply Htake].
Qed.

Lemma find_prefix_stable (l : list string) t u d :
  List.find (fun x => String.prefix x (t +:+ u)) l = Some d ->
  String.prefix d t = true ->
  List.find (fun x => String.prefix x t) l = Some d.
Proof.
  intros Hfind Hd. induction l as [|a l IH]; [discriminate|]. simpl in Hfind |- *.
  destruct (String.prefix a (t +:+ u)) eqn:Hau.
  - injection Hfind as ->. now rewrite Hd.
  - destruct (String.prefix a t) eqn:Hat; [|now apply IH].
    rewrite (prefix_weaken a t u Hat) in Hau. discriminate.
Qed.

(** The character found at the start of a string is found again when the
    string is cut short behind it. *)
Lemma decimal_at_stable decimals d t u :
  d <> "" -> decimal_at decimals (d +:+ (t +:+ u)) = Some d ->
  decimal_at decimals (d +:+ t) = Some d.
Proof.
  destruct d as [|c d]; [contradiction|]. intros _.
  change (String c d +:+ (t +:+ u)) with (String c (d +:+ (t +:+ u))).
  change (String c d +:+ t) with (String c (d +:+ t)).
  unfold decimal_at. destruct (is_digit c); [exact (fun H => H)|].
  change (String c (d +:+ (t +:+ u))) with (String c d +:+ (t +:+ u)).
  change (String c (d +:+ t)) with (String c d +:+ t).
  rewrite <- append_assoc. intros Hfind.
  apply (find_prefix_stable _ _ _ _ Hfind). apply prefix_append.
Qed.

Lemma digits_idempotent decimals : forall n s,
  (String.length s <= n)%nat ->
  digits decimals (digits decimals s) = digits decimals s.
Proof.
  induction n as [|n IH]; intros s Hlen.
  - destruct s; [reflexivity|simpl in Hlen; lia].
  - destruct (decimal_at decimals s) as [[|x d]|] eqn:Hat.
    + now rewrite (digits_stop decimals s) by now rewrite Hat.
    + destruct (decimal_at_Some decimals s (String x d) Hat ltac:(discriminate))
        as [_ (r & ->)].
      destruct (digits_from_prefix decimals r 0) as (rest & Hrest).
      fold (digits decimals r) in Hrest.
      rewrite (digits_step decimals (String x d) r ltac:(discriminate) Hat).
      rewrite Hrest in Hat. apply decimal_at_stable in Hat; [|discriminate].
      rewrite (digits_step decimals (String x d) (digits decimals r)
                 ltac:(discriminate) Hat).
      f_equal. apply IH. rewrite length_append in Hlen. simpl in Hlen. lia.
    + now rewrite (digits_stop decimals s) by now rewrite Hat.
Qed.

(** Unique reading: a character of the class at the start of a string is
    the one that [\d] finds there. *)
Lemma decimal_at_decimal decimals d r :
  unambiguous decimals = true -> decimal decimals d ->
  decimal_at decimals (d +:+ r) = Some d.
Proof.
  intros Hwf [(c & Hc & ->)|[Hin Hne]].
  - change (String c "" +:+ r) with (String c r). unfold decimal_at. now rewrite Hc.
  - destruct (unambiguous_In decimals d Hwf Hin) as (_ & Hhead & Hfree).
    destruct d as [|c d]; [contradiction|]. simpl in Hhead.
    change (String c d +:+ r) with (String c (d +:+ r)). unfold decimal_at.
    rewrite Hhead. change (String c (d +:+ r)) with (String c d +:+ r).
    destruct (List.find _ decimals) as [d0|] eqn:Hfind.
    + apply find_some in Hfind as [Hin0 Hp0]. f_equal.
      destruct (prefix_comparable d0 (String c d) _ Hp0 (prefix_append _ r))
        as [Hp|Hp].
      * destruct (unambiguous_In decimals d0 Hwf Hin0) as (_ & _ & Hfree0).
        now apply Hfree0.
      * symmetry. now apply Hfree.
    + apply (find_none _ _ Hfind) in Hin. cbv beta in Hin.
      now rewrite prefix_append in Hin.
Qed.

Lemma digits_shape decimals :
  unambiguous decimals = true ->
  forall n s, (String.length s <= n)%nat ->
  exists rest,
    s = digits decimals s +:+ rest /\
    decimal_run decimals (digits decimals s) /\
    starts_with_decimal decimals rest = false.
Proof.
  intros Hwf. induction n as [|n IH]; intros s Hlen.
  - destruct s; [|simpl in Hlen; lia]. exists "". repeat split; [constructor|].
    now apply decimal_at_None.
  - destruct (decimal_at decimals s) as [d|] eqn:Hat.
    + assert (d <> "") as Hne.
      { destruct s as [|c s]; [discriminate|]. unfold decimal_at in Hat.
        destruct (is_digit c); [now injection Hat as <-|].
        apply find_some in Hat as [Hin _].
        now destruct (unambiguous_In decimals d Hwf Hin). }
      destruct (decimal_at_Some decimals s d Hat Hne) as [Hd (r & ->)].
      rewrite (digits_step decimals d r Hne Hat).
      destruct (IH r) as (rest & Hr & Hrun & Hstop).
      { rewrite length_append in Hlen. destruct d; [contradiction|].
        simpl in Hlen. lia. }
      exists rest. split; [|split; [now constructor|exact Hstop]].
      now rewrite append_assoc, <- Hr.
    + rewrite (digits_stop decimals s) by now rewrite Hat.
      exists s. repeat split; [constructor|now apply decimal_at_None].
Qed.

Lemma digits_of_shape decimals ds rest :
  unambiguous decimals = true ->
  decimal_run decimals ds ->
  starts_with_decimal decimals rest = false ->
  digits decimals (ds +:+ rest) = ds.
Proof.
  intros Hwf Hrun Hstop. induction Hrun as [|d ds Hd Hrun IH].
  - now apply starts_with_decimal_stop.
  - rewrite append_assoc.
    assert (d <> "") as Hne by now destruct Hd as [(c & _ & ->)|[_ Hne]].
    rewrite (digits_step decimals d _ Hne (decimal_at_decimal decimals d _ Hwf Hd)).
    now rewrite IH.
Qed.

(** The characters [0] to [9] are in the class on every interpreter. *)
Lemma decimal_run_digits decimals ds :
  forallb is_digit (list_ascii_of_string ds) = true -> decimal_run decimals ds.
Proof.
  induction ds as [|c ds IH]; simpl; intros Hd; [constructor|].
  apply andb_true_iff in Hd as [Hc Hd].
  change (String c ds) with (String c "" +:+ ds).
  constructor; [left; eauto|now apply IH].
Qed.

(** *** The adapter id of a display name *)

Lemma get_dvs_id_shape decimals backend_name id :
  unambiguous decimals = true ->
  get_dvs_id_from_backend_name decimals backend_name = Some id ->
  exists ds rest,
    backend_name = "dvs-" +:+ ds +:+ rest /\
    id = "dvs-" +:+ ds /\
    decimal_run decimals ds /\
    starts_with_decimal decimals rest = false.
Proof.
  intros Hwf. unfold get_dvs_id_from_backend_name.
  destruct (after_prefix "dvs-" backend_name) as [tail|] eqn:Hp; [|discriminate].
  intros [= <-]. apply CommandFacts.after_prefix_Some in Hp.
  destruct (digits_shape decimals Hwf _ tail (le_n _)) as (rest & Hs & Hd & Hr).
  exists (digits decimals tail), rest. rewrite <- Hs. auto.
Qed.

Lemma get_dvs_id_of_shape decimals ds rest :
  unambiguous decimals = true ->
  decimal_run decimals ds ->
  starts_with_decimal decimals rest = false ->
  get_dvs_id_from_backend_name decimals ("dvs-" +:+ ds +:+ rest)
  = Some ("dvs-" +:+ ds).
Proof.
  intros Hwf Hd Hr. unfold get_dvs_id_from_backend_name.
  assert (after_prefix "dvs-" ("dvs-" +:+ ds +:+ rest) = Some (ds +:+ rest)) as ->
    by now apply CommandFacts.after_prefix_Some.
  now rewrite digits_of_shape.
Qed.

Lemma get_dvs_id_prefixed decimals backend_name id :
  get_dvs_id_from_backend_name decimals backend_name = Some id ->
  exists tail, backend_name = "dvs-" +:+ tail /\ id = "dvs-" +:+ digits decimals tail.
Proof.
  unfold get_dvs_id_from_backend_name.
  destruct (after_prefix "dvs-" backend_name) as [tail|] eqn:Hp; [|discriminate].
  intros [= <-]. apply CommandFacts.after_prefix_Some in Hp. eauto.
Qed.

Lemma get_dvs_id_truthy decimals backend_name id :
  get_dvs_id_from_backend_name decimals backend_name = Some id ->
  truthy (Some id) = true.
Proof.
  intros Hid. now apply get_dvs_id_prefixed in Hid as (tail & _ & ->).
Qed.

(** The adapter id derived from a display name is the text [dvs-] with the
    longest run of decimal digits that follows it in the name, where a
    decimal digit is what [\d] matches on the interpreter: the derivation
    gives [id] exactly when the name is [dvs-], a run of decimal digits, and
    a remainder that does not go on with a decimal digit, and [id] is [dvs-]
    with that run.  The run may be empty. *)
Theorem dvs_id_is_the_longest_digit_run decimals backend_name id :
  unambiguous decimals = true ->
  get_dvs_id_from_backend_name decimals backend_name = Some id <->
  exists ds rest,
    backend_name = "dvs-" +:+ ds +:+ rest /\
    id = "dvs-" +:+ ds /\
    decimal_run decimals ds /\
    starts_with_decimal decimals rest = false.
Proof.
  intros Hwf. split; [now apply get_dvs_id_shape|].
  intros (ds & rest & -> & -> & Hd & Hr). now apply get_dvs_id_of_shape.
Qed.

(** The name [dvs-] U+0663 U+0664 [x]: with the Arabic-Indic digits in the
    class, as on Python 3, the adapter id takes both; with [0] to [9]
    alone, as on Python 2, it is [dvs-]. *)
Lemma dvs_id_is_the_longest_digit_run_example :
  let three := String "217" (String "163" "") in
  let four := String "217" (String "164" "") in
  let backend_name := "dvs-" +:+ three +:+ four +:+ "x" in
  get_dvs_id_from_backend_name arabic_indic backend_name
  = Some ("dvs-" +:+ three +:+ four) /\
  get_dvs_id_from_backend_name [] backend_name = Some "dvs-" /\
  get_dvs_id_from_backend_name arabic_indic "dvs-12-net7" = Some "dvs-12".
Proof.
  cbv zeta. split; [|split].
  - apply (dvs_id_is_the_longest_digit_run arabic_indic); [reflexivity|].
    exists (String "217" (String "163" "") +:+ String "217" (String "164" "")), "x".
    split; [reflexivity|]. split; [reflexivity|]. split; [|reflexivity].
    constructor; [right; split; [vm_compute; tauto|discriminate]|].
    rewrite <- (append_empty_r (String "217" (String "164" ""))).
    constructor; [right; split; [vm_compute; tauto|discriminate]|constructor].
  - apply (dvs_id_is_the_longest_digit_run []); [reflexivity|].
    exists "", (String "217" (String "163" (String "217" (String "164" "x")))).
    repeat split; [constructor].
  - apply (dvs_id_is_the_longest_digit_run arabic_indic); [reflexivity|].
    exists "12", "-net7". repeat split. now apply decimal_run_digits.
Defined.

(** An adapter id that was derived from a display name is never empty, is
    a prefix of that name, and is its own adapter id. *)
Theorem dvs_id_round_trip decimals backend_name id :
  get_dvs_id_from_backend_name decimals backend_name = Some id ->
  truthy (Some id) = true /\
  startswith backend_name id = true /\
  get_dvs_id_from_backend_name decimals id = Some id.
Proof.
  intros Hid. apply get_dvs_id_prefixed in Hid as (tail & -> & ->).
  split; [reflexivity|]. split.
  - unfold startswith.
    destruct (digits_from_prefix decimals tail 0) as (rest & Hrest).
    fold (digits decimals tail) in Hrest. rewrite Hrest at 2.
    rewrite <- append_assoc. apply prefix_append.
  - unfold get_dvs_id_from_backend_name.
    assert (after_prefix "dvs-" ("dvs-" +:+ digits decimals tail)
            = Some (digits decimals tail)) as ->
      by now apply CommandFacts.after_prefix_Some.
    now rewrite (digits_idempotent decimals _ tail (le_n _)).
Qed.

Lemma dvs_id_round_trip_example :
  get_dvs_id_from_backend_name arabic_indic "dvs-12-net7" = Some "dvs-12" /\
  startswith "dvs-12-net7" "dvs-12" = true /\
  get_dvs_id_from_backend_name arabic_indic "dvs-12" = Some "dvs-12".
Proof.
  split; [reflexivity|].
  exact (proj2 (dvs_id_round_trip arabic_indic "dvs-12-net7" "dvs-12" eq_refl)).
Defined.

(** *** Deleting a backend network *)

(** Past its guards, the command is one deletion call and its report. *)
Lemma delete_backend_network_named {B} (nsxv : nsxv_client B) (H : helpers)
    (kw : kwargs) (w : world B) (properties : gmap string string)
    (moref backend_name : string)
    (name_map : gmap (option string) (option string)) :
  no_property kw = false ->
  parse_multi_keyval_opt H (property_of kw) = Ok properties ->
  properties !! "moref" = Some moref ->
  moref <> "" ->
  get_networks_name_map nsxv (backend w) = Ok name_map ->
  name_map !! Some moref = Some (Some backend_name) ->
  backend_name <> "" ->
  delete_backend_network nsxv H kw w =
  if startswith moref PORTGROUP_PREFIX then
    match get_dvs_id_from_backend_name (decimals H) backend_name with
    | Some dvs_id =>
        report_deletion moref
          (call (DeletePortGroup dvs_id moref)
             (fun b => delete_port_group nsxv b dvs_id moref) w)
    | None =>
        (Ok tt,
         LOG ERROR "Failed to find the DVS id of backend network %(moref)s"
           (Mapping [("moref", VStr moref)]) w)
    end
  else
    report_deletion moref
      (call (DeleteVirtualWire moref) (fun b => delete_virtual_wire nsxv b moref) w).
Proof.
  intros Hnp Hparse Hmoref Hne Hmap Hname Hnn.
  unfold delete_backend_network. rewrite Hnp, Hparse. cbv zeta.
  CommandFacts.pass_guard Hmoref (truthy_Some _ Hne).
  rewrite Hmap, Hname. simpl mjoin. rewrite (truthy_Some _ Hnn).
  simpl negb. cbv iota. simpl default.
  destruct (startswith moref PORTGROUP_PREFIX); [|reflexivity].
  destruct (get_dvs_id_from_backend_name (decimals H) backend_name) as [id|] eqn:Hid;
    [|reflexivity].
  rewrite (get_dvs_id_truthy _ _ _ Hid). reflexivity.
Qed.

(** The name the index has for a backend id is that of the last listed
    network with that id. *)
Lemma name_of_last_listed {B} (nsxv : nsxv_client B) (b : B) nets moref :
  get_networks nsxv b = Ok nets ->
  exists name_map,
    get_networks_name_map nsxv b = Ok name_map /\
    name_map !! Some moref = name <$> last (listed_as moref nets).
Proof.
  intros Hnets. pose proof (CollectorFacts.name_map_agrees nsxv b) as Hmap.
  rewrite Hnets in Hmap. exists (name_map_of nets). split; [exact Hmap|].
  unfold name_map_of, listed_as.
  rewrite CollectorFacts.name_map_of_lookup, lookup_empty.
  now destruct (last _).
Qed.

Lemma report_deletion_call {B} moref (c : mutation) (f : B -> result unit * B)
    (w : world B) :
  report_deletion moref (call c f w) =
  (Ok tt, {| backend := snd (f (backend w));
             calls := calls w ++ [c];
             log := log w ++ [deletion_record moref (fst (f (backend w)))] |}).
Proof.
  unfold report_deletion, call. destruct (f (backend w)) as [[[]|e] b]; reflexivity.
Qed.

(** A backend id without the port-group prefix is deleted as a virtual
    wire, whatever the type of the object: when the last listed network
    with the id given has a non-empty name, the command issues the one call
    [delete_virtual_wire(moref)], leaves the backend as that call left it,
    logs the outcome of the call, and returns, also when the call raised. *)
Theorem unprefixed_moref_is_deleted_as_virtual_wire {B} (nsxv : nsxv_client B)
    (H : helpers) (kw : kwargs) (w : world B) (properties : gmap string string)
    (moref backend_name : string) nets net :
  no_property kw = false ->
  parse_multi_keyval_opt H (property_of kw) = Ok properties ->
  properties !! "moref" = Some moref ->
  moref <> "" ->
  startswith moref PORTGROUP_PREFIX = false ->
  get_networks nsxv (backend w) = Ok nets ->
  last (listed_as moref nets) = Some net ->
  name net = Some backend_name ->
  backend_name <> "" ->
  delete_backend_network nsxv H kw w =
  (Ok tt,
   {| backend := snd (delete_virtual_wire nsxv (backend w) moref);
      calls := calls w ++ [DeleteVirtualWire moref];
      log := log w ++
             [deletion_record moref
                (fst (delete_virtual_wire nsxv (backend w) moref))] |}).
Proof.
  intros Hnp Hparse Hmoref Hne Hprefix Hnets Hlast Hname Hnn.
  destruct (name_of_last_listed nsxv (backend w) nets moref Hnets)
    as (name_map & Hmap & Hlook).
  rewrite Hlast in Hlook. simpl in Hlook. rewrite Hname in Hlook.
  rewrite (delete_backend_network_named nsxv H kw w properties moref backend_name
             name_map Hnp Hparse Hmoref Hne Hmap Hlook Hnn).
  rewrite Hprefix.
  apply (report_deletion_call moref (DeleteVirtualWire moref)
           (fun b => delete_virtual_wire nsxv b moref)).
Qed.

(** A standard network of the inventory is deleted through the
    virtual-wire call; with a client that refuses, the refusal is logged
    and the command returns. *)
Lemma unprefixed_moref_is_deleted_as_virtual_wire_example :
  let doc := scoping_objects [object "Network" "network-12" "VM Network"] in
  let kw := {| property := Some ["moref=network-12"] |} in
  delete_backend_network sim_client sim_helpers kw (sim_world doc "LACP_V2")
  = (Ok tt,
     {| backend := {| inventory := doc;
                      switches := switches (sim_backend doc "LACP_V2");
                      deleted := ["network-12"] |};
        calls := [DeleteVirtualWire "network-12"];
        log := [deletion_record "network-12" (Ok tt)] |}) /\
  delete_backend_network (refusing_client "{}") sim_helpers kw (sim_world doc "LACP_V2")
  = (Ok tt,
     {| backend := sim_backend doc "LACP_V2";
        calls := [DeleteVirtualWire "network-12"];
        log := [deletion_record "network-12" (Raise (Exception "in use"))] |}).
Proof.
  cbv zeta.
  set (doc := scoping_objects [object "Network" "network-12" "VM Network"]).
  set (kw := {| property := Some ["moref=network-12"] |}).
  set (net := {| type := Some "Network"; moref := Some "network-12";
                 name := Some "VM Network" |}).
  split.
  - rewrite (unprefixed_moref_is_deleted_as_virtual_wire sim_client sim_helpers kw
               (sim_world doc "LACP_V2") {[ "moref" := "network-12" ]}
               "network-12" "VM Network" [net] net);
      [reflexivity|reflexivity|vm_compute; reflexivity|vm_compute; reflexivity
      |discriminate|reflexivity|reflexivity|reflexivity|reflexivity|discriminate].
  - rewrite (unprefixed_moref_is_deleted_as_virtual_wire (refusing_client "{}")
               sim_helpers kw
               (sim_world doc "LACP_V2") {[ "moref" := "network-12" ]}
               "network-12" "VM Network" [net] net);
      [reflexivity|reflexivity|vm_compute; reflexivity|vm_compute; reflexivity
      |discriminate|reflexivity|reflexivity|reflexivity|reflexivity|discriminate].
Defined.

(** A backend id with the port-group prefix is deleted under the adapter
    named by the display name: when the last listed network with the id
    given is named [dvs-], a run of decimal digits (possibly empty) and a
    remainder that does not go on with a decimal digit, where a decimal
    digit is what [\d] matches on the interpreter, the command issues the
    one call [delete_port_group(dvs_id, moref)] with [dvs_id] the text [dvs-]
    and that run, leaves the backend as that call left it, logs the outcome
    of the call, and returns, also when the call raised. *)
Theorem port_group_is_deleted_under_the_adapter_of_its_name {B}
    (nsxv : nsxv_client B) (H : helpers) (kw : kwargs) (w : world B)
    (properties : gmap string string) (moref ds rest : string) nets net :
  no_property kw = false ->
  parse_multi_keyval_opt H (property_of kw) = Ok properties ->
  properties !! "moref" = Some moref ->
  startswith moref PORTGROUP_PREFIX = true ->
  get_networks nsxv (backend w) = Ok nets ->
  last (listed_as moref nets) = Some net ->
  name net = Some ("dvs-" +:+ ds +:+ rest) ->
  unambiguous (decimals H) = true ->
  decimal_run (decimals H) ds ->
  starts_with_decimal (decimals H) rest = false ->
  let dvs_id := "dvs-" +:+ ds in
  delete_backend_network nsxv H kw w =
  (Ok tt,
   {| backend := snd (delete_port_group nsxv (backend w) dvs_id moref);
      calls := calls w ++ [DeletePortGroup dvs_id moref];
      log := log w ++
             [deletion_record moref
                (fst (delete_port_group nsxv (backend w) dvs_id moref))] |}).
Proof.
  intros Hnp Hparse Hmoref Hprefix Hnets Hlast Hname Hwf Hd Hr dvs_id.
  destruct (name_of_last_listed nsxv (backend w) nets moref Hnets)
    as (name_map & Hmap & Hlook).
  rewrite Hlast in Hlook. simpl in Hlook. rewrite Hname in Hlook.
  assert (moref <> "") as Hne by (intros ->; discriminate).
  assert ("dvs-" +:+ ds +:+ rest <> "") as Hnn by discriminate.
  rewrite (delete_backend_network_named nsxv H kw w properties moref _
             name_map Hnp Hparse Hmoref Hne Hmap Hlook Hnn).
  rewrite Hprefix, (get_dvs_id_of_shape (decimals H) ds rest Hwf Hd Hr).
  apply (report_deletion_call moref (DeletePortGroup dvs_id moref)
           (fun b => delete_port_group nsxv b dvs_id moref)).
Qed.

(** The port group [dvportgroup-7] is listed twice; the later name decides
    the adapter.  A port group named [dvs-] and no digit is deleted under
    the adapter [dvs-].  A port group named [dvs-7], U+0663 and [-b] is
    deleted under the adapter whose id takes the Arabic-Indic digit too. *)
Lemma port_group_is_deleted_under_the_adapter_of_its_name_example :
  let port := object "DistributedVirtualPortgroup" in
  let kw := {| property := Some ["moref=dvportgroup-7"] |} in
  let three := String "217" (String "163" "") in
  calls (snd (delete_backend_network sim_client sim_helpers kw
                (sim_world (scoping_objects [port "dvportgroup-7" "dvs-1-net-b";
                                             port "dvportgroup-7" "dvs-22-net-b"])
                   "LACP_V2")))
  = [DeletePortGroup "dvs-22" "dvportgroup-7"] /\
  calls (snd (delete_backend_network sim_client sim_helpers kw
                (sim_world (scoping_objects [port "dvportgroup-7" "dvs-uplinks"])
                   "LACP_V2")))
  = [DeletePortGroup "dvs-" "dvportgroup-7"] /\
  calls (snd (delete_backend_network sim_client sim_helpers kw
                (sim_world
                   (scoping_objects [port "dvportgroup-7" ("dvs-7" +:+ three +:+ "-b")])
                   "LACP_V2")))
  = [DeletePortGroup ("dvs-7" +:+ three) "dvportgroup-7"].
Proof.
  cbv zeta.
  set (kw := {| property := Some ["moref=dvportgroup-7"] |}).
  set (three := String "217" (String "163" "")).
  set (net := fun nm => {| type := Some "DistributedVirtualPortgroup";
                           moref := Some "dvportgroup-7"; name := Some nm |}).
  split; [|split].
  - rewrite (port_group_is_deleted_under_the_adapter_of_its_name sim_client
               sim_helpers kw
               (sim_world
                  (scoping_objects
                     [object "DistributedVirtualPortgroup" "dvportgroup-7" "dvs-1-net-b";
                      object "DistributedVirtualPortgroup" "dvportgroup-7" "dvs-22-net-b"])
                  "LACP_V2")
               {[ "moref" := "dvportgroup-7" ]} "dvportgroup-7" "22" "-net-b"
               [net "dvs-1-net-b"; net "dvs-22-net-b"] (net "dvs-22-net-b"));
      [reflexivity|reflexivity|vm_compute; reflexivity|vm_compute; reflexivity
      |reflexivity|reflexivity|reflexivity|reflexivity|reflexivity
      |now apply decimal_run_digits|reflexivity].
  - rewrite (port_group_is_deleted_under_the_adapter_of_its_name sim_client
               sim_helpers kw
               (sim_world
                  (scoping_objects
                     [object "DistributedVirtualPortgroup" "dvportgroup-7" "dvs-uplinks"])
                  "LACP_V2")
               {[ "moref" := "dvportgroup-7" ]} "dvportgroup-7" "" "uplinks"
               [net "dvs-uplinks"] (net "dvs-uplinks"));
      [reflexivity|reflexivity|vm_compute; reflexivity|vm_compute; reflexivity
      |reflexivity|reflexivity|reflexivity|reflexivity|reflexivity
      |constructor|reflexivity].
  - rewrite (port_group_is_deleted_under_the_adapter_of_its_name sim_client
               sim_helpers kw
               (sim_world
                  (scoping_objects
                     [object "DistributedVirtualPortgroup" "dvportgroup-7"
                        ("dvs-7" +:+ three +:+ "-b")])
                  "LACP_V2")
               {[ "moref" := "dvportgroup-7" ]} "dvportgroup-7"
               ("7" +:+ three) "-b"
               [net ("dvs-7" +:+ three +:+ "-b")] (net ("dvs-7" +:+ three +:+ "-b")));
      [reflexivity|reflexivity|vm_compute; reflexivity|vm_compute; reflexivity
      |reflexivity|reflexivity|reflexivity|reflexivity|reflexivity
      | |reflexivity].
    constructor; [left; exists "7"%char; split; reflexivity|].
    rewrite <- (append_empty_r three).
    constructor; [right; split; [vm_compute; tauto|discriminate]|constructor].
Defined.

(** Whatever the options, the inventory and the client: the command issues
    at most one changing call and, without one, leaves the backend as it
    was; when it returns it has written exactly one log record; and when it
    raises, the exception is that of the option parser or of reading the
    inventory and nothing was called or logged.  In particular the failure
    of a deletion call is logged, never raised. *)
Theorem deletion_failures_are_logged_not_raised {B} (nsxv : nsxv_client B)
    (H : helpers) (kw : kwargs) (w : world B) :
  let out := delete_backend_network nsxv H kw w in
  (exists l, calls (snd out) = calls w ++ l /\ (length l <= 1)%nat /\
             (l = [] -> backend (snd out) = backend w)) /\
  match fst out with
  | Ok _ => exists r, log (snd out) = log w ++ [r]
  | Raise e =>
      snd out = w /\
      (parse_multi_keyval_opt H (property_of kw) = Raise e \/
       get_networks_name_map nsxv (backend w) = Raise e)
  end.
Proof.
  cbv zeta. unfold delete_backend_network.
  assert (forall m a, let w' := LOG ERROR m a w in
            (exists l, calls w' = calls w ++ l /\ (length l <= 1)%nat /\
                       (l = [] -> backend w' = backend w)) /\
            exists r, log w' = log w ++ [r]) as Hlog.
  { intros m a. simpl. split; [|eauto].
    exists []. rewrite app_nil_r. auto. }
  assert (forall moref c (f : B -> result unit * B),
            let out := report_deletion moref (call c f w) in
            (exists l, calls (snd out) = calls w ++ l /\ (length l <= 1)%nat /\
                       (l = [] -> backend (snd out) = backend w)) /\
            match fst out with
            | Ok _ => exists r, log (snd out) = log w ++ [r]
            | Raise e =>
                snd out = w /\
                (parse_multi_keyval_opt H (property_of kw) = Raise e \/
                 get_networks_name_map nsxv (backend w) = Raise e)
            end) as Hcall.
  { intros moref c f. cbv zeta. rewrite report_deletion_call. simpl. split; [|eauto].
    exists [c]. split; [reflexivity|]. split; [simpl; lia|discriminate]. }
  destruct (no_property kw); [apply Hlog|].
  destruct (parse_multi_keyval_opt H (property_of kw)) as [properties|e]; cbv zeta.
  2: { simpl. split; [|auto]. exists []. rewrite app_nil_r. auto. }
  destruct (negb (truthy (properties !! "moref"))); [apply Hlog|].
  destruct (get_networks_name_map nsxv (backend w)) as [name_map|e].
  2: { simpl. split; [|auto]. exists []. rewrite app_nil_r. auto. }
  destruct (negb (truthy (mjoin (name_map !! Some (default "" (properties !! "moref"))))));
    [apply Hlog|].
  destruct (startswith (default "" (properties !! "moref")) PORTGROUP_PREFIX);
    [|apply Hcall].
  destruct (negb (truthy (get_dvs_id_from_backend_name _ _))); [apply Hlog|apply Hcall].
Qed.

(** A backend id that the inventory does not list, or lists last without a
    name or with an empty one, is not deleted: the command logs that it did
    not find the network, issues no call and leaves the backend as it was. *)
Theorem unlisted_moref_is_not_deleted {B} (nsxv : nsxv_client B) (H : helpers)
    (kw : kwargs) (w : world B) (properties : gmap string string)
    (moref : string) nets :
  no_property kw = false ->
  parse_multi_keyval_opt H (property_of kw) = Ok properties ->
  properties !! "moref" = Some moref ->
  moref <> "" ->
  get_networks nsxv (backend w) = Ok nets ->
  (forall net, last (listed_as moref nets) = Some net -> truthy (name net) = false) ->
  delete_backend_network nsxv H kw w =
  (Ok tt,
   LOG ERROR "Failed to find the backend network %(moref)s"
     (Mapping [("moref", VStr moref)]) w).
Proof.
  intros Hnp Hparse Hmoref Hne Hnets Hnone.
  destruct (name_of_last_listed nsxv (backend w) nets moref Hnets)
    as (name_map & Hmap & Hlook).
  unfold delete_backend_network. rewrite Hnp, Hparse. cbv zeta.
  CommandFacts.pass_guard Hmoref (truthy_Some _ Hne).
  rewrite Hmap, Hlook.
  destruct (last (listed_as moref nets)) as [net|]; [|reflexivity].
  simpl mjoin. now rewrite (Hnone net eq_refl).
Qed.

(** The inventory lists [virtualwire-3] only. *)
Lemma unlisted_moref_is_not_deleted_example :
  let w := sim_world (scoping_objects [object "VirtualWire" "virtualwire-3" "net-a"])
             "LACP_V2" in
  delete_backend_network sim_client sim_helpers
    {| property := Some ["moref=virtualwire-9"] |} w
  = (Ok tt,
     LOG ERROR "Failed to find the backend network %(moref)s"
       (Mapping [("moref", VStr "virtualwire-9")]) w).
Proof.
  cbv zeta.
  apply (unlisted_moref_is_not_deleted sim_client sim_helpers
           {| property := Some ["moref=virtualwire-9"] |}
           (sim_world (scoping_objects [object "VirtualWire" "virtualwire-3" "net-a"])
              "LACP_V2")
           {[ "moref" := "virtualwire-9" ]} "virtualwire-9"
           [{| type := Some "VirtualWire"; moref := Some "virtualwire-3";
               name := Some "net-a" |}]).
  - reflexivity.
  - vm_compute. reflexivity.
  - vm_compute. reflexivity.
  - discriminate.
  - reflexivity.
  - intros net Hnet. vm_compute in Hnet. discriminate.
Defined.

(** *** Updating the teaming policy of a switch *)

Lemma in_list_true (x : option string) (l : list string) :
  in_list x l = true -> exists s, x = Some s /\ In s l.
Proof.
  destruct x as [s|]; [|discriminate]. simpl. intros Hex.
  apply existsb_exists in Hex as (y & Hin & Heq).
  apply String.eqb_eq in Heq. subst y. eauto.
Qed.

(** Past its guards, the command is one update call and what follows it. *)
Lemma nsx_update_switch_sends {B} (nsxv : nsxv_client B) (H : helpers)
    (kw : kwargs) (w : world B) (properties : gmap string string)
    (dvs_id policy : string) (h current : json) (switch : gmap string json) :
  no_property kw = false ->
  parse_multi_keyval_opt H (property_of kw) = Ok properties ->
  properties !! "dvs-id" = Some dvs_id ->
  dvs_id <> "" ->
  get_vdn_switch nsxv (backend w) dvs_id = Ok (h, switch) ->
  properties !! "teamingpolicy" = Some policy ->
  In policy supported_policies ->
  switch !! "teamingPolicy" = Some current ->
  json_eq_str current policy = false ->
  let sent := <["teamingPolicy" := JStr policy]> switch in
  let w1 :=
    {| backend := snd (update_vdn_switch nsxv (backend w) sent);
       calls := calls w ++ [UpdateVdnSwitch sent];
       log := log w ++
              [{| levelname := INFO;
                  msg := "Updating NSXv switch %(dvs)s teaming policy to %(policy)s";
                  args := Mapping [("dvs", VStr dvs_id); ("policy", VStr policy)] |}] |} in
  nsx_update_switch nsxv H kw w =
  match fst (update_vdn_switch nsxv (backend w) sent) with
  | Raise (VcnsApiException response) => update_failed H policy response w1
  | Raise e => (Raise e, w1)
  | Ok switch' =>
      (Ok tt, LOG INFO "Switch value after update: %s" (Positional [VJson switch']) w1)
  end.
Proof.
  intros Hnp Hparse Hdvs Hne Hget Hpol Hin Hcur Hdiff. cbv zeta.
  unfold nsx_update_switch. rewrite Hnp, Hparse. cbv zeta.
  CommandFacts.pass_guard Hdvs (truthy_Some _ Hne).
  rewrite Hget, Hpol, (CommandFacts.in_list_Some _ _ Hin). simpl default.
  rewrite Hcur, Hdiff. unfold call, LOG. simpl backend. simpl calls. simpl log.
  destruct (update_vdn_switch nsxv (backend w) (<["teamingPolicy" := JStr policy]> switch))
    as [r b']. reflexivity.
Qed.

(** When the options name an adapter that exists and a supported teaming
    policy other than the one the adapter has, and the backend accepts the
    update, the command issues the one call [update_vdn_switch] with the
    switch as it was read except that its teaming policy is the one asked
    for, leaves the backend as that call left it, and logs the update and
    the switch the backend answered with. *)
Theorem new_teaming_policy_is_sent_with_the_switch_read {B} (nsxv : nsxv_client B)
    (H : helpers) (kw : kwargs) (w : world B) (properties : gmap string string)
    (dvs_id policy : string) (h current answer : json) (switch : gmap string json) :
  no_property kw = false ->
  parse_multi_keyval_opt H (property_of kw) = Ok properties ->
  properties !! "dvs-id" = Some dvs_id ->
  dvs_id <> "" ->
  get_vdn_switch nsxv (backend w) dvs_id = Ok (h, switch) ->
  properties !! "teamingpolicy" = Some policy ->
  In policy supported_policies ->
  switch !! "teamingPolicy" = Some current ->
  json_eq_str current policy = false ->
  let sent := <["teamingPolicy" := JStr policy]> switch in
  fst (update_vdn_switch nsxv (backend w) sent) = Ok answer ->
  (forall k, k <> "teamingPolicy" -> sent !! k = switch !! k) /\
  nsx_update_switch nsxv H kw w =
  (Ok tt,
   {| backend := snd (update_vdn_switch nsxv (backend w) sent);
      calls := calls w ++ [UpdateVdnSwitch sent];
      log := log w ++
             [{| levelname := INFO;
                 msg := "Updating NSXv switch %(dvs)s teaming policy to %(policy)s";
                 args := Mapping [("dvs", VStr dvs_id); ("policy", VStr policy)] |};
              {| levelname := INFO; msg := "Switch value after update: %s";
                 args := Positional [VJson answer] |}] |}).
Proof.
  intros Hnp Hparse Hdvs Hne Hget Hpol Hin Hcur Hdiff sent Hanswer. split.
  - intros k Hk. subst sent. now rewrite lookup_insert_ne.
  - rewrite (nsx_update_switch_sends nsxv H kw w properties dvs_id policy h current
               switch Hnp Hparse Hdvs Hne Hget Hpol Hin Hcur Hdiff).
    fold sent. rewrite Hanswer. unfold LOG. simpl. now rewrite <- app_assoc.
Qed.

(** The switch [dvs-1] has policy [LACP_V2] and [FAILOVER_ORDER] is asked
    for: afterwards the backend holds the switch with the new policy. *)
Lemma new_teaming_policy_is_sent_with_the_switch_read_example :
  let kw := {| property := Some ["dvs-id=dvs-1"; "teamingpolicy=FAILOVER_ORDER"] |} in
  let w := sim_world (scoping_objects []) "LACP_V2" in
  let sent : gmap string json :=
    {[ "objectId" := JStr "dvs-1"; "teamingPolicy" := JStr "FAILOVER_ORDER" ]} in
  fst (nsx_update_switch sim_client sim_helpers kw w) = Ok tt /\
  calls (snd (nsx_update_switch sim_client sim_helpers kw w)) = [UpdateVdnSwitch sent] /\
  get_vdn_switch sim_client (backend (snd (nsx_update_switch sim_client sim_helpers kw w)))
    "dvs-1" = Ok (JNull, sent).
Proof.
  cbv zeta.
  destruct (new_teaming_policy_is_sent_with_the_switch_read sim_client sim_helpers
              {| property := Some ["dvs-id=dvs-1"; "teamingpolicy=FAILOVER_ORDER"] |}
              (sim_world (scoping_objects []) "LACP_V2")
              {[ "dvs-id" := "dvs-1"; "teamingpolicy" := "FAILOVER_ORDER" ]}
              "dvs-1" "FAILOVER_ORDER" JNull (JStr "LACP_V2")
              (JDict (map_to_list
                        (<["teamingPolicy" := JStr "FAILOVER_ORDER"]>
                           ({[ "objectId" := JStr "dvs-1";
                               "teamingPolicy" := JStr "LACP_V2" ]}
                            : gmap string json))))
              {[ "objectId" := JStr "dvs-1"; "teamingPolicy" := JStr "LACP_V2" ]})
    as [_ ->].
  - reflexivity.
  - vm_compute. reflexivity.
  - vm_compute. reflexivity.
  - discriminate.
  - vm_compute. reflexivity.
  - vm_compute. reflexivity.
  - simpl. tauto.
  - vm_compute. reflexivity.
  - reflexivity.
  - vm_compute. reflexivity.
  - split; [reflexivity|]. split; vm_compute; reflexivity.
Defined.

(** Whatever the options and the client: either the command issues no
    changing call and leaves the backend as it was, or it issues exactly one,
    an update of a switch it has just read from the backend, changed only
    in that its teaming policy is one of the supported set that differs
    from the policy read.  No other policy is ever sent. *)
Theorem only_supported_policies_are_sent {B} (nsxv : nsxv_client B)
    (H : helpers) (kw : kwargs) (w : world B) :
  let out := nsx_update_switch nsxv H kw w in
  (calls (snd out) = calls w /\ backend (snd out) = backend w) \/
  (exists dvs_id h switch current policy,
     get_vdn_switch nsxv (backend w) dvs_id = Ok (h, switch) /\
     In policy supported_policies /\
     switch !! "teamingPolicy" = Some current /\
     json_eq_str current policy = false /\
     let sent := <["teamingPolicy" := JStr policy]> switch in
     calls (snd out) = calls w ++ [UpdateVdnSwitch sent] /\
     backend (snd out) = snd (update_vdn_switch nsxv (backend w) sent)).
Proof.
  cbv zeta. unfold nsx_update_switch.
  destruct (no_property kw); [left; simpl; auto|].
  destruct (parse_multi_keyval_opt H (property_of kw)) as [properties|e];
    [|left; simpl; auto].
  cbv zeta.
  destruct (negb (truthy (properties !! "dvs-id"))); [left; simpl; auto|].
  destruct (get_vdn_switch nsxv (backend w) (default "" (properties !! "dvs-id")))
    as [[h switch]|e] eqn:Hget; [|destruct e; left; simpl; auto].
  destruct (in_list (properties !! "teamingpolicy") supported_policies) eqn:Hin;
    [|left; simpl; auto].
  apply in_list_true in Hin as (policy & Hpol & Hin). rewrite Hpol. simpl default.
  destruct (switch !! "teamingPolicy") as [current|] eqn:Hcur; [|left; simpl; auto].
  destruct (json_eq_str current policy) eqn:Hdiff; [left; simpl; auto|].
  right. exists (default "" (properties !! "dvs-id")), h, switch, current, policy.
  split; [exact Hget|]. split; [exact Hin|]. split; [exact Hcur|].
  split; [exact Hdiff|]. unfold call, LOG. simpl backend. simpl calls. simpl log.
  destruct (update_vdn_switch nsxv (backend w) (<["teamingPolicy" := JStr policy]> switch))
    as [[answer|e] b']; [simpl; auto|].
  destruct e; simpl; auto.
  unfold update_failed. destruct (loads H response) as [desc|e]; [|simpl; auto].
  destruct (details_of desc) as [details|e]; [|simpl; auto].
  destruct (startswith details "No enum constant"); simpl; auto.
Qed.

(** When the backend refuses the update with an API error, the command
    decodes the response: with details that begin [No enum constant] it
    logs the policy as unknown, with other details it logs them as an
    unexpected error, and in both cases it returns without logging a switch
    value; when the decoded response has no text under [details], the
    handler itself raises [AttributeError].  The call was issued in every
    case. *)
Theorem refused_update_is_reported_by_its_details {B} (nsxv : nsxv_client B)
    (H : helpers) (kw : kwargs) (w : world B) (properties : gmap string string)
    (dvs_id policy response : string) (h current desc : json)
    (switch : gmap string json) :
  no_property kw = false ->
  parse_multi_keyval_opt H (property_of kw) = Ok properties ->
  properties !! "dvs-id" = Some dvs_id ->
  dvs_id <> "" ->
  get_vdn_switch nsxv (backend w) dvs_id = Ok (h, switch) ->
  properties !! "teamingpolicy" = Some policy ->
  In policy supported_policies ->
  switch !! "teamingPolicy" = Some current ->
  json_eq_str current policy = false ->
  let sent := <["teamingPolicy" := JStr policy]> switch in
  fst (update_vdn_switch nsxv (backend w) sent) = Raise (VcnsApiException response) ->
  loads H response = Ok desc ->
  let out := nsx_update_switch nsxv H kw w in
  let updating :=
    {| levelname := INFO;
       msg := "Updating NSXv switch %(dvs)s teaming policy to %(policy)s";
       args := Mapping [("dvs", VStr dvs_id); ("policy", VStr policy)] |} in
  calls (snd out) = calls w ++ [UpdateVdnSwitch sent] /\
  backend (snd out) = snd (update_vdn_switch nsxv (backend w) sent) /\
  match details_of desc with
  | Ok details =>
      fst out = Ok tt /\
      log (snd out) =
        log w ++
        [updating;
         if startswith details "No enum constant"
         then {| levelname := ERROR; msg := "Unknown teaming policy %s";
                 args := Positional [VStr policy] |}
         else {| levelname := ERROR; msg := "Unexpected error occurred: %s";
                 args := Positional [VStr details] |}]
  | Raise e =>
      fst out = Raise AttributeError /\ e = AttributeError /\
      log (snd out) = log w ++ [updating]
  end.
Proof.
  intros Hnp Hparse Hdvs Hne Hget Hpol Hin Hcur Hdiff sent Hrefused Hloads.
  cbv zeta.
  rewrite (nsx_update_switch_sends nsxv H kw w properties dvs_id policy h current
             switch Hnp Hparse Hdvs Hne Hget Hpol Hin Hcur Hdiff).
  fold sent. rewrite Hrefused. unfold update_failed. rewrite Hloads.
  assert (forall e, details_of desc = Raise e -> e = AttributeError) as Hattr.
  { intros e. unfold details_of. destruct desc as [| | | | |d]; try now intros [= <-].
    destruct (List.find _ d) as [[k [| | |s| |]]|]; now intros [= <-]. }
  destruct (details_of desc) as [details|e] eqn:Hdetails.
  - destruct (startswith details "No enum constant"); simpl;
      rewrite <- app_assoc; auto.
  - rewrite (Hattr e eq_refl). simpl. auto.
Qed.

(** A client that refuses the update: with details that name the enum, the
    policy is logged as unknown; with an empty description, the handler
    raises. *)
Lemma refused_update_is_reported_by_its_details_example :
  let kw := {| property := Some ["dvs-id=dvs-1"; "teamingpolicy=LACP_ACTIVE"] |} in
  let w := sim_world (scoping_objects []) "LACP_V2" in
  let refusal := "No enum constant TeamingPolicy.LACP_ACTIVE" in
  let out := nsx_update_switch (refusing_client refusal) describing_helpers kw w in
  fst out = Ok tt /\
  List.map msg (log (snd out)) =
    ["Updating NSXv switch %(dvs)s teaming policy to %(policy)s";
     "Unknown teaming policy %s"] /\
  fst (nsx_update_switch (refusing_client "{}") sim_helpers kw w) = Raise AttributeError.
Proof.
  cbv zeta.
  set (kw := {| property := Some ["dvs-id=dvs-1"; "teamingpolicy=LACP_ACTIVE"] |}).
  set (w := sim_world (scoping_objects []) "LACP_V2").
  set (props := ({[ "dvs-id" := "dvs-1"; "teamingpolicy" := "LACP_ACTIVE" ]}
                 : gmap string string)).
  set (switch := ({[ "objectId" := JStr "dvs-1"; "teamingPolicy" := JStr "LACP_V2" ]}
                  : gmap string json)).
  pose proof (refused_update_is_reported_by_its_details
                (refusing_client "No enum constant TeamingPolicy.LACP_ACTIVE")
                describing_helpers kw w props "dvs-1" "LACP_ACTIVE"
                "No enum constant TeamingPolicy.LACP_ACTIVE" JNull (JStr "LACP_V2")
                (JDict [("errorCode", JNum 100);
                        ("details", JStr "No enum constant TeamingPolicy.LACP_ACTIVE")])
                switch) as Hknown.
  pose proof (refused_update_is_reported_by_its_details
                (refusing_client "{}") sim_helpers kw w props "dvs-1" "LACP_ACTIVE"
                "{}" JNull (JStr "LACP_V2") (JDict []) switch) as Hempty.
  cbv zeta in Hknown, Hempty.
  destruct Hknown as (_ & _ & Hfst & Hlog);
    [reflexivity|vm_compute; reflexivity|vm_compute; reflexivity|discriminate
    |vm_compute; reflexivity|vm_compute; reflexivity|simpl; tauto
    |vm_compute; reflexivity|reflexivity|reflexivity|reflexivity|].
  destruct Hempty as (_ & _ & Hraise & _);
    [reflexivity|vm_compute; reflexivity|vm_compute; reflexivity|discriminate
    |vm_compute; reflexivity|vm_compute; reflexivity|simpl; tauto
    |vm_compute; reflexivity|reflexivity|reflexivity|reflexivity|].
  split; [exact Hfst|]. split; [|exact Hraise].
  rewrite Hlog. reflexivity.
Defined.

End CommandMore.
